(** * Mortality predictor: the prediction core of [main.py]

    A shallow embedding of the lookup resolver
    ([get_base_life_expectancy]), the modifier engine
    ([apply_lifestyle_modifiers]) and the lifespan composer ([predict]),
    followed by the properties the specification states about them.

    Modelling choices.
    - A Python [float] is a binary64 number: Rocq's primitive [float], with
      the operations of the kernel and the axioms of [FloatAxioms] that tie
      them to [SpecFloat].
    - A Python [str] is a sequence of Unicode code points, [str];
      [strip] and [lower] are CPython's, with the whitespace, lower-case,
      Cased and Case_Ignorable tables of its Unicode database (Unicode
      14.0.0, CPython 3.11).
    - A Python [dict] with string keys is a [gmap str _].
    - A [datetime.date] is represented by its proleptic Gregorian ordinal
      ([date.toordinal()]); [_ymd2ord] and [_ord2ymd] are CPython's
      conversions from and to (year, month, day).
    - Exceptions are values of [exn], carried by the [result] monad.
    - [date.today()] is the argument [today] of [predict]. *)

From Stdlib Require Import ZArith Lia Bool List Floats Uint63.
From stdpp Require Import base gmap.

#[local] Set Warnings "-inexact-float".
#[local] Open Scope Z_scope.

(** ** Strings: [str.strip] and [str.lower] *)

(** A [str] is a sequence of Unicode code points. A literal ["usa"] denotes
    the string of its ASCII characters. *)
Record str : Type := Str { code_points : list N }.

Definition str_of_bytes (l : list Byte.byte) : option str :=
  if forallb (fun b => (Byte.to_N b <? 128)%N) l
  then Some (Str (List.map Byte.to_N l)) else None.

Definition bytes_of_str (s : str) : option (list Byte.byte) :=
  if forallb (fun c => (c <? 128)%N) (code_points s)
  then Some (List.map (fun c => default Byte.x00 (Byte.of_N c))
               (code_points s))
  else None.

Declare Scope str_scope.
Delimit Scope str_scope with str.
Bind Scope str_scope with str.
String Notation str str_of_bytes bytes_of_str : str_scope.

#[global] Instance str_eq_dec : EqDecision str.
Proof. solve_decision. Defined.

#[global] Instance str_countable : Countable str :=
  inj_countable' code_points Str (fun s => match s with Str _ => eq_refl end).

Definition in_ranges (c : N) (ranges : list (N * N)) : bool :=
  existsb (fun r => (fst r <=? c)%N && (c <=? snd r)%N) ranges.

(** The code points [_PyUnicode_IsWhitespace] accepts, as closed ranges. *)
Definition whitespace_ranges : list (N * N) :=
  [(0x9, 0xD); (0x1C, 0x20); (0x85, 0x85); (0xA0, 0xA0); (0x1680, 0x1680);
   (0x2000, 0x200A); (0x2028, 0x2029); (0x202F, 0x202F); (0x205F, 0x205F);
   (0x3000, 0x3000) ]%N.

Definition _PyUnicode_IsWhitespace (c : N) : bool :=
  in_ranges c whitespace_ranges.

Fixpoint skip_whitespace (l : list N) : list N :=
  match l with
  | [] => []
  | c :: l' => if _PyUnicode_IsWhitespace c then skip_whitespace l' else l
  end.

(** [str.strip()] removes the whitespace at both ends; [lstrip] and
    [rstrip] are its two halves. *)
Definition lstrip (s : str) : str := Str (skip_whitespace (code_points s)).

Definition rstrip (s : str) : str :=
  Str (rev (skip_whitespace (rev (code_points s)))).

Definition strip (s : str) : str := rstrip (lstrip s).

(** The simple lower-case mappings, as runs [(first, last, step, target)]:
    the code points [first], [first + step], ..., [last] map to [target],
    [target + step], ... *)
Definition lowercase_runs : list (N * N * N * N) :=
  [(0x41, 0x5A, 1, 0x61); (0xC0, 0xD6, 1, 0xE0); (0xD8, 0xDE, 1, 0xF8);
   (0x100, 0x12E, 2, 0x101); (0x132, 0x136, 2, 0x133);
   (0x139, 0x147, 2, 0x13A); (0x14A, 0x176, 2, 0x14B);
   (0x178, 0x178, 1, 0xFF); (0x179, 0x17D, 2, 0x17A);
   (0x181, 0x181, 1, 0x253); (0x182, 0x184, 2, 0x183);
   (0x186, 0x186, 1, 0x254); (0x187, 0x187, 1, 0x188);
   (0x189, 0x18A, 1, 0x256); (0x18B, 0x18B, 1, 0x18C);
   (0x18E, 0x18E, 1, 0x1DD); (0x18F, 0x18F, 1, 0x259);
   (0x190, 0x190, 1, 0x25B); (0x191, 0x191, 1, 0x192);
   (0x193, 0x193, 1, 0x260); (0x194, 0x194, 1, 0x263);
   (0x196, 0x196, 1, 0x269); (0x197, 0x197, 1, 0x268);
   (0x198, 0x198, 1, 0x199); (0x19C, 0x19C, 1, 0x26F);
   (0x19D, 0x19D, 1, 0x272); (0x19F, 0x19F, 1, 0x275);
   (0x1A0, 0x1A4, 2, 0x1A1); (0x1A6, 0x1A6, 1, 0x280);
   (0x1A7, 0x1A7, 1, 0x1A8); (0x1A9, 0x1A9, 1, 0x283);
   (0x1AC, 0x1AC, 1, 0x1AD); (0x1AE, 0x1AE, 1, 0x288);
   (0x1AF, 0x1AF, 1, 0x1B0); (0x1B1, 0x1B2, 1, 0x28A);
   (0x1B3, 0x1B5, 2, 0x1B4); (0x1B7, 0x1B7, 1, 0x292);
   (0x1B8, 0x1B8, 1, 0x1B9); (0x1BC, 0x1BC, 1, 0x1BD);
   (0x1C4, 0x1C4, 1, 0x1C6); (0x1C5, 0x1C5, 1, 0x1C6);
   (0x1C7, 0x1C7, 1, 0x1C9); (0x1C8, 0x1C8, 1, 0x1C9);
   (0x1CA, 0x1CA, 1, 0x1CC); (0x1CB, 0x1DB, 2, 0x1CC);
   (0x1DE, 0x1EE, 2, 0x1DF); (0x1F1, 0x1F1, 1, 0x1F3);
   (0x1F2, 0x1F4, 2, 0x1F3); (0x1F6, 0x1F6, 1, 0x195);
   (0x1F7, 0x1F7, 1, 0x1BF); (0x1F8, 0x21E, 2, 0x1F9);
   (0x220, 0x220, 1, 0x19E); (0x222, 0x232, 2, 0x223);
   (0x23A, 0x23A, 1, 0x2C65); (0x23B, 0x23B, 1, 0x23C);
   (0x23D, 0x23D, 1, 0x19A); (0x23E, 0x23E, 1, 0x2C66);
   (0x241, 0x241, 1, 0x242); (0x243, 0x243, 1, 0x180);
   (0x244, 0x244, 1, 0x289); (0x245, 0x245, 1, 0x28C);
   (0x246, 0x24E, 2, 0x247); (0x370, 0x372, 2, 0x371);
   (0x376, 0x376, 1, 0x377); (0x37F, 0x37F, 1, 0x3F3);
   (0x386, 0x386, 1, 0x3AC); (0x388, 0x38A, 1, 0x3AD);
   (0x38C, 0x38C, 1, 0x3CC); (0x38E, 0x38F, 1, 0x3CD);
   (0x391, 0x3A1, 1, 0x3B1); (0x3A3, 0x3AB, 1, 0x3C3);
   (0x3CF, 0x3CF, 1, 0x3D7); (0x3D8, 0x3EE, 2, 0x3D9);
   (0x3F4, 0x3F4, 1, 0x3B8); (0x3F7, 0x3F7, 1, 0x3F8);
   (0x3F9, 0x3F9, 1, 0x3F2); (0x3FA, 0x3FA, 1, 0x3FB);
   (0x3FD, 0x3FF, 1, 0x37B); (0x400, 0x40F, 1, 0x450);
   (0x410, 0x42F, 1, 0x430); (0x460, 0x480, 2, 0x461);
   (0x48A, 0x4BE, 2, 0x48B); (0x4C0, 0x4C0, 1, 0x4CF);
   (0x4C1, 0x4CD, 2, 0x4C2); (0x4D0, 0x52E, 2, 0x4D1);
   (0x531, 0x556, 1, 0x561); (0x10A0, 0x10C5, 1, 0x2D00);
   (0x10C7, 0x10C7, 1, 0x2D27); (0x10CD, 0x10CD, 1, 0x2D2D);
   (0x13A0, 0x13EF, 1, 0xAB70); (0x13F0, 0x13F5, 1, 0x13F8);
   (0x1C90, 0x1CBA, 1, 0x10D0); (0x1CBD, 0x1CBF, 1, 0x10FD);
   (0x1E00, 0x1E94, 2, 0x1E01); (0x1E9E, 0x1E9E, 1, 0xDF);
   (0x1EA0, 0x1EFE, 2, 0x1EA1); (0x1F08, 0x1F0F, 1, 0x1F00);
   (0x1F18, 0x1F1D, 1, 0x1F10); (0x1F28, 0x1F2F, 1, 0x1F20);
   (0x1F38, 0x1F3F, 1, 0x1F30); (0x1F48, 0x1F4D, 1, 0x1F40);
   (0x1F59, 0x1F5F, 2, 0x1F51); (0x1F68, 0x1F6F, 1, 0x1F60);
   (0x1F88, 0x1F8F, 1, 0x1F80); (0x1F98, 0x1F9F, 1, 0x1F90);
   (0x1FA8, 0x1FAF, 1, 0x1FA0); (0x1FB8, 0x1FB9, 1, 0x1FB0);
   (0x1FBA, 0x1FBB, 1, 0x1F70); (0x1FBC, 0x1FBC, 1, 0x1FB3);
   (0x1FC8, 0x1FCB, 1, 0x1F72); (0x1FCC, 0x1FCC, 1, 0x1FC3);
   (0x1FD8, 0x1FD9, 1, 0x1FD0); (0x1FDA, 0x1FDB, 1, 0x1F76);
   (0x1FE8, 0x1FE9, 1, 0x1FE0); (0x1FEA, 0x1FEB, 1, 0x1F7A);
   (0x1FEC, 0x1FEC, 1, 0x1FE5); (0x1FF8, 0x1FF9, 1, 0x1F78);
   (0x1FFA, 0x1FFB, 1, 0x1F7C); (0x1FFC, 0x1FFC, 1, 0x1FF3);
   (0x2126, 0x2126, 1, 0x3C9); (0x212A, 0x212A, 1, 0x6B);
   (0x212B, 0x212B, 1, 0xE5); (0x2132, 0x2132, 1, 0x214E);
   (0x2160, 0x216F, 1, 0x2170); (0x2183, 0x2183, 1, 0x2184);
   (0x24B6, 0x24CF, 1, 0x24D0); (0x2C00, 0x2C2F, 1, 0x2C30);
   (0x2C60, 0x2C60, 1, 0x2C61); (0x2C62, 0x2C62, 1, 0x26B);
   (0x2C63, 0x2C63, 1, 0x1D7D); (0x2C64, 0x2C64, 1, 0x27D);
   (0x2C67, 0x2C6B, 2, 0x2C68); (0x2C6D, 0x2C6D, 1, 0x251);
   (0x2C6E, 0x2C6E, 1, 0x271); (0x2C6F, 0x2C6F, 1, 0x250);
   (0x2C70, 0x2C70, 1, 0x252); (0x2C72, 0x2C72, 1, 0x2C73);
   (0x2C75, 0x2C75, 1, 0x2C76); (0x2C7E, 0x2C7F, 1, 0x23F);
   (0x2C80, 0x2CE2, 2, 0x2C81); (0x2CEB, 0x2CED, 2, 0x2CEC);
   (0x2CF2, 0x2CF2, 1, 0x2CF3); (0xA640, 0xA66C, 2, 0xA641);
   (0xA680, 0xA69A, 2, 0xA681); (0xA722, 0xA72E, 2, 0xA723);
   (0xA732, 0xA76E, 2, 0xA733); (0xA779, 0xA77B, 2, 0xA77A);
   (0xA77D, 0xA77D, 1, 0x1D79); (0xA77E, 0xA786, 2, 0xA77F);
   (0xA78B, 0xA78B, 1, 0xA78C); (0xA78D, 0xA78D, 1, 0x265);
   (0xA790, 0xA792, 2, 0xA791); (0xA796, 0xA7A8, 2, 0xA797);
   (0xA7AA, 0xA7AA, 1, 0x266); (0xA7AB, 0xA7AB, 1, 0x25C);
   (0xA7AC, 0xA7AC, 1, 0x261); (0xA7AD, 0xA7AD, 1, 0x26C);
   (0xA7AE, 0xA7AE, 1, 0x26A); (0xA7B0, 0xA7B0, 1, 0x29E);
   (0xA7B1, 0xA7B1, 1, 0x287); (0xA7B2, 0xA7B2, 1, 0x29D);
   (0xA7B3, 0xA7B3, 1, 0xAB53); (0xA7B4, 0xA7C2, 2, 0xA7B5);
   (0xA7C4, 0xA7C4, 1, 0xA794); (0xA7C5, 0xA7C5, 1, 0x282);
   (0xA7C6, 0xA7C6, 1, 0x1D8E); (0xA7C7, 0xA7C9, 2, 0xA7C8);
   (0xA7D0, 0xA7D0, 1, 0xA7D1); (0xA7D6, 0xA7D8, 2, 0xA7D7);
   (0xA7F5, 0xA7F5, 1, 0xA7F6); (0xFF21, 0xFF3A, 1, 0xFF41);
   (0x10400, 0x10427, 1, 0x10428); (0x104B0, 0x104D3, 1, 0x104D8);
   (0x10570, 0x10594, 2, 0x10597); (0x10571, 0x10579, 2, 0x10598);
   (0x1057D, 0x10589, 2, 0x105A4); (0x1058D, 0x10591, 2, 0x105B4);
   (0x10595, 0x10595, 1, 0x105BC); (0x10C80, 0x10CB2, 1, 0x10CC0);
   (0x118A0, 0x118BF, 1, 0x118C0); (0x16E40, 0x16E5F, 1, 0x16E60);
   (0x1E900, 0x1E921, 1, 0x1E922) ]%N.

Definition in_run (c : N) (r : N * N * N * N) : bool :=
  let '(first, last, step, _) := r in
  (first <=? c)%N && (c <=? last)%N && ((c - first) mod step =? 0)%N.

(** The lower-case form of one code point: one code point of the table,
    the two code points "i" and U+0307 for U+0130, the code point itself
    otherwise. *)
Definition _PyUnicode_ToLowerFull (c : N) : list N :=
  match find (in_run c) lowercase_runs with
  | Some (first, _, _, target) => [(target + (c - first))%N]
  | None => if (c =? 0x130)%N then [0x69; 0x307]%N else [c]
  end.

(** The code points with the property Cased, as closed ranges. *)
Definition cased_ranges : list (N * N) :=
  [(0x41, 0x5A); (0x61, 0x7A); (0xAA, 0xAA); (0xB5, 0xB5); (0xBA, 0xBA);
   (0xC0, 0xD6); (0xD8, 0xF6); (0xF8, 0x1BA); (0x1BC, 0x1BF); (0x1C4, 0x293);
   (0x295, 0x2B8); (0x2C0, 0x2C1); (0x2E0, 0x2E4); (0x345, 0x345);
   (0x370, 0x373); (0x376, 0x377); (0x37A, 0x37D); (0x37F, 0x37F);
   (0x386, 0x386); (0x388, 0x38A); (0x38C, 0x38C); (0x38E, 0x3A1);
   (0x3A3, 0x3F5); (0x3F7, 0x481); (0x48A, 0x52F); (0x531, 0x556);
   (0x560, 0x588); (0x10A0, 0x10C5); (0x10C7, 0x10C7); (0x10CD, 0x10CD);
   (0x10D0, 0x10FA); (0x10FD, 0x10FF); (0x13A0, 0x13F5); (0x13F8, 0x13FD);
   (0x1C80, 0x1C88); (0x1C90, 0x1CBA); (0x1CBD, 0x1CBF); (0x1D00, 0x1DBF);
   (0x1E00, 0x1F15); (0x1F18, 0x1F1D); (0x1F20, 0x1F45); (0x1F48, 0x1F4D);
   (0x1F50, 0x1F57); (0x1F59, 0x1F59); (0x1F5B, 0x1F5B); (0x1F5D, 0x1F5D);
   (0x1F5F, 0x1F7D); (0x1F80, 0x1FB4); (0x1FB6, 0x1FBC); (0x1FBE, 0x1FBE);
   (0x1FC2, 0x1FC4); (0x1FC6, 0x1FCC); (0x1FD0, 0x1FD3); (0x1FD6, 0x1FDB);
   (0x1FE0, 0x1FEC); (0x1FF2, 0x1FF4); (0x1FF6, 0x1FFC); (0x2071, 0x2071);
   (0x207F, 0x207F); (0x2090, 0x209C); (0x2102, 0x2102); (0x2107, 0x2107);
   (0x210A, 0x2113); (0x2115, 0x2115); (0x2119, 0x211D); (0x2124, 0x2124);
   (0x2126, 0x2126); (0x2128, 0x2128); (0x212A, 0x212D); (0x212F, 0x2134);
   (0x2139, 0x2139); (0x213C, 0x213F); (0x2145, 0x2149); (0x214E, 0x214E);
   (0x2160, 0x217F); (0x2183, 0x2184); (0x24B6, 0x24E9); (0x2C00, 0x2CE4);
   (0x2CEB, 0x2CEE); (0x2CF2, 0x2CF3); (0x2D00, 0x2D25); (0x2D27, 0x2D27);
   (0x2D2D, 0x2D2D); (0xA640, 0xA66D); (0xA680, 0xA69D); (0xA722, 0xA787);
   (0xA78B, 0xA78E); (0xA790, 0xA7CA); (0xA7D0, 0xA7D1); (0xA7D3, 0xA7D3);
   (0xA7D5, 0xA7D9); (0xA7F5, 0xA7F6); (0xA7F8, 0xA7FA); (0xAB30, 0xAB5A);
   (0xAB5C, 0xAB68); (0xAB70, 0xABBF); (0xFB00, 0xFB06); (0xFB13, 0xFB17);
   (0xFF21, 0xFF3A); (0xFF41, 0xFF5A); (0x10400, 0x1044F); (0x104B0, 0x104D3);
   (0x104D8, 0x104FB); (0x10570, 0x1057A); (0x1057C, 0x1058A);
   (0x1058C, 0x10592); (0x10594, 0x10595); (0x10597, 0x105A1);
   (0x105A3, 0x105B1); (0x105B3, 0x105B9); (0x105BB, 0x105BC);
   (0x10780, 0x10780); (0x10783, 0x10785); (0x10787, 0x107B0);
   (0x107B2, 0x107BA); (0x10C80, 0x10CB2); (0x10CC0, 0x10CF2);
   (0x118A0, 0x118DF); (0x16E40, 0x16E7F); (0x1D400, 0x1D454);
   (0x1D456, 0x1D49C); (0x1D49E, 0x1D49F); (0x1D4A2, 0x1D4A2);
   (0x1D4A5, 0x1D4A6); (0x1D4A9, 0x1D4AC); (0x1D4AE, 0x1D4B9);
   (0x1D4BB, 0x1D4BB); (0x1D4BD, 0x1D4C3); (0x1D4C5, 0x1D505);
   (0x1D507, 0x1D50A); (0x1D50D, 0x1D514); (0x1D516, 0x1D51C);
   (0x1D51E, 0x1D539); (0x1D53B, 0x1D53E); (0x1D540, 0x1D544);
   (0x1D546, 0x1D546); (0x1D54A, 0x1D550); (0x1D552, 0x1D6A5);
   (0x1D6A8, 0x1D6C0); (0x1D6C2, 0x1D6DA); (0x1D6DC, 0x1D6FA);
   (0x1D6FC, 0x1D714); (0x1D716, 0x1D734); (0x1D736, 0x1D74E);
   (0x1D750, 0x1D76E); (0x1D770, 0x1D788); (0x1D78A, 0x1D7A8);
   (0x1D7AA, 0x1D7C2); (0x1D7C4, 0x1D7CB); (0x1DF00, 0x1DF09);
   (0x1DF0B, 0x1DF1E); (0x1E900, 0x1E943); (0x1F130, 0x1F149);
   (0x1F150, 0x1F169); (0x1F170, 0x1F189) ]%N.

Definition _PyUnicode_IsCased (c : N) : bool := in_ranges c cased_ranges.

(** The code points with the property Case_Ignorable, as closed ranges. *)
Definition case_ignorable_ranges : list (N * N) :=
  [(0x27, 0x27); (0x2E, 0x2E); (0x3A, 0x3A); (0x5E, 0x5E); (0x60, 0x60);
   (0xA8, 0xA8); (0xAD, 0xAD); (0xAF, 0xAF); (0xB4, 0xB4); (0xB7, 0xB8);
   (0x2B0, 0x36F); (0x374, 0x375); (0x37A, 0x37A); (0x384, 0x385);
   (0x387, 0x387); (0x483, 0x489); (0x559, 0x559); (0x55F, 0x55F);
   (0x591, 0x5BD); (0x5BF, 0x5BF); (0x5C1, 0x5C2); (0x5C4, 0x5C5);
   (0x5C7, 0x5C7); (0x5F4, 0x5F4); (0x600, 0x605); (0x610, 0x61A);
   (0x61C, 0x61C); (0x640, 0x640); (0x64B, 0x65F); (0x670, 0x670);
   (0x6D6, 0x6DD); (0x6DF, 0x6E8); (0x6EA, 0x6ED); (0x70F, 0x70F);
   (0x711, 0x711); (0x730, 0x74A); (0x7A6, 0x7B0); (0x7EB, 0x7F5);
   (0x7FA, 0x7FA); (0x7FD, 0x7FD); (0x816, 0x82D); (0x859, 0x85B);
   (0x888, 0x888); (0x890, 0x891); (0x898, 0x89F); (0x8C9, 0x902);
   (0x93A, 0x93A); (0x93C, 0x93C); (0x941, 0x948); (0x94D, 0x94D);
   (0x951, 0x957); (0x962, 0x963); (0x971, 0x971); (0x981, 0x981);
   (0x9BC, 0x9BC); (0x9C1, 0x9C4); (0x9CD, 0x9CD); (0x9E2, 0x9E3);
   (0x9FE, 0x9FE); (0xA01, 0xA02); (0xA3C, 0xA3C); (0xA41, 0xA42);
   (0xA47, 0xA48); (0xA4B, 0xA4D); (0xA51, 0xA51); (0xA70, 0xA71);
   (0xA75, 0xA75); (0xA81, 0xA82); (0xABC, 0xABC); (0xAC1, 0xAC5);
   (0xAC7, 0xAC8); (0xACD, 0xACD); (0xAE2, 0xAE3); (0xAFA, 0xAFF);
   (0xB01, 0xB01); (0xB3C, 0xB3C); (0xB3F, 0xB3F); (0xB41, 0xB44);
   (0xB4D, 0xB4D); (0xB55, 0xB56); (0xB62, 0xB63); (0xB82, 0xB82);
   (0xBC0, 0xBC0); (0xBCD, 0xBCD); (0xC00, 0xC00); (0xC04, 0xC04);
   (0xC3C, 0xC3C); (0xC3E, 0xC40); (0xC46, 0xC48); (0xC4A, 0xC4D);
   (0xC55, 0xC56); (0xC62, 0xC63); (0xC81, 0xC81); (0xCBC, 0xCBC);
   (0xCBF, 0xCBF); (0xCC6, 0xCC6); (0xCCC, 0xCCD); (0xCE2, 0xCE3);
   (0xD00, 0xD01); (0xD3B, 0xD3C); (0xD41, 0xD44); (0xD4D, 0xD4D);
   (0xD62, 0xD63); (0xD81, 0xD81); (0xDCA, 0xDCA); (0xDD2, 0xDD4);
   (0xDD6, 0xDD6); (0xE31, 0xE31); (0xE34, 0xE3A); (0xE46, 0xE4E);
   (0xEB1, 0xEB1); (0xEB4, 0xEBC); (0xEC6, 0xEC6); (0xEC8, 0xECD);
   (0xF18, 0xF19); (0xF35, 0xF35); (0xF37, 0xF37); (0xF39, 0xF39);
   (0xF71, 0xF7E); (0xF80, 0xF84); (0xF86, 0xF87); (0xF8D, 0xF97);
   (0xF99, 0xFBC); (0xFC6, 0xFC6); (0x102D, 0x1030); (0x1032, 0x1037);
   (0x1039, 0x103A); (0x103D, 0x103E); (0x1058, 0x1059); (0x105E, 0x1060);
   (0x1071, 0x1074); (0x1082, 0x1082); (0x1085, 0x1086); (0x108D, 0x108D);
   (0x109D, 0x109D); (0x10FC, 0x10FC); (0x135D, 0x135F); (0x1712, 0x1714);
   (0x1732, 0x1733); (0x1752, 0x1753); (0x1772, 0x1773); (0x17B4, 0x17B5);
   (0x17B7, 0x17BD); (0x17C6, 0x17C6); (0x17C9, 0x17D3); (0x17D7, 0x17D7);
   (0x17DD, 0x17DD); (0x180B, 0x180F); (0x1843, 0x1843); (0x1885, 0x1886);
   (0x18A9, 0x18A9); (0x1920, 0x1922); (0x1927, 0x1928); (0x1932, 0x1932);
   (0x1939, 0x193B); (0x1A17, 0x1A18); (0x1A1B, 0x1A1B); (0x1A56, 0x1A56);
   (0x1A58, 0x1A5E); (0x1A60, 0x1A60); (0x1A62, 0x1A62); (0x1A65, 0x1A6C);
   (0x1A73, 0x1A7C); (0x1A7F, 0x1A7F); (0x1AA7, 0x1AA7); (0x1AB0, 0x1ACE);
   (0x1B00, 0x1B03); (0x1B34, 0x1B34); (0x1B36, 0x1B3A); (0x1B3C, 0x1B3C);
   (0x1B42, 0x1B42); (0x1B6B, 0x1B73); (0x1B80, 0x1B81); (0x1BA2, 0x1BA5);
   (0x1BA8, 0x1BA9); (0x1BAB, 0x1BAD); (0x1BE6, 0x1BE6); (0x1BE8, 0x1BE9);
   (0x1BED, 0x1BED); (0x1BEF, 0x1BF1); (0x1C2C, 0x1C33); (0x1C36, 0x1C37);
   (0x1C78, 0x1C7D); (0x1CD0, 0x1CD2); (0x1CD4, 0x1CE0); (0x1CE2, 0x1CE8);
   (0x1CED, 0x1CED); (0x1CF4, 0x1CF4); (0x1CF8, 0x1CF9); (0x1D2C, 0x1D6A);
   (0x1D78, 0x1D78); (0x1D9B, 0x1DFF); (0x1FBD, 0x1FBD); (0x1FBF, 0x1FC1);
   (0x1FCD, 0x1FCF); (0x1FDD, 0x1FDF); (0x1FED, 0x1FEF); (0x1FFD, 0x1FFE);
   (0x200B, 0x200F); (0x2018, 0x2019); (0x2024, 0x2024); (0x2027, 0x2027);
   (0x202A, 0x202E); (0x2060, 0x2064); (0x2066, 0x206F); (0x2071, 0x2071);
   (0x207F, 0x207F); (0x2090, 0x209C); (0x20D0, 0x20F0); (0x2C7C, 0x2C7D);
   (0x2CEF, 0x2CF1); (0x2D6F, 0x2D6F); (0x2D7F, 0x2D7F); (0x2DE0, 0x2DFF);
   (0x2E2F, 0x2E2F); (0x3005, 0x3005); (0x302A, 0x302D); (0x3031, 0x3035);
   (0x303B, 0x303B); (0x3099, 0x309E); (0x30FC, 0x30FE); (0xA015, 0xA015);
   (0xA4F8, 0xA4FD); (0xA60C, 0xA60C); (0xA66F, 0xA672); (0xA674, 0xA67D);
   (0xA67F, 0xA67F); (0xA69C, 0xA69F); (0xA6F0, 0xA6F1); (0xA700, 0xA721);
   (0xA770, 0xA770); (0xA788, 0xA78A); (0xA7F2, 0xA7F4); (0xA7F8, 0xA7F9);
   (0xA802, 0xA802); (0xA806, 0xA806); (0xA80B, 0xA80B); (0xA825, 0xA826);
   (0xA82C, 0xA82C); (0xA8C4, 0xA8C5); (0xA8E0, 0xA8F1); (0xA8FF, 0xA8FF);
   (0xA926, 0xA92D); (0xA947, 0xA951); (0xA980, 0xA982); (0xA9B3, 0xA9B3);
   (0xA9B6, 0xA9B9); (0xA9BC, 0xA9BD); (0xA9CF, 0xA9CF); (0xA9E5, 0xA9E6);
   (0xAA29, 0xAA2E); (0xAA31, 0xAA32); (0xAA35, 0xAA36); (0xAA43, 0xAA43);
   (0xAA4C, 0xAA4C); (0xAA70, 0xAA70); (0xAA7C, 0xAA7C); (0xAAB0, 0xAAB0);
   (0xAAB2, 0xAAB4); (0xAAB7, 0xAAB8); (0xAABE, 0xAABF); (0xAAC1, 0xAAC1);
   (0xAADD, 0xAADD); (0xAAEC, 0xAAED); (0xAAF3, 0xAAF4); (0xAAF6, 0xAAF6);
   (0xAB5B, 0xAB5F); (0xAB69, 0xAB6B); (0xABE5, 0xABE5); (0xABE8, 0xABE8);
   (0xABED, 0xABED); (0xFB1E, 0xFB1E); (0xFBB2, 0xFBC2); (0xFE00, 0xFE0F);
   (0xFE13, 0xFE13); (0xFE20, 0xFE2F); (0xFE52, 0xFE52); (0xFE55, 0xFE55);
   (0xFEFF, 0xFEFF); (0xFF07, 0xFF07); (0xFF0E, 0xFF0E); (0xFF1A, 0xFF1A);
   (0xFF3E, 0xFF3E); (0xFF40, 0xFF40); (0xFF70, 0xFF70); (0xFF9E, 0xFF9F);
   (0xFFE3, 0xFFE3); (0xFFF9, 0xFFFB); (0x101FD, 0x101FD); (0x102E0, 0x102E0);
   (0x10376, 0x1037A); (0x10780, 0x10785); (0x10787, 0x107B0);
   (0x107B2, 0x107BA); (0x10A01, 0x10A03); (0x10A05, 0x10A06);
   (0x10A0C, 0x10A0F); (0x10A38, 0x10A3A); (0x10A3F, 0x10A3F);
   (0x10AE5, 0x10AE6); (0x10D24, 0x10D27); (0x10EAB, 0x10EAC);
   (0x10F46, 0x10F50); (0x10F82, 0x10F85); (0x11001, 0x11001);
   (0x11038, 0x11046); (0x11070, 0x11070); (0x11073, 0x11074);
   (0x1107F, 0x11081); (0x110B3, 0x110B6); (0x110B9, 0x110BA);
   (0x110BD, 0x110BD); (0x110C2, 0x110C2); (0x110CD, 0x110CD);
   (0x11100, 0x11102); (0x11127, 0x1112B); (0x1112D, 0x11134);
   (0x11173, 0x11173); (0x11180, 0x11181); (0x111B6, 0x111BE);
   (0x111C9, 0x111CC); (0x111CF, 0x111CF); (0x1122F, 0x11231);
   (0x11234, 0x11234); (0x11236, 0x11237); (0x1123E, 0x1123E);
   (0x112DF, 0x112DF); (0x112E3, 0x112EA); (0x11300, 0x11301);
   (0x1133B, 0x1133C); (0x11340, 0x11340); (0x11366, 0x1136C);
   (0x11370, 0x11374); (0x11438, 0x1143F); (0x11442, 0x11444);
   (0x11446, 0x11446); (0x1145E, 0x1145E); (0x114B3, 0x114B8);
   (0x114BA, 0x114BA); (0x114BF, 0x114C0); (0x114C2, 0x114C3);
   (0x115B2, 0x115B5); (0x115BC, 0x115BD); (0x115BF, 0x115C0);
   (0x115DC, 0x115DD); (0x11633, 0x1163A); (0x1163D, 0x1163D);
   (0x1163F, 0x11640); (0x116AB, 0x116AB); (0x116AD, 0x116AD);
   (0x116B0, 0x116B5); (0x116B7, 0x116B7); (0x1171D, 0x1171F);
   (0x11722, 0x11725); (0x11727, 0x1172B); (0x1182F, 0x11837);
   (0x11839, 0x1183A); (0x1193B, 0x1193C); (0x1193E, 0x1193E);
   (0x11943, 0x11943); (0x119D4, 0x119D7); (0x119DA, 0x119DB);
   (0x119E0, 0x119E0); (0x11A01, 0x11A0A); (0x11A33, 0x11A38);
   (0x11A3B, 0x11A3E); (0x11A47, 0x11A47); (0x11A51, 0x11A56);
   (0x11A59, 0x11A5B); (0x11A8A, 0x11A96); (0x11A98, 0x11A99);
   (0x11C30, 0x11C36); (0x11C38, 0x11C3D); (0x11C3F, 0x11C3F);
   (0x11C92, 0x11CA7); (0x11CAA, 0x11CB0); (0x11CB2, 0x11CB3);
   (0x11CB5, 0x11CB6); (0x11D31, 0x11D36); (0x11D3A, 0x11D3A);
   (0x11D3C, 0x11D3D); (0x11D3F, 0x11D45); (0x11D47, 0x11D47);
   (0x11D90, 0x11D91); (0x11D95, 0x11D95); (0x11D97, 0x11D97);
   (0x11EF3, 0x11EF4); (0x13430, 0x13438); (0x16AF0, 0x16AF4);
   (0x16B30, 0x16B36); (0x16B40, 0x16B43); (0x16F4F, 0x16F4F);
   (0x16F8F, 0x16F9F); (0x16FE0, 0x16FE1); (0x16FE3, 0x16FE4);
   (0x1AFF0, 0x1AFF3); (0x1AFF5, 0x1AFFB); (0x1AFFD, 0x1AFFE);
   (0x1BC9D, 0x1BC9E); (0x1BCA0, 0x1BCA3); (0x1CF00, 0x1CF2D);
   (0x1CF30, 0x1CF46); (0x1D167, 0x1D169); (0x1D173, 0x1D182);
   (0x1D185, 0x1D18B); (0x1D1AA, 0x1D1AD); (0x1D242, 0x1D244);
   (0x1DA00, 0x1DA36); (0x1DA3B, 0x1DA6C); (0x1DA75, 0x1DA75);
   (0x1DA84, 0x1DA84); (0x1DA9B, 0x1DA9F); (0x1DAA1, 0x1DAAF);
   (0x1E000, 0x1E006); (0x1E008, 0x1E018); (0x1E01B, 0x1E021);
   (0x1E023, 0x1E024); (0x1E026, 0x1E02A); (0x1E130, 0x1E13D);
   (0x1E2AE, 0x1E2AE); (0x1E2EC, 0x1E2EF); (0x1E8D0, 0x1E8D6);
   (0x1E944, 0x1E94B); (0x1F3FB, 0x1F3FF); (0xE0001, 0xE0001);
   (0xE0020, 0xE007F); (0xE0100, 0xE01EF) ]%N.

Definition _PyUnicode_IsCaseIgnorable (c : N) : bool :=
  in_ranges c case_ignorable_ranges.

Fixpoint skip_case_ignorable (l : list N) : list N :=
  match l with
  | [] => []
  | c :: l' =>
      if _PyUnicode_IsCaseIgnorable c then skip_case_ignorable l' else l
  end.

(** A capital sigma is final when a cased letter precedes it and none
    follows, case-ignorable code points skipped on both sides. [before] is
    the text before the sigma, nearest code point first. *)
Definition handle_capital_sigma (before after : list N) : N :=
  let final_sigma :=
    match skip_case_ignorable before with
    | c :: _ => _PyUnicode_IsCased c
    | [] => false
    end in
  let final_sigma :=
    if final_sigma then
      match skip_case_ignorable after with
      | c :: _ => negb (_PyUnicode_IsCased c)
      | [] => true
      end
    else false in
  if final_sigma then 0x3C2%N else 0x3C3%N.

(** [str.lower()]: every code point is replaced by its lower-case form,
    the capital sigma U+03A3 by the final or the medial small sigma. *)
Definition lower_ucs4 (before after : list N) (c : N) : list N :=
  if (c =? 0x3A3)%N then [handle_capital_sigma before after]
  else _PyUnicode_ToLowerFull c.

Fixpoint do_lower (before l : list N) : list N :=
  match l with
  | [] => []
  | c :: after => lower_ucs4 before after c ++ do_lower (c :: before) after
  end.

Definition lower (s : str) : str := Str (do_lower [] (code_points s)).

#[local] Open Scope str_scope.

(** ** Exceptions and the error monad *)

Inductive exn : Type :=
| KeyError (key : str)
| ValueError
| OverflowError
| HTTPException (status_code : Z) (detail : str).

Inductive result (A : Type) : Type :=
| Ok (a : A)
| Err (e : exn).
Arguments Ok {A} a.
Arguments Err {A} e.

#[global] Instance result_ret : MRet result := fun A a => Ok a.

#[global] Instance result_bind : MBind result := fun A B k r =>
  match r with
  | Ok a => k a
  | Err e => Err e
  end.

(** ** Dictionaries *)

(** [d[k]]: subscripting raises [KeyError] on a missing key. *)
Definition subscript {V : Type} (d : gmap str V) (k : str) : result V :=
  match d !! k with
  | Some v => Ok v
  | None => Err (KeyError k)
  end.

(** [k in d]. *)
Definition contains {V : Type} (d : gmap str V) (k : str) : bool :=
  match d !! k with
  | Some _ => true
  | None => false
  end.

(** [d.get(k, dflt)]. *)
Definition dict_get {V : Type} (d : gmap str V) (k : str) (dflt : V) : V :=
  match d !! k with
  | Some v => v
  | None => dflt
  end.

(** ** Floats *)

(** Conversion of a Python [int] to [float], exact below 2^53 in absolute
    value (the integers met here are day counts). *)
Definition float_of_int (z : Z) : float :=
  if z <? 0 then PrimFloat.opp (PrimFloat.of_uint63 (Uint63.of_Z (- z)))
  else PrimFloat.of_uint63 (Uint63.of_Z z).

(** Nearest integer to [n / p], ties to the even one ([0 < p]). *)
Definition rne_div (n p : Z) : Z :=
  let q := n / p in
  let r := n mod p in
  match 2 * r ?= p with
  | Lt => q
  | Gt => q + 1
  | Eq => if Z.even q then q else q + 1
  end.

(** Nearest integer, ties to even, to [k] times the exact value of a
    finite float; [None] on infinities and NaN. *)
Definition SF_round_scaled (k : Z) (x : spec_float) : option Z :=
  match x with
  | S754_zero _ => Some 0
  | S754_finite s m e =>
      Some (cond_Zopp s
              (if 0 <=? e then k * Z.pos m * 2 ^ e
               else rne_div (k * Z.pos m) (2 ^ (- e))))
  | S754_infinity _ | S754_nan => None
  end.

(** [round(x)] on a float: an [int], [ValueError] on NaN and
    [OverflowError] on an infinity. *)
Definition round_int (x : float) : result Z :=
  match Prim2SF x with
  | S754_nan => Err ValueError
  | S754_infinity _ => Err OverflowError
  | sx => match SF_round_scaled 1 sx with
          | Some n => Ok n
          | None => Err ValueError
          end
  end.

(** The number of hundredths [round(x, 2)] rounds [x] to. *)
Definition hundredths (x : float) : option Z :=
  SF_round_scaled 100 (Prim2SF x).

(** [round(x, 2)]: the float nearest to the two-decimal value nearest to
    [x] (ties to even); infinities and NaN are returned as they are, and so
    is a float too large to have a fractional part. *)
Definition round2 (x : float) : float :=
  match hundredths x with
  | None => x
  | Some h =>
      if Z.abs h <? 2 ^ 53 then
        let q := (float_of_int (Z.abs h) / 100)%float in
        if PrimFloat.get_sign x then PrimFloat.opp q else q
      else x
  end.

(** [max(a, b)] of two floats: the first argument unless the second is
    strictly greater. *)
Definition py_max (a b : float) : float :=
  if (a <? b)%float then b else a.

(** ** Calendar dates *)

Record date : Type := mkdate { toordinal : Z }.

Definition _MAXORDINAL : Z := 3652059.

Definition valid_date (d : date) : Prop := 1 <= toordinal d <= _MAXORDINAL.

Definition is_leap (y : Z) : bool :=
  (y mod 4 =? 0) && (negb (y mod 100 =? 0) || (y mod 400 =? 0)).

Definition _DAYS_IN_MONTH : list Z :=
  [0; 31; 28; 31; 30; 31; 30; 31; 31; 30; 31; 30; 31].

Definition _DAYS_BEFORE_MONTH : list Z :=
  [0; 0; 31; 59; 90; 120; 151; 181; 212; 243; 273; 304; 334].

Definition _days_before_year (year : Z) : Z :=
  let y := year - 1 in
  y * 365 + y / 4 - y / 100 + y / 400.

Definition _days_before_month (year month : Z) : Z :=
  nth (Z.to_nat month) _DAYS_BEFORE_MONTH 0
  + (if (2 <? month) && is_leap year then 1 else 0).

Definition _ymd2ord (year month day : Z) : Z :=
  _days_before_year year + _days_before_month year month + day.

Definition _ord2ymd (n0 : Z) : Z * Z * Z :=
  let n := n0 - 1 in
  let n400 := n / 146097 in
  let n := n mod 146097 in
  let year := n400 * 400 + 1 in
  let n100 := n / 36524 in
  let n := n mod 36524 in
  let n4 := n / 1461 in
  let n := n mod 1461 in
  let n1 := n / 365 in
  let n := n mod 365 in
  let year := year + n100 * 100 + n4 * 4 + n1 in
  if (n1 =? 4) || (n100 =? 4) then (year - 1, 12, 31)
  else
    let leapyear := (n1 =? 3) && (negb (n4 =? 24) || (n100 =? 3)) in
    let month := Z.shiftr (n + 50) 5 in
    let preceding :=
      nth (Z.to_nat month) _DAYS_BEFORE_MONTH 0
      + (if (2 <? month) && leapyear then 1 else 0) in
    if n <? preceding then
      let month := month - 1 in
      let preceding :=
        preceding - (nth (Z.to_nat month) _DAYS_IN_MONTH 0
                     + (if (month =? 2) && leapyear then 1 else 0)) in
      (year, month, n - preceding + 1)
    else (year, month, n - preceding + 1).

(** [date(year, month, day)] and its inverse view. *)
Definition date_of_ymd (year month day : Z) : date :=
  mkdate (_ymd2ord year month day).

Definition ymd_of_date (d : date) : Z * Z * Z := _ord2ymd (toordinal d).

(** [d1 > d2], [d1 <= d2] on dates. *)
Definition date_gtb (d1 d2 : date) : bool := toordinal d2 <? toordinal d1.
Definition date_le (d1 d2 : date) : Prop := toordinal d1 <= toordinal d2.
Definition date_lt (d1 d2 : date) : Prop := toordinal d1 < toordinal d2.

(** [(d2 - d1).days]. *)
Definition days_between (d1 d2 : date) : Z := toordinal d2 - toordinal d1.

(** [d + timedelta(days=n)]: [OverflowError] when the day count is beyond
    a timedelta's range or the sum leaves [date.min .. date.max]. *)
Definition date_add_days (d : date) (n : Z) : result date :=
  if 999999999 <? Z.abs n then Err OverflowError
  else
    let o := toordinal d + n in
    if (0 <? o) && (o <=? _MAXORDINAL) then Ok (mkdate o)
    else Err OverflowError.

(** ** The request and response models *)

Record PredictionRequest : Type := mkRequest {
  dob : date;
  sex : str;
  country : str;
  bmi : float;
  smoking_status : str;
  alcohol_use : str;
  exercise_level : str
}.

Record PredictionResponse : Type := mkResponse {
  estimated_death_date : date;
  base_life_expectancy_years : float;
  adjusted_life_expectancy_years : float;
  current_age_years : float;
  modifiers_applied : gmap str float
}.

(** What the request model's validation lets through: a calendar date and
    the literals of the four enumerated fields. *)
Definition sex_literals : list str := ["male"; "female"].
Definition smoking_literals : list str :=
  ["none"; "former"; "light"; "moderate"; "heavy"].
Definition alcohol_literals : list str := ["none"; "moderate"; "heavy"].
Definition exercise_literals : list str :=
  ["sedentary"; "light"; "moderate"; "high"].

Record valid_request (req : PredictionRequest) : Prop := {
  valid_dob : valid_date (dob req);
  valid_sex : In (sex req) sex_literals;
  valid_smoking : In (smoking_status req) smoking_literals;
  valid_alcohol : In (alcohol_use req) alcohol_literals;
  valid_exercise : In (exercise_level req) exercise_literals
}.

(** ** The life table and the lookup resolver *)

Definition by_sex (male female : float) : gmap str float :=
  <["female" := female]> (<["male" := male]> ∅).

Definition LIFE_TABLE_items : list (str * gmap str float) :=
  [ ("usa", by_sex 74.5 80.2);
    ("united states", by_sex 74.5 80.2);
    ("uk", by_sex 79.0 82.9);
    ("united kingdom", by_sex 79.0 82.9);
    ("canada", by_sex 80.0 84.0);
    ("australia", by_sex 81.2 85.3);
    ("germany", by_sex 78.7 83.4);
    ("india", by_sex 67.2 69.5);
    ("japan", by_sex 81.5 87.5);
    ("france", by_sex 79.4 85.3) ].

Definition LIFE_TABLE : gmap str (gmap str float) :=
  list_to_map LIFE_TABLE_items.

Definition get_base_life_expectancy (country sex : str) : result float :=
  let key := lower (strip country) in
  if negb (contains LIFE_TABLE key) then
    let global_avg := by_sex 70.0 75.0 in
    subscript global_avg sex
  else
    row ← subscript LIFE_TABLE key;
    subscript row sex.

(** ** The modifier engine *)

Definition smoking_map : gmap str float :=
  list_to_map [("none", 1.5%float); ("former", (-1.0)%float);
               ("light", (-2.0)%float); ("moderate", (-4.0)%float);
               ("heavy", (-7.0)%float)].

Definition alcohol_map : gmap str float :=
  list_to_map [("none", 0.5%float); ("moderate", 0.0%float);
               ("heavy", (-3.0)%float)].

Definition exercise_map : gmap str float :=
  list_to_map [("sedentary", (-2.0)%float); ("light", (-0.5)%float);
               ("moderate", 1.0%float); ("high", 2.0%float)].

(** The value the BMI chain of comparisons selects. *)
Definition bmi_modifier (bmi : float) : float :=
  if (bmi <? 18.5)%float then (-2.0)%float
  else if (18.5 <=? bmi)%float && (bmi <? 25)%float then 0.5%float
  else if (25 <=? bmi)%float && (bmi <? 30)%float then (-0.5)%float
  else if (30 <=? bmi)%float && (bmi <? 35)%float then (-2.0)%float
  else (-4.0)%float.

Definition apply_lifestyle_modifiers
    (base bmi : float) (smoking_status alcohol_use exercise_level : str)
  : result (float * gmap str float) :=
  let adjustments : gmap str float := ∅ in
  let adjusted := base in
  let adjustments := <["bmi" := bmi_modifier bmi]> adjustments in
  v ← subscript adjustments "bmi";
  let adjusted := (adjusted + v)%float in
  let adjustments :=
    <["smoking" := dict_get smoking_map smoking_status (-2.0)%float]>
      adjustments in
  v ← subscript adjustments "smoking";
  let adjusted := (adjusted + v)%float in
  let adjustments :=
    <["alcohol" := dict_get alcohol_map alcohol_use 0.0%float]> adjustments in
  v ← subscript adjustments "alcohol";
  let adjusted := (adjusted + v)%float in
  let adjustments :=
    <["exercise" := dict_get exercise_map exercise_level 0.0%float]>
      adjustments in
  v ← subscript adjustments "exercise";
  let adjusted := (adjusted + v)%float in
  Ok (adjusted, adjustments).

(** ** The lifespan composer *)

Definition years_between (d1 d2 : date) : float :=
  (float_of_int (days_between d1 d2) / 365.2425)%float.

Definition current_age (today dob : date) : float :=
  py_max 0.0%float (years_between dob today).

Definition minimal_future : float := 0.25%float.

Definition predict (today : date) (req : PredictionRequest)
  : result PredictionResponse :=
  if date_gtb (dob req) today then
    Err (HTTPException 400 "Date of birth cannot be in the future")
  else
    base_expectancy ← get_base_life_expectancy (country req) (sex req);
    '(adjusted_expectancy, modifiers) ←
      apply_lifestyle_modifiers base_expectancy (bmi req)
        (smoking_status req) (alcohol_use req) (exercise_level req);
    let current_age := current_age today (dob req) in
    let lifespan_years :=
      py_max adjusted_expectancy (current_age + minimal_future)%float in
    estimated_days ← round_int (lifespan_years * 365.2425)%float;
    estimated_date ← date_add_days (dob req) estimated_days;
    Ok {| estimated_death_date := estimated_date;
          base_life_expectancy_years := round2 base_expectancy;
          adjusted_life_expectancy_years := round2 lifespan_years;
          current_age_years := round2 current_age;
          modifiers_applied := modifiers |}.

(** * Properties *)

(** ** The error monad *)

Lemma bind_Ok_inv {A B : Type} (r : result A) (k : A -> result B) (b : B) :
  r ≫= k = Ok b -> exists a, r = Ok a /\ k a = Ok b.
Proof. destruct r as [a|e]; [eauto | discriminate]. Qed.

Lemma subscript_Ok {V : Type} (d : gmap str V) (k : str) (v : V) :
  subscript d k = Ok v <-> d !! k = Some v.
Proof.
  unfold subscript. destruct (d !! k); split; intros H; congruence.
Qed.

(** ** The modifier engine in closed form *)

Definition smoking_modifier (s : str) : float :=
  dict_get smoking_map s (-2.0)%float.
Definition alcohol_modifier (s : str) : float :=
  dict_get alcohol_map s 0.0%float.
Definition exercise_modifier (s : str) : float :=
  dict_get exercise_map s 0.0%float.

Definition breakdown (bmi : float) (s a e : str) : gmap str float :=
  <["exercise" := exercise_modifier e]>
    (<["alcohol" := alcohol_modifier a]>
       (<["smoking" := smoking_modifier s]>
          (<["bmi" := bmi_modifier bmi]> ∅))).

Definition adjusted_sum (base bmi : float) (s a e : str) : float :=
  (base + bmi_modifier bmi + smoking_modifier s + alcohol_modifier a
   + exercise_modifier e)%float.

Lemma apply_lifestyle_modifiers_eq (base bmi : float) (s a e : str) :
  apply_lifestyle_modifiers base bmi s a e
  = Ok (adjusted_sum base bmi s a e, breakdown bmi s a e).
Proof.
  unfold apply_lifestyle_modifiers, subscript.
  rewrite !lookup_insert_eq. reflexivity.
Qed.

Lemma breakdown_lookup (bmi : float) (s a e : str) :
  breakdown bmi s a e !! "bmi" = Some (bmi_modifier bmi)
  /\ breakdown bmi s a e !! "smoking" = Some (smoking_modifier s)
  /\ breakdown bmi s a e !! "alcohol" = Some (alcohol_modifier a)
  /\ breakdown bmi s a e !! "exercise" = Some (exercise_modifier e).
Proof. unfold breakdown. repeat split; by simplify_map_eq. Qed.

Definition breakdown_keys : gset str :=
  {[ "bmi"; "smoking"; "alcohol"; "exercise" ]}.

Lemma breakdown_dom (bmi : float) (s a e : str) :
  dom (breakdown bmi s a e) = breakdown_keys.
Proof.
  unfold breakdown, breakdown_keys.
  rewrite !dom_insert_L, dom_empty_L. set_solver.
Qed.

Lemma breakdown_size (bmi : float) (s a e : str) :
  size (breakdown bmi s a e) = 4%nat.
Proof.
  unfold breakdown.
  rewrite !map_size_insert_None, map_size_empty; [reflexivity | by simplify_map_eq ..].
Qed.

(** ** Unfolding [predict] *)

Definition lifespan_years (today : date) (req : PredictionRequest)
    (base : float) : float :=
  py_max
    (adjusted_sum base (bmi req) (smoking_status req) (alcohol_use req)
       (exercise_level req))
    (current_age today (dob req) + minimal_future)%float.

Definition response (today : date) (req : PredictionRequest) (base : float)
    (estimated_date : date) : PredictionResponse :=
  {| estimated_death_date := estimated_date;
     base_life_expectancy_years := round2 base;
     adjusted_life_expectancy_years := round2 (lifespan_years today req base);
     current_age_years := round2 (current_age today (dob req));
     modifiers_applied :=
       breakdown (bmi req) (smoking_status req) (alcohol_use req)
         (exercise_level req) |}.

Lemma predict_eq (today : date) (req : PredictionRequest) :
  predict today req
  = if date_gtb (dob req) today then
      Err (HTTPException 400 "Date of birth cannot be in the future")
    else
      base ← get_base_life_expectancy (country req) (sex req);
      days ← round_int (lifespan_years today req base * 365.2425)%float;
      estimated_date ← date_add_days (dob req) days;
      Ok (response today req base estimated_date).
Proof.
  unfold predict. destruct (date_gtb (dob req) today); [reflexivity|].
  destruct (get_base_life_expectancy (country req) (sex req)) as [base|e];
    [|reflexivity].
  cbn [mbind result_bind]. rewrite apply_lifestyle_modifiers_eq.
  reflexivity.
Qed.

Lemma predict_Ok_inv (today : date) (req : PredictionRequest)
    (r : PredictionResponse) :
  predict today req = Ok r ->
  date_gtb (dob req) today = false
  /\ exists base days estimated_date,
      get_base_life_expectancy (country req) (sex req) = Ok base
      /\ round_int (lifespan_years today req base * 365.2425)%float = Ok days
      /\ date_add_days (dob req) days = Ok estimated_date
      /\ r = response today req base estimated_date.
Proof.
  rewrite predict_eq. intros H.
  destruct (date_gtb (dob req) today); [discriminate|].
  split; [reflexivity|].
  apply bind_Ok_inv in H as (base & Hbase & H).
  apply bind_Ok_inv in H as (days & Hdays & H).
  apply bind_Ok_inv in H as (dte & Hdte & H).
  injection H as <-.
  exists base, days, dte. auto.
Qed.

Lemma predict_Ok_intro (today : date) (req : PredictionRequest)
    (base : float) (days : Z) (estimated_date : date) :
  date_gtb (dob req) today = false ->
  get_base_life_expectancy (country req) (sex req) = Ok base ->
  round_int (lifespan_years today req base * 365.2425)%float = Ok days ->
  date_add_days (dob req) days = Ok estimated_date ->
  predict today req = Ok (response today req base estimated_date).
Proof.
  intros Hgt Hbase Hdays Hdte. rewrite predict_eq, Hgt, Hbase.
  cbn [mbind result_bind]. rewrite Hdays.
  cbn [mbind result_bind]. rewrite Hdte. reflexivity.
Qed.

(** ** Category maps *)

Lemma list_to_map_lookup_In {V : Type} (l : list (str * V)) (k : str)
    (v : V) :
  (list_to_map l : gmap str V) !! k = Some v -> In (k, v) l.
Proof. intros H. apply list_elem_of_In, elem_of_list_to_map_2, H. Qed.

Lemma list_to_map_lookup_None {V : Type} (l : list (str * V))
    (k : str) :
  ~ In k (map fst l) -> (list_to_map l : gmap str V) !! k = None.
Proof.
  intros H. apply not_elem_of_list_to_map_1.
  intros Hin. apply H, list_elem_of_In. exact Hin.
Qed.

Definition sample_request : PredictionRequest :=
  {| dob := date_of_ymd 1990 1 1; sex := "male"; country := "usa";
     bmi := 22%float; smoking_status := "none"; alcohol_use := "none";
     exercise_level := "moderate" |}.

(** ** C9: the modifier breakdown has exactly four keys *)

(** C9. For every input, the breakdown returned by
    [apply_lifestyle_modifiers] has exactly the four keys bmi, smoking,
    alcohol and exercise, and so has the [modifiers_applied] field of every
    response [predict] returns. *)
Theorem C9_breakdown_has_four_keys :
  (forall (base bmi : float) (s a e : str),
      exists adjusted adjustments,
        apply_lifestyle_modifiers base bmi s a e = Ok (adjusted, adjustments)
        /\ dom adjustments = breakdown_keys
        /\ size adjustments = 4%nat)
  /\ (forall (today : date) (req : PredictionRequest) (r : PredictionResponse),
         predict today req = Ok r ->
         dom (modifiers_applied r) = breakdown_keys
         /\ size (modifiers_applied r) = 4%nat).
Proof.
  split.
  - intros base bmi s a e. eexists _, _.
    rewrite apply_lifestyle_modifiers_eq.
    split; [reflexivity|]. split; [apply breakdown_dom | apply breakdown_size].
  - intros today req r H.
    apply predict_Ok_inv in H as (_ & base & days & dte & _ & _ & _ & ->).
    split; [apply breakdown_dom | apply breakdown_size].
Qed.

Lemma C9_witness :
  exists r, predict (date_of_ymd 2024 6 1) sample_request = Ok r
            /\ dom (modifiers_applied r) = breakdown_keys
            /\ size (modifiers_applied r) = 4%nat.
Proof.
  destruct (predict (date_of_ymd 2024 6 1) sample_request) as [r|e] eqn:E.
  - exists r. split; [reflexivity|].
    exact (proj2 C9_breakdown_has_four_keys _ _ _ E).
  - vm_compute in E. discriminate E.
Defined.

(** ** The order of binary64 numbers

    [SFcompare] is a lexicographic comparison of (class, exponent,
    mantissa); [sf_key] makes the triple explicit, so that the order facts
    used below are facts about integers. *)

Definition sf_key (x : spec_float) : Z * Z * Z :=
  match x with
  | S754_nan => (0, 0, 0)
  | S754_zero _ => (0, 0, 0)
  | S754_infinity s => (if s then -2 else 2, 0, 0)
  | S754_finite s m e =>
      if s then (-1, - e, - Z.pos m) else (1, e, Z.pos m)
  end.

Definition key_compare (k1 k2 : Z * Z * Z) : comparison :=
  let '(c1, e1, m1) := k1 in
  let '(c2, e2, m2) := k2 in
  match c1 ?= c2 with
  | Eq => match e1 ?= e2 with
          | Eq => m1 ?= m2
          | r => r
          end
  | r => r
  end.

Definition key_lt (k1 k2 : Z * Z * Z) : Prop :=
  let '(c1, e1, m1) := k1 in
  let '(c2, e2, m2) := k2 in
  c1 < c2 \/ (c1 = c2 /\ (e1 < e2 \/ (e1 = e2 /\ m1 < m2))).

Definition key_le (k1 k2 : Z * Z * Z) : Prop := key_lt k1 k2 \/ k1 = k2.

Definition sf_is_nan (x : spec_float) : bool :=
  match x with
  | S754_nan => true
  | _ => false
  end.

Lemma SFcompare_key (a b : spec_float) :
  SFcompare a b
  = if sf_is_nan a || sf_is_nan b then None
    else Some (key_compare (sf_key a) (sf_key b)).
Proof.
  destruct a as [sa|sa| |sa ma ea], b as [sb|sb| |sb mb eb];
    try reflexivity;
    try (destruct sa; reflexivity);
    try (destruct sb; reflexivity);
    try (destruct sa, sb; reflexivity).
  destruct sa, sb; cbn -[Z.compare]; try reflexivity.
  rewrite Z.compare_opp, (Z.compare_antisym ea eb).
  destruct (ea ?= eb); reflexivity.
Qed.

Lemma key_compare_Lt (k1 k2 : Z * Z * Z) :
  key_compare k1 k2 = Lt <-> key_lt k1 k2.
Proof.
  destruct k1 as [[c1 e1] m1], k2 as [[c2 e2] m2]. unfold key_compare, key_lt.
  destruct (Z.compare_spec c1 c2), (Z.compare_spec e1 e2),
    (Z.compare_spec m1 m2); split; intros Hk; try discriminate;
    try reflexivity; lia.
Qed.

Lemma key_compare_Eq (k1 k2 : Z * Z * Z) :
  key_compare k1 k2 = Eq <-> k1 = k2.
Proof.
  destruct k1 as [[c1 e1] m1], k2 as [[c2 e2] m2]. unfold key_compare.
  destruct (Z.compare_spec c1 c2), (Z.compare_spec e1 e2),
    (Z.compare_spec m1 m2); split; intros Hk; try discriminate;
    try reflexivity; try (injection Hk; lia); subst; reflexivity.
Qed.

Lemma key_compare_Gt (k1 k2 : Z * Z * Z) :
  key_compare k1 k2 = Gt <-> key_lt k2 k1.
Proof.
  destruct k1 as [[c1 e1] m1], k2 as [[c2 e2] m2]. unfold key_compare, key_lt.
  destruct (Z.compare_spec c1 c2), (Z.compare_spec e1 e2),
    (Z.compare_spec m1 m2); split; intros Hk; try discriminate;
    try reflexivity; lia.
Qed.

Lemma key_lt_trans (k1 k2 k3 : Z * Z * Z) :
  key_lt k1 k2 -> key_lt k2 k3 -> key_lt k1 k3.
Proof.
  destruct k1 as [[c1 e1] m1], k2 as [[c2 e2] m2], k3 as [[c3 e3] m3].
  unfold key_lt. lia.
Qed.

Lemma key_lt_irrefl (k : Z * Z * Z) : ~ key_lt k k.
Proof. destruct k as [[c e] m]. unfold key_lt. lia. Qed.

Lemma key_total (k1 k2 : Z * Z * Z) : key_lt k1 k2 \/ k1 = k2 \/ key_lt k2 k1.
Proof.
  destruct k1 as [[c1 e1] m1], k2 as [[c2 e2] m2]. unfold key_lt.
  destruct (Z.lt_total c1 c2) as [?|[?|?]],
    (Z.lt_total e1 e2) as [?|[?|?]],
    (Z.lt_total m1 m2) as [?|[?|?]]; subst; auto 10.
Qed.

(** The comparisons of primitive floats, read on keys. *)

Definition fkey (x : float) : Z * Z * Z := sf_key (Prim2SF x).
Definition fnan (x : float) : bool := sf_is_nan (Prim2SF x).

Lemma ltb_key (x y : float) :
  (x <? y)%float = true <-> fnan x = false /\ fnan y = false
                            /\ key_lt (fkey x) (fkey y).
Proof.
  rewrite FloatAxioms.ltb_spec. unfold SFltb, fnan, fkey. rewrite SFcompare_key.
  destruct (sf_is_nan (Prim2SF x)), (sf_is_nan (Prim2SF y)); cbn;
    try (split; [discriminate | intros (? & ? & ?); discriminate]).
  rewrite <- key_compare_Lt.
  destruct (key_compare _ _); split; intros H; try discriminate;
    try tauto; destruct H as (_ & _ & H); discriminate.
Qed.

Lemma leb_key (x y : float) :
  (x <=? y)%float = true <-> fnan x = false /\ fnan y = false
                             /\ key_le (fkey x) (fkey y).
Proof.
  rewrite FloatAxioms.leb_spec. unfold SFleb, fnan, fkey, key_le. rewrite SFcompare_key.
  destruct (sf_is_nan (Prim2SF x)), (sf_is_nan (Prim2SF y)); cbn;
    try (split; [discriminate | intros (? & ? & ?); discriminate]).
  rewrite <- key_compare_Lt, <- key_compare_Eq.
  destruct (key_compare _ _); split; intros H; try discriminate;
    try tauto; destruct H as (_ & _ & [H|H]); discriminate.
Qed.

Lemma ltb_false_key (x y : float) :
  fnan x = false -> fnan y = false ->
  (x <? y)%float = false -> key_le (fkey y) (fkey x).
Proof.
  intros Hx Hy H. unfold key_le.
  destruct (key_total (fkey x) (fkey y)) as [Hlt|[Heq|Hgt]]; auto.
  assert ((x <? y)%float = true) by (apply ltb_key; auto).
  congruence.
Qed.

Lemma is_nan_fnan (x : float) : PrimFloat.is_nan x = fnan x.
Proof.
  unfold PrimFloat.is_nan, fnan. rewrite FloatAxioms.eqb_spec. unfold SFeqb.
  rewrite SFcompare_key. destruct (sf_is_nan (Prim2SF x)); cbn;
    [reflexivity|].
  assert (H : key_compare (sf_key (Prim2SF x)) (sf_key (Prim2SF x)) = Eq)
    by (apply key_compare_Eq; reflexivity).
  rewrite H. reflexivity.
Qed.

Lemma ltb_negb_leb (x y : float) :
  fnan x = false -> fnan y = false ->
  (x <? y)%float = negb (y <=? x)%float.
Proof.
  intros Hx Hy.
  destruct (x <? y)%float eqn:Hlt, (y <=? x)%float eqn:Hle;
    try reflexivity; exfalso.
  - apply ltb_key in Hlt as (_ & _ & Hlt).
    apply leb_key in Hle as (_ & _ & [Hle|Hle]).
    + exact (key_lt_irrefl _ (key_lt_trans _ _ _ Hlt Hle)).
    + rewrite Hle in Hlt. exact (key_lt_irrefl _ Hlt).
  - apply (ltb_false_key _ _ Hx Hy) in Hlt.
    assert ((y <=? x)%float = true) by (apply leb_key; auto).
    congruence.
Qed.

Lemma ltb_trans (x y z : float) :
  (x <? y)%float = true -> (y <? z)%float = true -> (x <? z)%float = true.
Proof.
  intros (Hx & _ & H1)%ltb_key (_ & Hz & H2)%ltb_key.
  apply ltb_key. eauto using key_lt_trans.
Qed.

Lemma leb_ltb_trans (x y z : float) :
  (x <=? y)%float = true -> (y <? z)%float = true -> (x <? z)%float = true.
Proof.
  intros (Hx & _ & [H1|H1])%leb_key (_ & Hz & H2)%ltb_key; apply ltb_key.
  - eauto using key_lt_trans.
  - rewrite H1. auto.
Qed.

Lemma ltb_leb_trans (x y z : float) :
  (x <? y)%float = true -> (y <=? z)%float = true -> (x <? z)%float = true.
Proof.
  intros (Hx & _ & H1)%ltb_key (_ & Hz & [H2|H2])%leb_key; apply ltb_key.
  - eauto using key_lt_trans.
  - rewrite <- H2. auto.
Qed.

Lemma leb_trans (x y z : float) :
  (x <=? y)%float = true -> (y <=? z)%float = true -> (x <=? z)%float = true.
Proof.
  intros (Hx & _ & H1)%leb_key (_ & Hz & H2)%leb_key. apply leb_key.
  split; [exact Hx|]. split; [exact Hz|].
  destruct H1 as [H1|H1], H2 as [H2|H2].
  - left. eauto using key_lt_trans.
  - left. rewrite <- H2. exact H1.
  - left. rewrite H1. exact H2.
  - right. congruence.
Qed.

Lemma ltb_leb (x y : float) :
  (x <? y)%float = true -> (x <=? y)%float = true.
Proof.
  intros (Hx & Hy & H)%ltb_key. apply leb_key. unfold key_le. auto.
Qed.

Lemma leb_refl (x : float) : fnan x = false -> (x <=? x)%float = true.
Proof. intros Hx. apply leb_key. unfold key_le. auto. Qed.

Lemma py_max_lower_bounds (a b : float) :
  fnan a = false -> fnan b = false ->
  (a <=? py_max a b)%float = true /\ (b <=? py_max a b)%float = true.
Proof.
  intros Ha Hb. unfold py_max. destruct (a <? b)%float eqn:Hlt.
  - split; [apply ltb_leb, Hlt | apply leb_refl, Hb].
  - split; [apply leb_refl, Ha|].
    apply leb_key. split; [exact Hb|]. split; [exact Ha|].
    apply ltb_false_key; assumption.
Qed.

(** ** C5: the BMI buckets *)

(** The five buckets as the specification lists them: membership test and
    value. *)
Definition spec_bmi_buckets (bmi : float) : list (bool * float) :=
  [ ((bmi <? 18.5)%float, (-2.0)%float);
    ((18.5 <=? bmi)%float && (bmi <? 25)%float, 0.5%float);
    ((25 <=? bmi)%float && (bmi <? 30)%float, (-0.5)%float);
    ((30 <=? bmi)%float && (bmi <? 35)%float, (-2.0)%float);
    ((35 <=? bmi)%float, (-4.0)%float) ].

Lemma bmi_thresholds_chain (bmi : float) :
  fnan bmi = false ->
  ((bmi <? 18.5)%float = true -> (bmi <? 25)%float = true)
  /\ ((bmi <? 25)%float = true -> (bmi <? 30)%float = true)
  /\ ((bmi <? 30)%float = true -> (bmi <? 35)%float = true).
Proof.
  intros _. repeat split; intros H; (eapply ltb_trans; [exact H|]);
    vm_compute; reflexivity.
Qed.

Lemma spec_bmi_buckets_flags (bmi : float) :
  fnan bmi = false ->
  spec_bmi_buckets bmi
  = [ ((bmi <? 18.5)%float, (-2.0)%float);
      (negb (bmi <? 18.5)%float && (bmi <? 25)%float, 0.5%float);
      (negb (bmi <? 25)%float && (bmi <? 30)%float, (-0.5)%float);
      (negb (bmi <? 30)%float && (bmi <? 35)%float, (-2.0)%float);
      (negb (bmi <? 35)%float, (-4.0)%float) ].
Proof.
  intros Hb. unfold spec_bmi_buckets.
  rewrite !(ltb_negb_leb bmi) by (exact Hb || (vm_compute; reflexivity)).
  rewrite !negb_involutive. reflexivity.
Qed.

(** X12. For every bmi that is a number (not NaN), exactly one of the
    five half-open buckets contains it and [bmi_modifier] is that bucket's
    value: below 18.5 gives -2.0, [18.5, 25) gives +0.5, [25, 30) gives
    -0.5, [30, 35) gives -2.0, 35 and above gives -4.0. *)
Theorem bmi_in_exactly_one_bucket (bmi : float) :
  PrimFloat.is_nan bmi = false ->
  exists (i : nat) (v : float),
    spec_bmi_buckets bmi !! i = Some (true, v)
    /\ bmi_modifier bmi = v
    /\ forall (j : nat) (w : float),
        spec_bmi_buckets bmi !! j = Some (true, w) -> j = i.
Proof.
  rewrite is_nan_fnan. intros Hb.
  destruct (bmi_thresholds_chain bmi Hb) as (H12 & H23 & H34).
  unfold bmi_modifier.
  rewrite (spec_bmi_buckets_flags bmi Hb).
  rewrite !(ltb_negb_leb bmi) by (exact Hb || (vm_compute; reflexivity)).
  rewrite !negb_involutive.
  rewrite !(ltb_negb_leb bmi) in H12, H23, H34
    by (exact Hb || (vm_compute; reflexivity)).
  destruct (18.5 <=? bmi)%float, (25 <=? bmi)%float, (30 <=? bmi)%float,
    (35 <=? bmi)%float; cbn in *;
    try (specialize (H12 eq_refl)); try (specialize (H23 eq_refl));
    try (specialize (H34 eq_refl)); try discriminate.
  - exists 4%nat, (-4.0)%float. repeat split; try reflexivity.
    intros [|[|[|[|[|j]]]]] w Hj; cbn in Hj;
      first [reflexivity | discriminate Hj | injection Hj; discriminate].
  - exists 3%nat, (-2.0)%float. repeat split; try reflexivity.
    intros [|[|[|[|[|j]]]]] w Hj; cbn in Hj;
      first [reflexivity | discriminate Hj | injection Hj; discriminate].
  - exists 2%nat, (-0.5)%float. repeat split; try reflexivity.
    intros [|[|[|[|[|j]]]]] w Hj; cbn in Hj;
      first [reflexivity | discriminate Hj | injection Hj; discriminate].
  - exists 1%nat, 0.5%float. repeat split; try reflexivity.
    intros [|[|[|[|[|j]]]]] w Hj; cbn in Hj;
      first [reflexivity | discriminate Hj | injection Hj; discriminate].
  - exists 0%nat, (-2.0)%float. repeat split; try reflexivity.
    intros [|[|[|[|[|j]]]]] w Hj; cbn in Hj;
      first [reflexivity | discriminate Hj | injection Hj; discriminate].
Qed.

Lemma bmi_in_exactly_one_bucket_witness :
  exists (i : nat) (v : float),
    spec_bmi_buckets 18.5 !! i = Some (true, v)
    /\ bmi_modifier 18.5 = v
    /\ forall (j : nat) (w : float),
        spec_bmi_buckets 18.5 !! j = Some (true, w) -> j = i.
Proof. apply (bmi_in_exactly_one_bucket 18.5). reflexivity. Defined.

(** The boundary values fall into the upper bucket. *)
Lemma bmi_modifier_boundaries :
  bmi_modifier 18.5 = 0.5%float /\ bmi_modifier 25 = (-0.5)%float
  /\ bmi_modifier 30 = (-2.0)%float /\ bmi_modifier 35 = (-4.0)%float.
Proof. repeat split; reflexivity. Qed.

(** A request with a bmi that is not a number; it passes the validation of
    the request model, which asks for a float. *)
Definition nan_bmi_request : PredictionRequest :=
  {| dob := date_of_ymd 1990 1 1; sex := "male"; country := "usa";
     bmi := PrimFloat.nan; smoking_status := "none"; alcohol_use := "none";
     exercise_level := "moderate" |}.

(** C5 (the code on a NaN bmi). Every comparison with NaN is false: NaN
    lies in none of the five buckets, and in particular [35 <= NaN] is
    false. The chain of comparisons still runs its final [else], the branch
    of bmi >= 35, and gives -4.0: the engine takes 4.0 years off, and so
    does [predict] (74.5 - 4.0 + 1.5 + 0.5 + 1.0 = 73.5). *)
Theorem C5_nan_bmi_runs_the_last_branch :
  (forall (i : nat) (v : float),
      spec_bmi_buckets PrimFloat.nan !! i <> Some (true, v))
  /\ (35 <=? PrimFloat.nan)%float = false
  /\ bmi_modifier PrimFloat.nan = (-4.0)%float
  /\ (exists adjustments,
         apply_lifestyle_modifiers 74.5 PrimFloat.nan "none" "none" "moderate"
         = Ok (73.5%float, adjustments)
         /\ adjustments !! "bmi" = Some (-4.0)%float)
  /\ (exists r,
         predict (date_of_ymd 2024 6 1) nan_bmi_request = Ok r
         /\ modifiers_applied r !! "bmi" = Some (-4.0)%float
         /\ adjusted_life_expectancy_years r = 73.5%float).
Proof.
  split.
  { intros i v H.
    destruct i as [|[|[|[|[|i]]]]]; vm_compute in H; discriminate H. }
  split; [reflexivity|]. split; [reflexivity|]. split.
  - eexists. rewrite apply_lifestyle_modifiers_eq.
    split; [reflexivity|]. apply breakdown_lookup.
  - destruct (predict (date_of_ymd 2024 6 1) nan_bmi_request) as [r|e] eqn:E.
    + exists r. split; [reflexivity|].
      vm_compute in E. injection E as <-. vm_compute. auto.
    + vm_compute in E. discriminate E.
Qed.

(** ** C8: the modifier engine is total *)

Lemma smoking_map_None (s : str) :
  ~ In s smoking_literals -> smoking_map !! s = None.
Proof. intros H. apply list_to_map_lookup_None. exact H. Qed.

Lemma alcohol_map_None (s : str) :
  ~ In s alcohol_literals -> alcohol_map !! s = None.
Proof. intros H. apply list_to_map_lookup_None. exact H. Qed.

Lemma exercise_map_None (s : str) :
  ~ In s exercise_literals -> exercise_map !! s = None.
Proof. intros H. apply list_to_map_lookup_None. exact H. Qed.

Lemma smoking_map_Some (s : str) :
  In s smoking_literals -> is_Some (smoking_map !! s).
Proof.
  cbn. intros [<-|[<-|[<-|[<-|[<-|[]]]]]]; vm_compute; eauto.
Qed.

Lemma alcohol_map_Some (s : str) :
  In s alcohol_literals -> is_Some (alcohol_map !! s).
Proof. cbn. intros [<-|[<-|[<-|[]]]]; vm_compute; eauto. Qed.

Lemma exercise_map_Some (s : str) :
  In s exercise_literals -> is_Some (exercise_map !! s).
Proof. cbn. intros [<-|[<-|[<-|[<-|[]]]]]; vm_compute; eauto. Qed.

(** C8. [apply_lifestyle_modifiers] returns on arbitrary category strings:
    it returns the breakdown with its four entries and the base with the
    four entries added, one after the other. A smoking status outside the
    five literals contributes -2.0, an alcohol use outside the three
    contributes 0.0 and an exercise level outside the four contributes 0.0,
    to the breakdown and to the adjusted value alike; a category taken from
    its literals is a key of its map, so that the default of [dict.get] is
    not used and the map's value is the contribution. *)
Theorem C8_modifiers_total (base bmi : float) (s a e : str) :
  exists adjusted adjustments vs va ve,
    apply_lifestyle_modifiers base bmi s a e = Ok (adjusted, adjustments)
    /\ adjustments !! "bmi" = Some (bmi_modifier bmi)
    /\ adjustments !! "smoking" = Some vs
    /\ adjustments !! "alcohol" = Some va
    /\ adjustments !! "exercise" = Some ve
    /\ adjusted = (base + bmi_modifier bmi + vs + va + ve)%float
    /\ (~ In s smoking_literals -> vs = (-2.0)%float)
    /\ (~ In a alcohol_literals -> va = 0.0%float)
    /\ (~ In e exercise_literals -> ve = 0.0%float)
    /\ (In s smoking_literals -> smoking_map !! s = Some vs)
    /\ (In a alcohol_literals -> alcohol_map !! a = Some va)
    /\ (In e exercise_literals -> exercise_map !! e = Some ve).
Proof.
  exists (adjusted_sum base bmi s a e), (breakdown bmi s a e),
    (smoking_modifier s), (alcohol_modifier a), (exercise_modifier e).
  split; [apply apply_lifestyle_modifiers_eq|].
  destruct (breakdown_lookup bmi s a e) as (Hb & Hs & Ha & He).
  do 4 (split; [assumption|]).
  split; [reflexivity|].
  unfold smoking_modifier, alcohol_modifier, exercise_modifier, dict_get.
  repeat split.
  - intros H. rewrite (smoking_map_None s H). reflexivity.
  - intros H. rewrite (alcohol_map_None a H). reflexivity.
  - intros H. rewrite (exercise_map_None e H). reflexivity.
  - intros H. destruct (smoking_map_Some s H) as [v Hv]. rewrite Hv.
    reflexivity.
  - intros H. destruct (alcohol_map_Some a H) as [v Hv]. rewrite Hv.
    reflexivity.
  - intros H. destruct (exercise_map_Some e H) as [v Hv]. rewrite Hv.
    reflexivity.
Qed.

Lemma not_In_literals (s : str) (l : list str) :
  forallb (fun k => negb (bool_decide (s = k))) l = true -> ~ In s l.
Proof.
  intros H Hin. rewrite forallb_forall in H. specialize (H s Hin).
  rewrite bool_decide_eq_true_2 in H by reflexivity. discriminate H.
Qed.

(** The engine on categories that bypass validation, and on validated
    ones: 70.0 + 0.5 - 2.0 + 0.0 + 0.0 = 68.5 and
    70.0 + 0.5 - 7.0 - 3.0 + 2.0 = 62.5. *)
Lemma C8_witness :
  (exists adjustments,
      apply_lifestyle_modifiers 70.0 22 "cigar" "wine" "yoga"
      = Ok (68.5%float, adjustments)
      /\ adjustments !! "bmi" = Some 0.5%float
      /\ adjustments !! "smoking" = Some (-2.0)%float
      /\ adjustments !! "alcohol" = Some 0.0%float
      /\ adjustments !! "exercise" = Some 0.0%float)
  /\ (exists adjustments,
         apply_lifestyle_modifiers 70.0 22 "heavy" "heavy" "high"
         = Ok (62.5%float, adjustments)
         /\ adjustments !! "bmi" = Some 0.5%float
         /\ adjustments !! "smoking" = Some (-7.0)%float
         /\ adjustments !! "alcohol" = Some (-3.0)%float
         /\ adjustments !! "exercise" = Some 2.0%float).
Proof.
  split.
  - destruct (C8_modifiers_total 70.0 22 "cigar" "wine" "yoga")
      as (adjusted & adjustments & vs & va & ve & Heq & Hb & Hs & Ha & He
          & Hadj & Hns & Hna & Hne & _).
    rewrite Hns in * by (apply not_In_literals; reflexivity).
    rewrite Hna in * by (apply not_In_literals; reflexivity).
    rewrite Hne in * by (apply not_In_literals; reflexivity).
    exists adjustments. rewrite Heq, Hadj. auto.
  - destruct (C8_modifiers_total 70.0 22 "heavy" "heavy" "high")
      as (adjusted & adjustments & vs & va & ve & Heq & Hb & Hs & Ha & He
          & Hadj & _ & _ & _ & Hks & Hka & Hke).
    specialize (Hks ltac:(cbn; auto 10)).
    specialize (Hka ltac:(cbn; auto 10)).
    specialize (Hke ltac:(cbn; auto 10)).
    vm_compute in Hks, Hka, Hke.
    injection Hks as <-. injection Hka as <-. injection Hke as <-.
    exists adjustments. rewrite Heq, Hadj. auto.
Defined.

(** ** The lookup resolver *)

Definition normalize (country : str) : str := lower (strip country).

Lemma contains_lookup {V : Type} (d : gmap str V) (k : str) :
  contains d k = false <-> d !! k = None.
Proof.
  unfold contains. destruct (d !! k); split; intros H; congruence.
Qed.

Lemma get_base_life_expectancy_unknown (country sex : str) :
  LIFE_TABLE !! normalize country = None ->
  get_base_life_expectancy country sex = subscript (by_sex 70.0 75.0) sex.
Proof.
  intros H. unfold get_base_life_expectancy. fold (normalize country).
  apply contains_lookup in H. rewrite H. reflexivity.
Qed.

Lemma get_base_life_expectancy_known (country sex : str)
    (row : gmap str float) :
  LIFE_TABLE !! normalize country = Some row ->
  get_base_life_expectancy country sex = subscript row sex.
Proof.
  intros H. unfold get_base_life_expectancy. fold (normalize country).
  unfold contains, subscript. rewrite H. reflexivity.
Qed.

Lemma by_sex_lookup (m f : float) :
  by_sex m f !! "male" = Some m /\ by_sex m f !! "female" = Some f.
Proof. unfold by_sex. split; by simplify_map_eq. Qed.

Lemma round2_global_avg :
  round2 70.0 = 70.0%float /\ round2 75.0 = 75.0%float.
Proof. split; vm_compute; reflexivity. Qed.

(** ** C4: the fallback for an unknown country *)

(** C4. For a country whose trimmed, lower-cased form is not a key of the
    life table, [get_base_life_expectancy] returns exactly 70.0 for male
    and 75.0 for female and raises nothing; the base figure of a response
    is then 70.0 or 75.0 by the sex alone, whatever the other fields of the
    request and whatever the date. *)
Theorem C4_unknown_country_fallback (c : str) :
  LIFE_TABLE !! normalize c = None ->
  get_base_life_expectancy c "male" = Ok 70.0%float
  /\ get_base_life_expectancy c "female" = Ok 75.0%float
  /\ forall (today : date) (req : PredictionRequest) (r : PredictionResponse),
      country req = c ->
      predict today req = Ok r ->
      (sex req = "male" -> base_life_expectancy_years r = 70.0%float)
      /\ (sex req = "female" -> base_life_expectancy_years r = 75.0%float).
Proof.
  intros Hc.
  destruct (by_sex_lookup 70.0 75.0) as [Hm Hf].
  assert (Hmale : get_base_life_expectancy c "male" = Ok 70.0%float).
  { rewrite (get_base_life_expectancy_unknown _ _ Hc).
    apply subscript_Ok, Hm. }
  assert (Hfemale : get_base_life_expectancy c "female" = Ok 75.0%float).
  { rewrite (get_base_life_expectancy_unknown _ _ Hc).
    apply subscript_Ok, Hf. }
  split; [exact Hmale|]. split; [exact Hfemale|].
  intros today req r <- H.
  apply predict_Ok_inv in H as (_ & base & days & dte & Hbase & _ & _ & ->).
  cbn [base_life_expectancy_years response].
  split; intros Hsex; rewrite Hsex in Hbase.
  - rewrite Hmale in Hbase. injection Hbase as <-. apply round2_global_avg.
  - rewrite Hfemale in Hbase. injection Hbase as <-. apply round2_global_avg.
Qed.

Definition atlantis_request : PredictionRequest :=
  {| dob := date_of_ymd 1950 7 4; sex := "female"; country := "Atlantis";
     bmi := 31%float; smoking_status := "heavy"; alcohol_use := "moderate";
     exercise_level := "light" |}.

Lemma C4_witness :
  get_base_life_expectancy "Atlantis" "male" = Ok 70.0%float
  /\ get_base_life_expectancy "Atlantis" "female" = Ok 75.0%float
  /\ exists r, predict (date_of_ymd 2024 6 1) atlantis_request = Ok r
               /\ base_life_expectancy_years r = 75.0%float.
Proof.
  destruct (C4_unknown_country_fallback "Atlantis") as (Hm & Hf & Hp);
    [vm_compute; reflexivity|].
  split; [exact Hm|]. split; [exact Hf|].
  destruct (predict (date_of_ymd 2024 6 1) atlantis_request) as [r|e] eqn:E.
  - exists r. split; [reflexivity|].
    exact (proj2 (Hp _ atlantis_request r eq_refl E) eq_refl).
  - vm_compute in E. discriminate E.
Defined.

(** ** C7: the lookup is case- and whitespace-insensitive *)

#[local] Arguments _PyUnicode_IsWhitespace : simpl never.
#[local] Arguments lower_ucs4 : simpl never.

(** *** Trimming *)

(** [head_space l]: the list starts with a whitespace code point. *)
Definition head_space (l : list N) : bool :=
  match l with
  | [] => false
  | c :: _ => _PyUnicode_IsWhitespace c
  end.

(** A list that neither starts nor ends with whitespace. *)
Definition trimmed (l : list N) : Prop :=
  head_space l = false /\ head_space (rev l) = false.

Lemma skip_whitespace_head (l : list N) :
  head_space (skip_whitespace l) = false.
Proof.
  induction l as [|c l IH]; [reflexivity|]. cbn.
  destruct (_PyUnicode_IsWhitespace c) eqn:E; [exact IH | cbn; exact E].
Qed.

Lemma skip_whitespace_fix (l : list N) :
  head_space l = false -> skip_whitespace l = l.
Proof. destruct l as [|c l]; [reflexivity|]. cbn. intros ->. reflexivity. Qed.

Lemma skip_whitespace_suffix (l : list N) :
  exists w, l = w ++ skip_whitespace l.
Proof.
  induction l as [|c l [w IH]]; [exists []; reflexivity|]. cbn.
  destruct (_PyUnicode_IsWhitespace c).
  - exists (c :: w). cbn. f_equal. exact IH.
  - exists []. reflexivity.
Qed.

Lemma head_space_app (l m : list N) :
  l <> [] -> head_space (l ++ m) = head_space l.
Proof. destruct l; [congruence | reflexivity]. Qed.

Lemma rev_nil_inv {A : Type} (l : list A) : rev l = [] -> l = [].
Proof.
  intros H. apply (f_equal (@rev A)) in H. rewrite rev_involutive in H.
  exact H.
Qed.

Lemma skip_whitespace_last (l : list N) :
  head_space (rev l) = false -> head_space (rev (skip_whitespace l)) = false.
Proof.
  intros H. destruct (skip_whitespace_suffix l) as [w Hw].
  destruct (skip_whitespace l) as [|c m] eqn:E; [reflexivity|].
  rewrite Hw, rev_app_distr, head_space_app in H; [exact H|].
  intros Hnil. apply rev_nil_inv in Hnil. discriminate Hnil.
Qed.

Lemma strip_trimmed (s : str) : trimmed (code_points (strip s)).
Proof.
  unfold strip, rstrip, lstrip, trimmed. cbn [code_points]. split.
  - apply skip_whitespace_last. rewrite rev_involutive.
    apply skip_whitespace_head.
  - rewrite rev_involutive. apply skip_whitespace_head.
Qed.

Lemma strip_fix (s : str) : trimmed (code_points s) -> strip s = s.
Proof.
  destruct s as [l]. unfold trimmed, strip, rstrip, lstrip.
  cbn [code_points]. intros [H1 H2].
  rewrite (skip_whitespace_fix l H1), (skip_whitespace_fix _ H2),
    rev_involutive.
  reflexivity.
Qed.

(** *** The lower-case table *)

(** A code point the lower-casing leaves alone. *)
Definition lowered (d : N) : bool :=
  negb (existsb (in_run d) lowercase_runs) && negb (d =? 0x130)%N
  && negb (d =? 0x3A3)%N.

Definition lowered_mark (d : N) : bool :=
  lowered d && negb (_PyUnicode_IsWhitespace d).

(** The targets of a run, enumerated. *)
Definition run_targets (r : N * N * N * N) : list N :=
  let '(first, last, step, target) := r in
  List.map (fun k => (target + N.of_nat k * step)%N)
    (seq 0 (S (N.to_nat ((last - first) / step)))).

Definition run_checked (r : N * N * N * N) : bool :=
  let '(_, _, step, _) := r in
  negb (step =? 0)%N && forallb lowered_mark (run_targets r).

Lemma lowercase_runs_checked :
  forallb run_checked lowercase_runs = true.
Proof. vm_compute. reflexivity. Qed.

Lemma in_run_target (c : N) (r : N * N * N * N) :
  run_checked r = true -> in_run c r = true ->
  lowered_mark (snd r + (c - fst (fst (fst r))))%N = true.
Proof.
  destruct r as [[[a b] st] t]. unfold run_checked, in_run, run_targets.
  cbn [fst snd]. intros Hc Hin.
  apply andb_true_iff in Hc as [Hst Hall].
  apply negb_true_iff, N.eqb_neq in Hst.
  apply andb_true_iff in Hin as [Hin Hmod].
  apply andb_true_iff in Hin as [Hlo Hhi].
  apply N.leb_le in Hlo, Hhi. apply N.eqb_eq in Hmod.
  rewrite forallb_forall in Hall. apply Hall.
  pose proof (N.div_mod (c - a) st Hst) as Hdm. rewrite Hmod in Hdm.
  assert (Hq : ((c - a) / st <= (b - a) / st)%N)
    by (apply N.Div0.div_le_mono; lia).
  set (q := ((c - a) / st)%N) in *. set (qb := ((b - a) / st)%N) in *.
  apply in_map_iff. exists (N.to_nat q). split.
  - rewrite N2Nat.id. f_equal. rewrite Hdm. lia.
  - apply in_seq. lia.
Qed.

Lemma find_existsb {A : Type} (f : A -> bool) (l : list A) :
  find f l = None -> existsb f l = false.
Proof.
  induction l as [|x l IH]; [reflexivity|]. cbn.
  destruct (f x); [discriminate | exact IH].
Qed.

Lemma existsb_find {A : Type} (f : A -> bool) (l : list A) :
  existsb f l = false -> find f l = None.
Proof.
  induction l as [|x l IH]; [reflexivity|]. cbn.
  destruct (f x); [discriminate | exact IH].
Qed.

(** What [lower_ucs4] writes for one code point: at least one code point,
    each of them left alone by a further lower-casing, and none of them
    whitespace unless the code point was. *)
Lemma lower_ucs4_lowered (before after : list N) (c : N) :
  lower_ucs4 before after c <> []
  /\ Forall (fun d => lowered d = true) (lower_ucs4 before after c)
  /\ (_PyUnicode_IsWhitespace c = false ->
      Forall (fun d => _PyUnicode_IsWhitespace d = false)
        (lower_ucs4 before after c)).
Proof.
  unfold lower_ucs4. destruct (N.eqb_spec c 0x3A3) as [->|Hsigma].
  { unfold handle_capital_sigma.
    destruct (if match skip_case_ignorable before with
                 | [] => false | c :: _ => _PyUnicode_IsCased c end
              then match skip_case_ignorable after with
                   | [] => true | c :: _ => negb (_PyUnicode_IsCased c) end
              else false);
      (split; [discriminate|]); split; intros;
      repeat constructor; vm_compute; reflexivity. }
  unfold _PyUnicode_ToLowerFull.
  destruct (find (in_run c) lowercase_runs) as [[[[a b] st] t]|] eqn:Hfind.
  - apply find_some in Hfind as [Hin Hrun].
    pose proof lowercase_runs_checked as Hall.
    rewrite forallb_forall in Hall. specialize (Hall _ Hin).
    pose proof (in_run_target c _ Hall Hrun) as Hm. cbn [fst snd] in Hm.
    apply andb_true_iff in Hm as [Hl Hw]. apply negb_true_iff in Hw.
    split; [discriminate|]. split; intros; repeat constructor; assumption.
  - apply find_existsb in Hfind.
    destruct (N.eqb_spec c 0x130) as [->|Hdot].
    + split; [discriminate|]. split; intros;
        repeat constructor; vm_compute; reflexivity.
    + split; [discriminate|]. split.
      * repeat constructor. unfold lowered. rewrite Hfind.
        apply N.eqb_neq in Hsigma, Hdot. rewrite Hsigma, Hdot. reflexivity.
      * intros Hw. repeat constructor. exact Hw.
Qed.

Lemma lower_ucs4_fix (before after : list N) (d : N) :
  lowered d = true -> lower_ucs4 before after d = [d].
Proof.
  unfold lowered. intros H.
  apply andb_true_iff in H as [H Hsigma].
  apply andb_true_iff in H as [Hruns Hdot].
  apply negb_true_iff in Hruns, Hdot, Hsigma.
  unfold lower_ucs4, _PyUnicode_ToLowerFull.
  rewrite Hsigma, (existsb_find _ _ Hruns), Hdot. reflexivity.
Qed.

Lemma do_lower_lowered (before l : list N) :
  Forall (fun d => lowered d = true) (do_lower before l).
Proof.
  revert before. induction l as [|c l IH]; intros before; [constructor|].
  cbn. apply Forall_app. split; [|apply IH].
  apply (lower_ucs4_lowered before l c).
Qed.

Lemma do_lower_fix (before l : list N) :
  Forall (fun d => lowered d = true) l -> do_lower before l = l.
Proof.
  intros H. revert before. induction H as [|d l Hd _ IH]; intros before;
    [reflexivity|].
  cbn. rewrite (lower_ucs4_fix _ _ _ Hd), IH. reflexivity.
Qed.

Lemma do_lower_nil (before l : list N) : do_lower before l = [] -> l = [].
Proof.
  destruct l as [|c l]; [reflexivity|]. cbn. intros H.
  apply app_eq_nil in H as [H _].
  destruct (lower_ucs4_lowered before l c) as [Hne _]. contradiction.
Qed.

Lemma do_lower_head (before l : list N) :
  head_space l = false -> head_space (do_lower before l) = false.
Proof.
  destruct l as [|c l]; [reflexivity|]. cbn. intros Hc.
  destruct (lower_ucs4_lowered before l c) as (Hne & _ & Hw).
  specialize (Hw Hc). rewrite head_space_app by exact Hne.
  destruct (lower_ucs4 before l c) as [|d p]; [reflexivity|].
  cbn. apply (Forall_inv Hw).
Qed.

Lemma do_lower_last (before l : list N) :
  head_space (rev l) = false -> head_space (rev (do_lower before l)) = false.
Proof.
  revert before. induction l as [|c l IH]; intros before; [reflexivity|].
  cbn [do_lower rev]. intros H. rewrite rev_app_distr.
  destruct (lower_ucs4_lowered before l c) as (Hne & _ & Hw).
  destruct l as [|c' l'].
  - cbn in H. specialize (Hw H). cbn [do_lower rev app].
    apply Forall_rev in Hw.
    destruct (rev (lower_ucs4 before [] c)) as [|d p]; [reflexivity|].
    cbn. apply (Forall_inv Hw).
  - assert (Hr : rev (c' :: l') <> []).
    { intros Hnil. apply rev_nil_inv in Hnil. discriminate Hnil. }
    rewrite head_space_app in H by exact Hr.
    rewrite head_space_app; [apply IH, H|].
    intros Hnil. apply rev_nil_inv, do_lower_nil in Hnil. discriminate Hnil.
Qed.

Lemma normalize_idem (c : str) : normalize (normalize c) = normalize c.
Proof.
  unfold normalize.
  destruct (strip_trimmed c) as [H1 H2].
  rewrite (strip_fix (lower (strip c))).
  - unfold lower at 1 3. f_equal. cbn [code_points].
    apply do_lower_fix, do_lower_lowered.
  - unfold lower. cbn [code_points]. split;
      [apply do_lower_head, H1 | apply do_lower_last, H2].
Qed.

(** C7. For every country [c], a sequence of Unicode code points, and
    every sex, the resolver gives on [c] what it gives on the trimmed,
    lower-cased form of [c]; in particular "USA", " usa " and "usa" yield
    the same base expectancy. The same holds beyond ASCII: "U" followed by
    the Kelvin sign U+212A is lower-cased to "uk", and the ideographic
    space U+3000 and the line separator U+2028 are trimmed. *)
Theorem C7_lookup_normalizes_country :
  (forall c sex : str,
      get_base_life_expectancy c sex
      = get_base_life_expectancy (normalize c) sex)
  /\ (forall sex : str,
         get_base_life_expectancy "USA" sex
         = get_base_life_expectancy "usa" sex
         /\ get_base_life_expectancy " usa " sex
            = get_base_life_expectancy "usa" sex)
  /\ get_base_life_expectancy "USA" "male" = Ok 74.5%float
  /\ get_base_life_expectancy "USA" "female" = Ok 80.2%float
  /\ normalize (Str [0x55; 0x212A]%N) = "uk"
  /\ normalize (Str [0x3000; 0x55; 0x53; 0x41; 0x2028]%N) = "usa".
Proof.
  assert (H : forall c sex : str,
             get_base_life_expectancy c sex
             = get_base_life_expectancy (normalize c) sex).
  { intros c sex. unfold get_base_life_expectancy.
    fold (normalize c). fold (normalize (normalize c)).
    rewrite normalize_idem. reflexivity. }
  split; [exact H|]. split.
  - intros sex. split.
    + rewrite (H "USA"). reflexivity.
    + rewrite (H " usa "). reflexivity.
  - repeat split; vm_compute; reflexivity.
Qed.

(** ** The finitely many values of the engine and of the resolver *)

Definition bmi_values : list float :=
  [(-4.0)%float; (-2.0)%float; (-0.5)%float; 0.5%float].
Definition smoking_values : list float :=
  [(-7.0)%float; (-4.0)%float; (-2.0)%float; (-1.0)%float; 1.5%float].
Definition alcohol_values : list float :=
  [(-3.0)%float; 0.0%float; 0.5%float].
Definition exercise_values : list float :=
  [(-2.0)%float; (-0.5)%float; 0.0%float; 1.0%float; 2.0%float].

(** Every float the resolver can return: the entries of the life table and
    the two global averages. *)
Definition resolver_values : list float :=
  flat_map (fun kv => (map_to_list (snd kv)).*2) LIFE_TABLE_items
  ++ (map_to_list (by_sex 70.0 75.0)).*2.

Lemma bmi_modifier_values (bmi : float) : In (bmi_modifier bmi) bmi_values.
Proof.
  unfold bmi_modifier, bmi_values.
  repeat match goal with |- context [if ?b then _ else _] => destruct b end;
    cbn; auto 10.
Qed.

Lemma smoking_modifier_values (s : str) :
  In (smoking_modifier s) smoking_values.
Proof.
  unfold smoking_modifier, dict_get.
  destruct (smoking_map !! s) as [v|] eqn:E; [|cbn; auto 10].
  apply list_to_map_lookup_In in E. cbn in E.
  repeat (destruct E as [E|E]; [injection E as _ <-; cbn; auto 10|]).
  destruct E.
Qed.

Lemma alcohol_modifier_values (s : str) :
  In (alcohol_modifier s) alcohol_values.
Proof.
  unfold alcohol_modifier, dict_get.
  destruct (alcohol_map !! s) as [v|] eqn:E; [|cbn; auto 10].
  apply list_to_map_lookup_In in E. cbn in E.
  repeat (destruct E as [E|E]; [injection E as _ <-; cbn; auto 10|]).
  destruct E.
Qed.

Lemma exercise_modifier_values (s : str) :
  In (exercise_modifier s) exercise_values.
Proof.
  unfold exercise_modifier, dict_get.
  destruct (exercise_map !! s) as [v|] eqn:E; [|cbn; auto 10].
  apply list_to_map_lookup_In in E. cbn in E.
  repeat (destruct E as [E|E]; [injection E as _ <-; cbn; auto 10|]).
  destruct E.
Qed.

Lemma dict_values_In (d : gmap str float) (k : str) (v : float) :
  d !! k = Some v -> In v (map_to_list d).*2.
Proof.
  intros H. apply list_elem_of_In, list_elem_of_fmap.
  exists (k, v). split; [reflexivity|]. apply elem_of_map_to_list, H.
Qed.

Lemma get_base_life_expectancy_values (country sex : str) (base : float) :
  get_base_life_expectancy country sex = Ok base -> In base resolver_values.
Proof.
  intros H. unfold resolver_values. apply in_or_app.
  destruct (LIFE_TABLE !! normalize country) as [row|] eqn:E.
  - left. rewrite (get_base_life_expectancy_known _ _ _ E) in H.
    apply subscript_Ok in H.
    refine (proj2 (in_flat_map
                     (fun kv : str * gmap str float =>
                        (map_to_list (snd kv)).*2)
                     LIFE_TABLE_items base) _).
    exists (normalize country, row). split.
    + exact (list_to_map_lookup_In LIFE_TABLE_items _ _ E).
    + exact (dict_values_In _ _ _ H).
  - right. rewrite (get_base_life_expectancy_unknown _ _ E) in H.
    apply subscript_Ok in H. exact (dict_values_In _ _ _ H).
Qed.

(** A boolean property checked on every combination of a resolver value
    and four modifier values. *)
Definition all_combinations (P : float -> float -> float -> float -> float -> bool)
  : bool :=
  forallb (fun b =>
    forallb (fun vb =>
      forallb (fun vs =>
        forallb (fun va =>
          forallb (fun ve => P b vb vs va ve) exercise_values)
          alcohol_values)
        smoking_values)
      bmi_values)
    resolver_values.

Lemma all_combinations_elim
    (P : float -> float -> float -> float -> float -> bool) :
  all_combinations P = true ->
  forall b vb vs va ve,
    In b resolver_values -> In vb bmi_values -> In vs smoking_values ->
    In va alcohol_values -> In ve exercise_values ->
    P b vb vs va ve = true.
Proof.
  unfold all_combinations. intros H b vb vs va ve Hb Hvb Hvs Hva Hve.
  rewrite forallb_forall in H. specialize (H b Hb).
  rewrite forallb_forall in H. specialize (H vb Hvb).
  rewrite forallb_forall in H. specialize (H vs Hvs).
  rewrite forallb_forall in H. specialize (H va Hva).
  rewrite forallb_forall in H. exact (H ve Hve).
Qed.

Lemma all_modifiers_elim (P : float -> float -> float -> float -> bool) :
  forallb (fun vb =>
    forallb (fun vs =>
      forallb (fun va =>
        forallb (fun ve => P vb vs va ve) exercise_values)
        alcohol_values)
      smoking_values)
    bmi_values = true ->
  forall vb vs va ve,
    In vb bmi_values -> In vs smoking_values ->
    In va alcohol_values -> In ve exercise_values ->
    P vb vs va ve = true.
Proof.
  intros H vb vs va ve Hvb Hvs Hva Hve.
  rewrite forallb_forall in H. specialize (H vb Hvb).
  rewrite forallb_forall in H. specialize (H vs Hvs).
  rewrite forallb_forall in H. specialize (H va Hva).
  rewrite forallb_forall in H. exact (H ve Hve).
Qed.

(** ** C10: the range of the total adjustment *)

Lemma total_adjustment_bounds (vb vs va ve : float) :
  In vb bmi_values -> In vs smoking_values ->
  In va alcohol_values -> In ve exercise_values ->
  (-16.0 <=? vb + vs + va + ve)%float = true
  /\ (vb + vs + va + ve <=? 4.5)%float = true.
Proof.
  intros Hvb Hvs Hva Hve. apply andb_true_iff.
  revert vb vs va ve Hvb Hvs Hva Hve.
  apply (all_modifiers_elim
           (fun vb vs va ve =>
              (-16.0 <=? vb + vs + va + ve)%float
              && (vb + vs + va + ve <=? 4.5)%float)).
  vm_compute. reflexivity.
Qed.

Lemma resolver_adjustment_exact (b vb vs va ve : float) :
  In b resolver_values -> In vb bmi_values -> In vs smoking_values ->
  In va alcohol_values -> In ve exercise_values ->
  (b + vb + vs + va + ve)%float = (b + (vb + vs + va + ve))%float
  /\ (-16.0 <=? b + vb + vs + va + ve - b)%float = true
  /\ (b + vb + vs + va + ve - b <=? 4.5)%float = true.
Proof.
  intros Hb Hvb Hvs Hva Hve.
  assert (H : PrimFloat.Leibniz.eqb (b + vb + vs + va + ve)
                (b + (vb + vs + va + ve)) 
              && (-16.0 <=? b + vb + vs + va + ve - b)%float
              && (b + vb + vs + va + ve - b <=? 4.5)%float = true).
  { revert b vb vs va ve Hb Hvb Hvs Hva Hve.
    apply (all_combinations_elim
             (fun b vb vs va ve =>
                PrimFloat.Leibniz.eqb (b + vb + vs + va + ve)
                  (b + (vb + vs + va + ve))
                && (-16.0 <=? b + vb + vs + va + ve - b)%float
                && (b + vb + vs + va + ve - b <=? 4.5)%float)).
    vm_compute. reflexivity. }
  apply andb_true_iff in H as [H H3]. apply andb_true_iff in H as [H1 H2].
  apply FloatAxioms.Leibniz.eqb_spec in H1. auto.
Qed.

(** C10 (amended). For every input, each value of the breakdown is drawn
    from a fixed finite set, the sum of the four values lies in
    [-16.0, +4.5], and the returned adjusted value is the base with the
    four values added one after the other, left to right, in binary64
    arithmetic. When the base is a value of the lookup resolver (a table
    entry or a global average), the adjusted value equals the base plus the
    sum of the four values and adjusted minus base lies in [-16.0, +4.5]. *)
Theorem C10_adjustment_range (base bmi : float) (s a e : str) :
  exists adjusted adjustments vb vs va ve,
    apply_lifestyle_modifiers base bmi s a e = Ok (adjusted, adjustments)
    /\ adjustments !! "bmi" = Some vb /\ In vb bmi_values
    /\ adjustments !! "smoking" = Some vs /\ In vs smoking_values
    /\ adjustments !! "alcohol" = Some va /\ In va alcohol_values
    /\ adjustments !! "exercise" = Some ve /\ In ve exercise_values
    /\ (-16.0 <=? vb + vs + va + ve)%float = true
    /\ (vb + vs + va + ve <=? 4.5)%float = true
    /\ adjusted = (base + vb + vs + va + ve)%float
    /\ ((exists country sex,
            get_base_life_expectancy country sex = Ok base) ->
        adjusted = (base + (vb + vs + va + ve))%float
        /\ (-16.0 <=? adjusted - base)%float = true
        /\ (adjusted - base <=? 4.5)%float = true).
Proof.
  exists (adjusted_sum base bmi s a e), (breakdown bmi s a e),
    (bmi_modifier bmi), (smoking_modifier s), (alcohol_modifier a),
    (exercise_modifier e).
  destruct (breakdown_lookup bmi s a e) as (Hb & Hs & Ha & He).
  pose proof (bmi_modifier_values bmi) as Vb.
  pose proof (smoking_modifier_values s) as Vs.
  pose proof (alcohol_modifier_values a) as Va.
  pose proof (exercise_modifier_values e) as Ve.
  destruct (total_adjustment_bounds _ _ _ _ Vb Vs Va Ve) as [Hlo Hhi].
  split; [apply apply_lifestyle_modifiers_eq|].
  do 8 (split; [assumption|]).
  split; [exact Hlo|]. split; [exact Hhi|]. split; [reflexivity|].
  intros (country & sex & Hbase).
  apply get_base_life_expectancy_values in Hbase.
  exact (resolver_adjustment_exact _ _ _ _ _ Hbase Vb Vs Va Ve).
Qed.

Lemma C10_witness :
  exists adjusted adjustments,
    apply_lifestyle_modifiers 80.2 40 "heavy" "heavy" "sedentary"
    = Ok (adjusted, adjustments)
    /\ adjusted = (80.2 + -16.0)%float
    /\ (-16.0 <=? adjusted - 80.2)%float = true
    /\ (adjusted - 80.2 <=? 4.5)%float = true.
Proof.
  destruct (C10_adjustment_range 80.2 40 "heavy" "heavy" "sedentary")
    as (adjusted & adjustments & vb & vs & va & ve & Heq & Hb & _ & Hs & _
        & Ha & _ & He & _ & _ & _ & _ & Hres).
  exists adjusted, adjustments. split; [exact Heq|].
  destruct Hres as (Hsum & Hlo & Hhi).
  { exists "usa", "female". vm_compute. reflexivity. }
  split; [|split; [exact Hlo | exact Hhi]].
  rewrite apply_lifestyle_modifiers_eq in Heq. injection Heq as <- <-.
  vm_compute. reflexivity.
Defined.

(** With a base that the resolver never returns, binary64 addition shows:
    on base 63.9 the four values +0.5, +1.5, +0.5, +2.0 move the result to
    a float that is more than 4.5 above the base, and the values +0.5,
    +1.5, 0.0, -2.0, whose sum is 0, do not give back the base. *)
Lemma C10_counterexample :
  (exists adjusted adjustments,
      apply_lifestyle_modifiers 63.9 22 "none" "none" "high"
      = Ok (adjusted, adjustments)
      /\ (adjusted - 63.9 <=? 4.5)%float = false)
  /\ (exists adjusted adjustments,
         apply_lifestyle_modifiers 63.9 22 "none" "moderate" "sedentary"
         = Ok (adjusted, adjustments)
         /\ adjustments !! "bmi" = Some 0.5%float
         /\ adjustments !! "smoking" = Some 1.5%float
         /\ adjustments !! "alcohol" = Some 0.0%float
         /\ adjustments !! "exercise" = Some (-2.0)%float
         /\ (adjusted =? 63.9 + (0.5 + 1.5 + 0.0 + -2.0))%float = false).
Proof.
  split; eexists _, _; rewrite apply_lifestyle_modifiers_eq;
    (split; [reflexivity|]); vm_compute; auto 10.
Qed.

(** ** Rounding to the nearest integer *)

Lemma rne_div_bounds (n p : Z) :
  0 < p -> 2 * (rne_div n p) * p - p <= 2 * n <= 2 * (rne_div n p) * p + p.
Proof.
  intros Hp. unfold rne_div.
  pose proof (Z.div_mod n p ltac:(lia)) as Hdm.
  pose proof (Z.mod_pos_bound n p Hp) as Hr.
  destruct (Z.compare_spec (2 * (n mod p)) p);
    [destruct (Z.even (n / p))| |]; nia.
Qed.

Lemma rne_div_mono (n1 n2 p : Z) :
  0 < p -> n1 <= n2 -> rne_div n1 p <= rne_div n2 p.
Proof.
  intros Hp Hle. unfold rne_div.
  pose proof (Z.div_mod n1 p ltac:(lia)) as Hdm1.
  pose proof (Z.div_mod n2 p ltac:(lia)) as Hdm2.
  pose proof (Z.mod_pos_bound n1 p Hp) as Hr1.
  pose proof (Z.mod_pos_bound n2 p Hp) as Hr2.
  pose proof (Z.div_le_mono n1 n2 p Hp Hle) as Hq.
  destruct (Z.eq_dec (n1 / p) (n2 / p)) as [Heq|Hne].
  - rewrite <- Heq in *.
    assert (n1 mod p <= n2 mod p) by nia.
    destruct (Z.compare_spec (2 * (n1 mod p)) p),
      (Z.compare_spec (2 * (n2 mod p)) p);
      destruct (Z.even (n1 / p)); lia.
  - assert (n1 / p + 1 <= n2 / p) by lia.
    destruct (Z.compare_spec (2 * (n1 mod p)) p),
      (Z.compare_spec (2 * (n2 mod p)) p);
      destruct (Z.even (n1 / p)), (Z.even (n2 / p)); lia.
Qed.

Lemma rne_div_exact (k p : Z) : 0 < p -> rne_div (k * p) p = k.
Proof.
  intros Hp. unfold rne_div.
  rewrite Z.div_mul, Z.mod_mul by lia.
  destruct (Z.compare_spec (2 * 0) p); lia.
Qed.

Lemma rne_div_scale (n p k : Z) :
  0 < p -> 0 < k -> rne_div (n * k) (p * k) = rne_div n p.
Proof.
  intros Hp Hk. unfold rne_div.
  rewrite Z.div_mul_cancel_r by lia.
  rewrite Zmult_mod_distr_r.
  rewrite (Z.mul_comm (n mod p) k), Z.mul_assoc, (Z.mul_comm 2 k),
    <- Z.mul_assoc, (Z.mul_comm p k).
  rewrite <- Zmult_compare_compat_l by lia. reflexivity.
Qed.

(** ** Valid binary64 numbers and their exact value

    [sf_num x] is the exact value of a finite [x] in units of 2^-1074, the
    smallest positive binary64 number: an integer. *)

Definition sf_num (x : spec_float) : Z :=
  match x with
  | S754_finite s m e => cond_Zopp s (Z.pos m * 2 ^ (e + 1074))
  | _ => 0
  end.

Lemma digits2_pos_bounds (m : positive) :
  2 ^ (Z.pos (digits2_pos m) - 1) <= Z.pos m < 2 ^ Z.pos (digits2_pos m).
Proof.
  induction m as [m IH|m IH|]; cbn [digits2_pos].
  - rewrite Pos2Z.inj_succ.
    replace (Z.succ (Z.pos (digits2_pos m)) - 1) with
      (Z.succ (Z.pos (digits2_pos m) - 1)) by lia.
    rewrite !Z.pow_succ_r by lia. lia.
  - rewrite Pos2Z.inj_succ.
    replace (Z.succ (Z.pos (digits2_pos m)) - 1) with
      (Z.succ (Z.pos (digits2_pos m) - 1)) by lia.
    rewrite !Z.pow_succ_r by lia. lia.
  - cbn. lia.
Qed.

Lemma valid_finite_bounds (s : bool) (m : positive) (e : Z) :
  valid_binary (S754_finite s m e) = true ->
  -1074 <= e <= 971 /\ Z.pos m < 2 ^ 53
  /\ (e = -1074 \/ 2 ^ 52 <= Z.pos m).
Proof.
  cbn [SpecFloat.valid_binary]. unfold bounded, canonical_mantissa, fexp.
  intros H. apply andb_true_iff in H as [Hc He].
  apply Z.eqb_eq in Hc. apply Z.leb_le in He.
  change (SpecFloat.emin prec emax) with (-1074) in Hc.
  change prec with 53 in *. change emax with 1024 in *.
  pose proof (digits2_pos_bounds m) as [Hlo Hhi].
  set (d := Z.pos (digits2_pos m)) in *.
  assert (Hd : 0 < d) by (unfold d; lia).
  split; [lia|].
  assert (Hd53 : d <= 53) by lia.
  split.
  - apply Z.lt_le_trans with (1 := Hhi). apply Z.pow_le_mono_r; lia.
  - destruct (Z.eq_dec e (-1074)) as [|Hne]; [left; assumption|right].
    assert (d = 53) by lia.
    replace 52 with (d - 1) by lia. exact Hlo.
Qed.

(** On valid positive finite numbers the lexicographic order of
    (exponent, mantissa) is the order of the values. *)
Lemma valid_lex_le_num (m1 m2 : positive) (e1 e2 : Z) :
  valid_binary (S754_finite false m1 e1) = true ->
  valid_binary (S754_finite false m2 e2) = true ->
  e1 < e2 \/ (e1 = e2 /\ Z.pos m1 <= Z.pos m2) ->
  Z.pos m1 * 2 ^ (e1 + 1074) <= Z.pos m2 * 2 ^ (e2 + 1074).
Proof.
  intros (He1 & Hm1 & Hn1)%valid_finite_bounds
         (He2 & Hm2 & Hn2)%valid_finite_bounds [Hlt|[-> Hle]].
  - destruct Hn2 as [->|Hn2]; [exfalso; clear - He1 Hlt; lia|].
    replace (e2 + 1074) with ((e1 + 1074) + (e2 - e1)) by lia.
    rewrite (Z.pow_add_r 2 (e1 + 1074) (e2 - e1)) by lia.
    assert (Hp : 0 < 2 ^ (e1 + 1074)) by (apply Z.pow_pos_nonneg; lia).
    assert (H2 : 2 ^ 1 <= 2 ^ (e2 - e1)) by (apply Z.pow_le_mono_r; lia).
    change (2 ^ 1) with 2 in H2.
    change (2 ^ 53) with 9007199254740992 in Hm1.
    change (2 ^ 52) with 4503599627370496 in Hn2.
    set (P := 2 ^ (e1 + 1074)) in *. set (Q := 2 ^ (e2 - e1)) in *.
    assert (Z.pos m1 * P <= 9007199254740992 * P)
      by (apply Z.mul_le_mono_nonneg_r; lia).
    assert (9007199254740992 * P <= Z.pos m2 * 2 * P)
      by (apply Z.mul_le_mono_nonneg_r; lia).
    assert (Z.pos m2 * 2 * P <= Z.pos m2 * Q * P)
      by (apply Z.mul_le_mono_nonneg_r;
          [lia | apply Z.mul_le_mono_nonneg_l; lia]).
    replace (Z.pos m2 * (P * Q)) with (Z.pos m2 * Q * P) by ring.
    lia.
  - apply Z.mul_le_mono_nonneg_r; [|exact Hle].
    apply Z.pow_nonneg. lia.
Qed.

(** [SF_round_scaled] on a valid positive number, in terms of [sf_num]. *)
Lemma SF_round_scaled_num (k : Z) (m : positive) (e : Z) :
  -1074 <= e ->
  SF_round_scaled k (S754_finite false m e)
  = Some (rne_div (k * (Z.pos m * 2 ^ (e + 1074))) (2 ^ 1074)).
Proof.
  intros He. cbn [SF_round_scaled cond_Zopp]. f_equal.
  destruct (Z.leb_spec 0 e) as [H0|H0].
  - replace (e + 1074) with (e + 1074 - 1074 + 1074) by lia.
    replace (e + 1074 - 1074) with e by lia.
    rewrite (Z.pow_add_r 2 e 1074) by lia.
    rewrite !Z.mul_assoc. rewrite rne_div_exact; [reflexivity|].
    apply Z.pow_pos_nonneg; lia.
  - replace (2 ^ 1074) with (2 ^ (- e) * 2 ^ (e + 1074)).
    + rewrite Z.mul_assoc. apply eq_sym, rne_div_scale;
        apply Z.pow_pos_nonneg; lia.
    + rewrite <- Z.pow_add_r by lia. f_equal. lia.
Qed.

(** ** Rounding a float that lies between two integers *)

(** [is_int_float p v]: the float [p] is a positive number whose exact
    value is the integer [v]. *)
Definition is_int_float (p : float) (v : Z) : Prop :=
  exists m e, Prim2SF p = S754_finite false m e
              /\ Z.pos m * 2 ^ (e + 1074) = v * 2 ^ 1074.

Lemma positive_between (lo x hi : float) (ml mh : positive) (el eh : Z) :
  Prim2SF lo = S754_finite false ml el ->
  Prim2SF hi = S754_finite false mh eh ->
  (lo <=? x)%float = true -> (x <=? hi)%float = true ->
  exists m e, Prim2SF x = S754_finite false m e
              /\ (el < e \/ (el = e /\ Z.pos ml <= Z.pos m))
              /\ (e < eh \/ (e = eh /\ Z.pos m <= Z.pos mh)).
Proof.
  intros Hlo Hhi (_ & Hx & H1)%leb_key (_ & _ & H2)%leb_key.
  unfold fkey, fnan in *. rewrite Hlo in H1. rewrite Hhi in H2.
  unfold key_le in *.
  destruct (Prim2SF x) as [s|s| |s m e]; cbn in *; try discriminate Hx.
  - exfalso. destruct H1 as [H1|H1]; [lia | discriminate H1].
  - exfalso. destruct s.
    + destruct H1 as [H1|H1]; [lia | discriminate H1].
    + destruct H2 as [H2|H2]; [lia | discriminate H2].
  - destruct s; cbn in *.
    + exfalso. destruct H1 as [H1|H1]; [lia | discriminate H1].
    + exists m, e. split; [reflexivity|]. split.
      * destruct H1 as [H1|H1]; [lia | injection H1; lia].
      * destruct H2 as [H2|H2]; [lia | injection H2; lia].
Qed.

Lemma round_int_between (lo x hi : float) (klo khi : Z) :
  is_int_float lo klo -> is_int_float hi khi ->
  (lo <=? x)%float = true -> (x <=? hi)%float = true ->
  exists n, round_int x = Ok n /\ klo <= n <= khi.
Proof.
  intros (ml & el & Hlo & Nlo) (mh & eh & Hhi & Nhi) Hle1 Hle2.
  destruct (positive_between _ _ _ _ _ _ _ Hlo Hhi Hle1 Hle2)
    as (m & e & Hx & Hord1 & Hord2).
  pose proof (Prim2SF_valid lo) as Vlo. rewrite Hlo in Vlo.
  pose proof (Prim2SF_valid hi) as Vhi. rewrite Hhi in Vhi.
  pose proof (Prim2SF_valid x) as Vx. rewrite Hx in Vx.
  pose proof (valid_lex_le_num _ _ _ _ Vlo Vx Hord1) as L1.
  pose proof (valid_lex_le_num _ _ _ _ Vx Vhi Hord2) as L2.
  rewrite Nlo in L1. rewrite Nhi in L2.
  apply valid_finite_bounds in Vx as (Hb & _).
  unfold round_int. rewrite Hx.
  rewrite SF_round_scaled_num by lia. rewrite Z.mul_1_l.
  eexists. split; [reflexivity|].
  assert (Hp : 0 < 2 ^ 1074) by (apply Z.pow_pos_nonneg; lia).
  split.
  - rewrite <- (rne_div_exact klo (2 ^ 1074) Hp) at 1.
    apply rne_div_mono; assumption.
  - rewrite <- (rne_div_exact khi (2 ^ 1074) Hp).
    apply rne_div_mono; assumption.
Qed.

(** ** Checking a property on a range of machine integers *)

Fixpoint forall_days (n : nat) (f : int -> bool) (i : int) : bool :=
  match n with
  | O => true
  | S n' => f i && forall_days n' f (i + 1)%uint63
  end.

Lemma forall_days_sound (n : nat) (f : int -> bool) :
  forall i : int,
    forall_days n f i = true ->
    Uint63.to_Z i + Z.of_nat n < Uint63.wB ->
    forall j : Z,
      Uint63.to_Z i <= j < Uint63.to_Z i + Z.of_nat n ->
      f (Uint63.of_Z j) = true.
Proof.
  induction n as [|n IH]; intros i H Hb j Hj; [lia|].
  cbn [forall_days] in H. apply andb_true_iff in H as [H0 H].
  pose proof (Uint63.to_Z_bounded i) as Hi.
  destruct (Z.eq_dec j (Uint63.to_Z i)) as [->|Hne].
  - rewrite Uint63.of_to_Z. exact H0.
  - assert (Hs : Uint63.to_Z (i + 1)%uint63 = Uint63.to_Z i + 1).
    { rewrite Uint63.add_spec, Uint63.to_Z_1. apply Z.mod_small. lia. }
    apply (IH _ H); lia.
Qed.

Fixpoint forall_blocks (n : nat) (f : int -> bool) (k : int) : bool :=
  match n with
  | O => f k
  | S n' =>
      forall_blocks n' f k
      && forall_blocks n' f (k + Uint63.of_Z (2 ^ Z.of_nat n'))%uint63
  end.

Lemma forall_blocks_sound (n : nat) (f : int -> bool) :
  forall k : int,
    forall_blocks n f k = true ->
    Uint63.to_Z k + 2 ^ Z.of_nat n < Uint63.wB ->
    forall j : Z,
      Uint63.to_Z k <= j < Uint63.to_Z k + 2 ^ Z.of_nat n ->
      f (Uint63.of_Z j) = true.
Proof.
  induction n as [|n IH]; intros k H Hb j Hj.
  - change (2 ^ Z.of_nat 0) with 1 in Hj.
    assert (j = Uint63.to_Z k) as -> by lia.
    rewrite Uint63.of_to_Z. exact H.
  - cbn [forall_blocks] in H. apply andb_true_iff in H as [H1 H2].
    rewrite Nat2Z.inj_succ, Z.pow_succ_r in Hb, Hj by lia.
    pose proof (Uint63.to_Z_bounded k) as Hk.
    assert (Hp : 0 < 2 ^ Z.of_nat n) by (apply Z.pow_pos_nonneg; lia).
    assert (Hs : Uint63.to_Z (k + Uint63.of_Z (2 ^ Z.of_nat n))%uint63
                 = Uint63.to_Z k + 2 ^ Z.of_nat n).
    { rewrite Uint63.add_spec, Uint63.of_Z_spec.
      rewrite (Z.mod_small (2 ^ Z.of_nat n)) by lia.
      apply Z.mod_small. lia. }
    destruct (Z_lt_ge_dec j (Uint63.to_Z k + 2 ^ Z.of_nat n)).
    + apply (IH _ H1); lia.
    + apply (IH _ H2); lia.
Qed.

(** ** Small integers are binary64 numbers: [of_uint63] is exact *)

Lemma iter_xO_digits (p k : positive) :
  digits2_pos (Pos.iter xO p k) = (digits2_pos p + k)%positive.
Proof.
  induction k as [|k IH] using Pos.peano_ind.
  - cbn. lia.
  - rewrite Pos.iter_succ. cbn [digits2_pos]. rewrite IH. lia.
Qed.

Lemma iter_xO_value (p k : positive) :
  Z.pos (Pos.iter xO p k) = Z.pos p * 2 ^ Z.pos k.
Proof.
  induction k as [|k IH] using Pos.peano_ind.
  - cbn. lia.
  - rewrite Pos.iter_succ, Pos2Z.inj_succ, Z.pow_succ_r by lia.
    rewrite Pos2Z.inj_xO, IH. ring.
Qed.

Lemma binary_round_aux_canonical (s : bool) (m : positive) (e : Z) :
  Z.pos (digits2_pos m) = 53 -> -1074 <= e <= 971 ->
  binary_round_aux prec emax s (Z.pos m) e loc_Exact = S754_finite s m e.
Proof.
  intros Hd He.
  assert (Hshift : forall l : location,
             shr_fexp prec emax (Z.pos m) e l
             = (shr_record_of_loc (Z.pos m) l, e)).
  { intros l. unfold shr_fexp, fexp. cbn [Zdigits2]. rewrite Hd.
    change (SpecFloat.emin prec emax) with (-1074). change prec with 53.
    replace (Z.max (53 + e - 53) (-1074) - e) with 0 by lia.
    reflexivity. }
  unfold binary_round_aux. rewrite Hshift.
  cbn [shr_record_of_loc shr_m loc_of_shr_record round_nearest_even].
  rewrite Hshift. cbn [shr_record_of_loc shr_m].
  change (emax - prec) with 971.
  destruct (Z.leb_spec e 971); [reflexivity | lia].
Qed.

Lemma of_uint63_exact (n : int) :
  0 < Uint63.to_Z n < 2 ^ 53 ->
  exists m e, Prim2SF (PrimFloat.of_uint63 n) = S754_finite false m e
              /\ Z.pos m * 2 ^ (e + 1074) = Uint63.to_Z n * 2 ^ 1074.
Proof.
  intros Hn. rewrite of_uint63_spec.
  destruct (Uint63.to_Z n) as [|p|p]; try lia.
  cbn [binary_normalize]. unfold binary_round.
  pose proof (digits2_pos_bounds p) as [Hlo Hhi].
  set (d := digits2_pos p) in *.
  assert (Hd : Z.pos d <= 53).
  { destruct (Z_le_gt_dec (Z.pos d) 53) as [|Hgt]; [assumption|exfalso].
    assert (2 ^ 53 <= 2 ^ (Z.pos d - 1)) by (apply Z.pow_le_mono_r; lia).
    lia. }
  unfold fexp. change (SpecFloat.emin prec emax) with (-1074).
  change prec with 53.
  replace (Z.max (Z.pos d + 0 - 53) (-1074)) with (Z.pos d - 53) by lia.
  unfold shl_align.
  destruct (Z.pos d - 53 - 0) as [|q|q] eqn:Hq; try lia.
  - exists p, 0. split.
    + apply binary_round_aux_canonical; [fold d|]; lia.
    + reflexivity.
  - exists (Pos.iter xO p q), (Z.pos d - 53). split.
    + apply binary_round_aux_canonical; [|lia].
      rewrite iter_xO_digits. fold d. lia.
    + rewrite iter_xO_value, <- Z.mul_assoc. f_equal.
      rewrite <- Z.pow_add_r by lia. f_equal. lia.
Qed.

Lemma of_uint63_is_int (n : int) (v : Z) :
  Uint63.to_Z n = v -> 0 < v < 2 ^ 53 ->
  is_int_float (PrimFloat.of_uint63 n) v.
Proof. intros <- Hv. apply of_uint63_exact, Hv. Qed.

(** ** The hundredths of a float, computed on machine integers

    [fast_hundredths] computes [hundredths] with the primitive operations
    on [int] and [float] only, for the positive floats between 2^-10 and
    2^52; it is used to check facts on every day count of the calendar. *)

Definition fast_hundredths (f : float) : option int :=
  if (f =? 0)%float then Some 0%uint63
  else
    let '(r, ex) := PrimFloat.frshiftexp f in
    let m := PrimFloat.normfr_mantissa r in
    if (0 <? f)%float && (4503599627370496 <=? m)%uint63
       && (2092 <=? ex)%uint63 && (ex <=? 2153)%uint63
    then
      let sh := (2154 - ex)%uint63 in
      let n := (100 * m)%uint63 in
      let q := (n >> sh)%uint63 in
      let rem := (n - (q << sh))%uint63 in
      let half := (1 << (sh - 1))%uint63 in
      Some (if (rem <? half)%uint63 then q
            else if (half <? rem)%uint63 then (q + 1)%uint63
            else if (q mod 2 =? 0)%uint63 then q else (q + 1)%uint63)
    else None.

Lemma eqb_zero_Prim2SF (f : float) :
  (f =? 0)%float = true -> exists s, Prim2SF f = S754_zero s.
Proof.
  rewrite FloatAxioms.eqb_spec. change (Prim2SF 0) with (S754_zero false).
  destruct (Prim2SF f) as [s|s| |s m e]; cbn; try discriminate; eauto.
  - destruct s; discriminate.
  - destruct s; discriminate.
Qed.

Lemma ltb_zero_Prim2SF (f : float) :
  (0 <? f)%float = true ->
  (exists m e, Prim2SF f = S754_finite false m e)
  \/ Prim2SF f = S754_infinity false.
Proof.
  rewrite FloatAxioms.ltb_spec. change (Prim2SF 0) with (S754_zero false).
  destruct (Prim2SF f) as [s|s| |s m e]; cbn; try discriminate.
  - destruct s; [discriminate|auto].
  - destruct s; [discriminate|eauto].
Qed.

Lemma wB_value : Uint63.wB = 9223372036854775808.
Proof. reflexivity. Qed.

Lemma fast_hundredths_sound (f : float) (h : int) :
  fast_hundredths f = Some h ->
  hundredths f = Some (Uint63.to_Z h)
  /\ 0 <= Uint63.to_Z h < 2 ^ 62.
Proof.
  unfold fast_hundredths, hundredths.
  destruct (f =? 0)%float eqn:E0.
  { intros [= <-]. destruct (eqb_zero_Prim2SF f E0) as [s ->].
    split; [reflexivity | cbn; lia]. }
  pose proof (frshiftexp_spec f) as Hfr.
  destruct (PrimFloat.frshiftexp f) as [r ex].
  pose proof (normfr_mantissa_spec r) as Hm.
  set (m := PrimFloat.normfr_mantissa r) in *.
  destruct ((0 <? f)%float && (4503599627370496 <=? m)%uint63
            && (2092 <=? ex)%uint63 && (ex <=? 2153)%uint63) eqn:Hc;
    [|discriminate].
  apply andb_true_iff in Hc as [Hc Hex2].
  apply andb_true_iff in Hc as [Hc Hex1].
  apply andb_true_iff in Hc as [Hpos Hm52].
  apply Uint63.leb_spec in Hm52, Hex1, Hex2.
  change (Uint63.to_Z 4503599627370496) with 4503599627370496 in Hm52.
  change (Uint63.to_Z 2092) with 2092 in Hex1.
  change (Uint63.to_Z 2153) with 2153 in Hex2.
  pose proof (Prim2SF_valid f) as Hv.
  destruct (ltb_zero_Prim2SF f Hpos) as [(mx & e & Hf)|Hf]; rewrite Hf in *.
  2:{ cbn [SFfrexp] in Hfr. injection Hfr as Hr _. rewrite Hr in Hm.
      change (Uint63.to_Z m = 0) in Hm. lia. }
  cbn [SFfrexp] in Hfr.
  apply valid_finite_bounds in Hv as (He & Hmx & Hn).
  pose proof (digits2_pos_bounds mx) as [Hdlo Hdhi].
  change prec with 53 in *. change FloatOps.shift with 2101 in *.
  destruct (Z.leb_spec 53 (Z.pos (digits2_pos mx))) as [Hd|Hd].
  2:{ exfalso. injection Hfr as _ Hex.
      assert (Z.pos mx < 2 ^ 52).
      { apply Z.lt_le_trans with (1 := Hdhi). apply Z.pow_le_mono_r; lia. }
      lia. }
  injection Hfr as Hr Hex. rewrite Hr in Hm.
  change (Uint63.to_Z m = Z.pos mx) in Hm.
  assert (Hexv : Uint63.to_Z ex = e + 2154) by lia. clear Hex.
  pose proof wB_value as HwB.
  change (2 ^ 53) with 9007199254740992 in Hmx.
  set (s := - e). assert (Hs : 1 <= s <= 62) by (unfold s; lia).
  assert (Hsh : Uint63.to_Z (2154 - ex)%uint63 = s).
  { rewrite Uint63.sub_spec. change (Uint63.to_Z 2154) with 2154.
    rewrite Hexv. replace (2154 - (e + 2154)) with s by (unfold s; lia).
    apply Z.mod_small. lia. }
  assert (Hnv : Uint63.to_Z (100 * m)%uint63 = 100 * Z.pos mx).
  { rewrite Uint63.mul_spec. change (Uint63.to_Z 100) with 100.
    rewrite Hm. apply Z.mod_small. lia. }
  assert (Hp : 0 < 2 ^ s) by (apply Z.pow_pos_nonneg; lia).
  assert (Hp62 : 2 ^ s <= 2 ^ 62) by (apply Z.pow_le_mono_r; lia).
  set (n := 100 * Z.pos mx) in *.
  pose proof (Z.div_mod n (2 ^ s) ltac:(lia)) as Hdm.
  pose proof (Z.mod_pos_bound n (2 ^ s) Hp) as Hrb.
  assert (Hq0 : 0 <= n / 2 ^ s) by (apply Z.div_pos; lia).
  assert (Hqn : 2 ^ s * (n / 2 ^ s) <= n) by lia.
  assert (Hqle : n / 2 ^ s <= n).
  { apply Z.div_le_upper_bound; [lia|]. nia. }
  assert (Hqv : Uint63.to_Z ((100 * m) >> (2154 - ex))%uint63 = n / 2 ^ s).
  { rewrite Uint63.lsr_spec, Hnv, Hsh. reflexivity. }
  assert (Hqsv : Uint63.to_Z
                   (((100 * m) >> (2154 - ex)) << (2154 - ex))%uint63
                 = 2 ^ s * (n / 2 ^ s)).
  { rewrite Uint63.lsl_spec, Hqv, Hsh. rewrite Z.mul_comm.
    apply Z.mod_small. lia. }
  assert (Hremv : Uint63.to_Z
                    (100 * m
                     - (((100 * m) >> (2154 - ex)) << (2154 - ex)))%uint63
                  = n mod 2 ^ s).
  { rewrite Uint63.sub_spec, Hnv, Hqsv. rewrite Z.mod_small; lia. }
  assert (Hhalfv : Uint63.to_Z (1 << (2154 - ex - 1))%uint63 = 2 ^ (s - 1)).
  { rewrite Uint63.lsl_spec, Uint63.sub_spec, Hsh.
    change (Uint63.to_Z 1) with 1. rewrite (Z.mod_small (s - 1)) by lia.
    rewrite Z.mul_1_l. apply Z.mod_small.
    assert (2 ^ (s - 1) <= 2 ^ 61) by (apply Z.pow_le_mono_r; lia).
    assert (0 < 2 ^ (s - 1)) by (apply Z.pow_pos_nonneg; lia). lia. }
  assert (Hdouble : 2 ^ s = 2 * 2 ^ (s - 1)).
  { rewrite <- Z.pow_succ_r by lia. f_equal. lia. }
  assert (Hq1v : Uint63.to_Z ((100 * m) >> (2154 - ex) + 1)%uint63
                 = n / 2 ^ s + 1).
  { rewrite Uint63.add_spec, Hqv. change (Uint63.to_Z 1) with 1.
    apply Z.mod_small. lia. }
  assert (Hq62 : n / 2 ^ s + 1 < 2 ^ 62).
  { change (2 ^ 62) with 4611686018427387904. unfold n in *. lia. }
  intros Hres. injection Hres as <-.
  cbn [SF_round_scaled cond_Zopp].
  destruct (Z.leb_spec 0 e) as [|_]; [lia|].
  fold s. fold n. unfold rne_div.
  destruct (Uint63.ltbP
              (100 * m - (((100 * m) >> (2154 - ex)) << (2154 - ex)))
              (1 << (2154 - ex - 1))) as [Hlt|Hlt];
    rewrite Hremv, Hhalfv in Hlt.
  { destruct (Z.compare_spec (2 * (n mod 2 ^ s)) (2 ^ s)); try lia.
    rewrite Hqv. split; [reflexivity | lia]. }
  destruct (Uint63.ltbP
              (1 << (2154 - ex - 1))
              (100 * m - (((100 * m) >> (2154 - ex)) << (2154 - ex))))
    as [Hgt|Hgt]; rewrite Hremv, Hhalfv in Hgt.
  { destruct (Z.compare_spec (2 * (n mod 2 ^ s)) (2 ^ s)); try lia.
    rewrite Hq1v. split; [reflexivity | lia]. }
  destruct (Z.compare_spec (2 * (n mod 2 ^ s)) (2 ^ s)); try lia.
  destruct (((100 * m) >> (2154 - ex)) mod 2 =? 0)%uint63 eqn:Hev.
  - apply Uint63.eqb_spec in Hev.
    apply (f_equal Uint63.to_Z) in Hev.
    rewrite Uint63.mod_spec, Hqv in Hev.
    change (Uint63.to_Z 2) with 2 in Hev. change (Uint63.to_Z 0) with 0 in Hev.
    rewrite Zmod_even in Hev.
    destruct (Z.even (n / 2 ^ s)); [|discriminate Hev].
    rewrite Hqv. split; [reflexivity | lia].
  - destruct (Z.even (n / 2 ^ s)) eqn:Hev'.
    + exfalso. apply Bool.not_true_iff_false in Hev. apply Hev.
      apply Uint63.eqb_spec. apply Uint63.to_Z_inj.
      rewrite Uint63.mod_spec, Hqv. change (Uint63.to_Z 2) with 2.
      rewrite Zmod_even, Hev'. reflexivity.
    + rewrite Hq1v. split; [reflexivity | lia].
Qed.

(** ** Every adjusted expectancy the engine can produce from a resolver
    value, with the day count it rounds to *)

Definition all_adjusted : list float :=
  flat_map (fun b =>
    flat_map (fun vb =>
      flat_map (fun vs =>
        flat_map (fun va =>
          map (fun ve => (b + vb + vs + va + ve)%float) exercise_values)
          alcohol_values)
        smoking_values)
      bmi_values)
    resolver_values.

Fixpoint dedup_floats (l : list float) : list float :=
  match l with
  | [] => []
  | x :: l' =>
      if existsb (PrimFloat.Leibniz.eqb x) l' then dedup_floats l'
      else x :: dedup_floats l'
  end.

Definition days_of (a : float) : int :=
  match round_int (a * 365.2425)%float with
  | Ok n => Uint63.of_Z n
  | Err _ => 0%uint63
  end.

Definition adjusted_days : list (float * int) :=
  Eval vm_compute in
    map (fun a => (a, days_of a)) (dedup_floats all_adjusted).

(** Each entry is a positive number below 92.5 years that rounds to its
    day count, which is positive and below 34000. *)
Definition adjusted_days_ok : bool :=
  forallb (fun p =>
    match round_int (fst p * 365.2425)%float with
    | Ok n => (n =? Uint63.to_Z (snd p)) && (0 <? n) && (n <? 34000)
    | Err _ => false
    end
    && (fst p <=? 92.5)%float && negb (PrimFloat.get_sign (fst p))
    && match hundredths (fst p) with
       | Some h => (0 <? h) && (h <? 10000)
       | None => false
       end) adjusted_days.

Lemma adjusted_days_checked : adjusted_days_ok = true.
Proof. vm_compute. reflexivity. Qed.

Lemma all_combinations_listed :
  all_combinations (fun b vb vs va ve =>
    existsb (PrimFloat.Leibniz.eqb (b + vb + vs + va + ve)%float)
      (map fst adjusted_days)) = true.
Proof. vm_compute. reflexivity. Qed.

Lemma adjusted_days_entry (p : float * int) :
  In p adjusted_days ->
  (exists n, round_int (fst p * 365.2425)%float = Ok n
             /\ n = Uint63.to_Z (snd p) /\ 0 < n < 34000)
  /\ (fst p <=? 92.5)%float = true.
Proof.
  intros Hin. pose proof adjusted_days_checked as H.
  unfold adjusted_days_ok in H. rewrite forallb_forall in H.
  specialize (H p Hin). apply andb_true_iff in H as [H _].
  apply andb_true_iff in H as [H _]. apply andb_true_iff in H as [H1 H2].
  split; [|exact H2].
  destruct (round_int (fst p * 365.2425)%float) as [n|]; [|discriminate H1].
  apply andb_true_iff in H1 as [H1 H3]. apply andb_true_iff in H1 as [H1 H4].
  exists n. split; [reflexivity|]. lia.
Qed.

Lemma adjusted_days_rounding (p : float * int) :
  In p adjusted_days ->
  PrimFloat.get_sign (fst p) = false
  /\ exists h, hundredths (fst p) = Some h /\ 0 < h < 10000.
Proof.
  intros Hin. pose proof adjusted_days_checked as H.
  unfold adjusted_days_ok in H. rewrite forallb_forall in H.
  specialize (H p Hin). apply andb_true_iff in H as [H Hh].
  apply andb_true_iff in H as [_ Hs]. apply negb_true_iff in Hs.
  split; [exact Hs|].
  destruct (hundredths (fst p)) as [h|]; [|discriminate Hh].
  apply andb_true_iff in Hh as [H1 H2]. exists h. split; [reflexivity|]. lia.
Qed.

Lemma adjusted_sum_listed (base bmi : float) (s a e : str) :
  In base resolver_values ->
  exists n : int, In (adjusted_sum base bmi s a e, n) adjusted_days.
Proof.
  intros Hb.
  pose proof (all_combinations_elim _ all_combinations_listed
                base (bmi_modifier bmi) (smoking_modifier s)
                (alcohol_modifier a) (exercise_modifier e) Hb
                (bmi_modifier_values bmi) (smoking_modifier_values s)
                (alcohol_modifier_values a) (exercise_modifier_values e))
    as H.
  cbv beta in H. apply existsb_exists in H as (x & Hin & Hx).
  apply FloatAxioms.Leibniz.eqb_spec in Hx.
  apply in_map_iff in Hin as ([y n] & Hy & Hin). cbn [fst] in Hy.
  exists n. unfold adjusted_sum. rewrite Hx, <- Hy. exact Hin.
Qed.

(** The largest entry whose day count is at most [bound]; 0.0 if none. *)
Definition block_max_of (l : list (float * int)) (bound : int) : float :=
  fold_right (fun p acc =>
    if (snd p <=? bound)%uint63 then py_max acc (fst p) else acc)
    0.0%float l.

Definition block_max (bound : int) : float := block_max_of adjusted_days bound.

Lemma fnan_of_leb_l (x y : float) : (x <=? y)%float = true -> fnan x = false.
Proof. intros H. apply leb_key in H. tauto. Qed.

Lemma fnan_of_ltb_r (x y : float) : (x <? y)%float = true -> fnan y = false.
Proof. intros H. apply ltb_key in H. tauto. Qed.

Lemma py_max_not_nan (a b : float) :
  fnan a = false -> fnan b = false -> fnan (py_max a b) = false.
Proof. intros Ha Hb. unfold py_max. destruct (a <? b)%float; assumption. Qed.

Lemma block_max_of_upper (l : list (float * int)) (bound : int) :
  (forall p, In p l -> fnan (fst p) = false) ->
  fnan (block_max_of l bound) = false
  /\ forall p, In p l -> (snd p <=? bound)%uint63 = true ->
               (fst p <=? block_max_of l bound)%float = true.
Proof.
  induction l as [|q l IH]; intros Hn.
  - split; [reflexivity | intros p []].
  - destruct IH as [IHn IHu]; [intros p Hp; apply Hn; right; exact Hp|].
    assert (Hq : fnan (fst q) = false) by (apply Hn; left; reflexivity).
    cbn [block_max_of fold_right]. fold (block_max_of l bound).
    destruct (snd q <=? bound)%uint63 eqn:Eq.
    + destruct (py_max_lower_bounds _ _ IHn Hq) as [Hacc Hfst].
      split; [apply py_max_not_nan; assumption|].
      intros p [<-|Hp] Hle; [exact Hfst|].
      apply leb_trans with (2 := Hacc). apply IHu; assumption.
    + split; [exact IHn|].
      intros p [<-|Hp] Hle; [congruence|]. apply IHu; assumption.
Qed.

Lemma block_max_upper (bound : int) (p : float * int) :
  In p adjusted_days -> (snd p <=? bound)%uint63 = true ->
  (fst p <=? block_max bound)%float = true.
Proof.
  apply block_max_of_upper. intros q Hq.
  apply (fnan_of_leb_l _ 92.5), adjusted_days_entry, Hq.
Qed.

(** ** The age buffer on every day count of the calendar

    A date of birth and a later "today" are at most 3652058 days apart.
    For each such day count the facts below are checked by evaluating the
    float operations themselves, 64 days at a time. *)

Definition age_of_days (i : int) : float :=
  py_max 0.0%float (PrimFloat.of_uint63 i / 365.2425)%float.

Definition day_ok (lo hi bmax : float) (i : int) : bool :=
  let a := age_of_days i in
  let x := (a + minimal_future)%float in
  let p := (x * 365.2425)%float in
  (lo <=? p)%float && (p <=? hi)%float && (bmax <? x)%float
  && (0 <? x)%float
  && negb (PrimFloat.get_sign a) && negb (PrimFloat.get_sign x)
  && match fast_hundredths a, fast_hundredths x with
     | Some ha, Some hx =>
         (ha + 25 <=? hx)%uint63 && (hx <? 9007199254740992)%uint63
         && (0 <=? PrimFloat.of_uint63 ha / 100)%float
     | _, _ => false
     end.

Definition block_ok (k : int) : bool :=
  if (57065 <=? k)%uint63 then true
  else
    let lo := PrimFloat.of_uint63 (64 * (k + 1))%uint63 in
    let hi := PrimFloat.of_uint63 (64 * (k + 3))%uint63 in
    let bmax := if (k <? 527)%uint63 then block_max (64 * k + 63)%uint63
                else 92.5%float in
    forall_days 64 (day_ok lo hi bmax) (64 * k)%uint63.

Lemma all_blocks_checked : forall_blocks 16 block_ok 0%uint63 = true.
Proof. vm_compute. reflexivity. Qed.

Lemma float_of_int_nonneg (z : Z) :
  0 <= z -> float_of_int z = PrimFloat.of_uint63 (Uint63.of_Z z).
Proof.
  intros Hz. unfold float_of_int.
  destruct (Z.ltb_spec z 0); [lia | reflexivity].
Qed.

Lemma round2_eq (x : float) (h : Z) :
  hundredths x = Some h -> 0 <= h < 2 ^ 53 ->
  PrimFloat.get_sign x = false ->
  round2 x = (float_of_int h / 100)%float.
Proof.
  intros Hh Hb Hs. unfold round2. rewrite Hh, Hs.
  rewrite Z.abs_eq by lia.
  destruct (Z.ltb_spec h (2 ^ 53)); [reflexivity | lia].
Qed.

Record day_facts (d : Z) : Prop := {
  df_days :
    exists n,
      round_int ((age_of_days (Uint63.of_Z d) + minimal_future)
                 * 365.2425)%float = Ok n
      /\ d < n <= d + 192;
  df_above :
    forall p, In p adjusted_days -> Uint63.to_Z (snd p) <= d ->
      (fst p <? age_of_days (Uint63.of_Z d) + minimal_future)%float = true;
  df_positive :
    (0 <? age_of_days (Uint63.of_Z d) + minimal_future)%float = true;
  df_signs :
    PrimFloat.get_sign (age_of_days (Uint63.of_Z d)) = false
    /\ PrimFloat.get_sign
         (age_of_days (Uint63.of_Z d) + minimal_future)%float = false;
  df_hundredths :
    exists ha hx,
      hundredths (age_of_days (Uint63.of_Z d)) = Some ha
      /\ hundredths (age_of_days (Uint63.of_Z d) + minimal_future)%float
         = Some hx
      /\ 0 <= ha /\ ha + 25 <= hx /\ hx < 2 ^ 53;
  df_age_rounded :
    (0 <=? round2 (age_of_days (Uint63.of_Z d)))%float = true
}.

Lemma day_ok_facts (lo hi bmax : float) (K d : Z) :
  is_int_float lo (64 * (K + 1)) -> is_int_float hi (64 * (K + 3)) ->
  (forall p, In p adjusted_days -> Uint63.to_Z (snd p) <= 64 * K + 63 ->
             (fst p <=? bmax)%float = true) ->
  64 * K <= d <= 64 * K + 63 ->
  day_ok lo hi bmax (Uint63.of_Z d) = true ->
  day_facts d.
Proof.
  intros Hlo Hhi Hmax Hd H. unfold day_ok in H. cbv zeta in H.
  apply andb_true_iff in H as [H Hh].
  apply andb_true_iff in H as [H Hsx]. apply andb_true_iff in H as [H Hsa].
  apply andb_true_iff in H as [H Hpos].
  apply andb_true_iff in H as [H Hb]. apply andb_true_iff in H as [H1 H2].
  apply negb_true_iff in Hsa, Hsx.
  destruct (fast_hundredths (age_of_days (Uint63.of_Z d)))
    as [ha|] eqn:Ea; [|discriminate Hh].
  destruct (fast_hundredths
              (age_of_days (Uint63.of_Z d) + minimal_future)%float)
    as [hx|] eqn:Ex; [|discriminate Hh].
  apply andb_true_iff in Hh as [Hh Hq]. apply andb_true_iff in Hh as [Hh Hx53].
  apply fast_hundredths_sound in Ea as [Ea Ba].
  apply fast_hundredths_sound in Ex as [Ex Bx].
  apply Uint63.leb_spec in Hh. rewrite Uint63.add_spec in Hh.
  change (Uint63.to_Z 25) with 25 in Hh.
  apply Uint63.ltb_spec in Hx53.
  change (Uint63.to_Z 9007199254740992) with 9007199254740992 in Hx53.
  pose proof wB_value as HwB.
  change (2 ^ 62) with 4611686018427387904 in *.
  rewrite Z.mod_small in Hh by lia.
  split.
  - destruct (round_int_between _ _ _ _ _ Hlo Hhi H1 H2) as (n & Hn & Hr).
    exists n. split; [exact Hn | lia].
  - intros p Hp Hle. apply leb_ltb_trans with (2 := Hb).
    apply Hmax; [exact Hp | lia].
  - exact Hpos.
  - split; assumption.
  - exists (Uint63.to_Z ha), (Uint63.to_Z hx).
    change (2 ^ 53) with 9007199254740992.
    repeat split; (assumption || lia).
  - rewrite (round2_eq _ _ Ea) by
      (try assumption; change (2 ^ 53) with 9007199254740992; lia).
    rewrite float_of_int_nonneg by lia. rewrite Uint63.of_to_Z. exact Hq.
Qed.

Lemma block_ok_facts (k : int) (d : Z) :
  block_ok k = true -> Uint63.to_Z k < 57065 ->
  64 * Uint63.to_Z k <= d <= 64 * Uint63.to_Z k + 63 ->
  day_facts d.
Proof.
  intros H Hk Hd. unfold block_ok in H.
  pose proof (Uint63.to_Z_bounded k) as Hkb.
  pose proof wB_value as HwB.
  destruct (57065 <=? k)%uint63 eqn:Eg.
  { apply Uint63.leb_spec in Eg.
    change (Uint63.to_Z 57065) with 57065 in Eg. lia. }
  cbv zeta in H.
  assert (Hmul : forall c : Z,
             0 <= c <= 3 ->
             Uint63.to_Z (64 * (k + Uint63.of_Z c))%uint63
             = 64 * (Uint63.to_Z k + c)).
  { intros c Hc. rewrite Uint63.mul_spec, Uint63.add_spec, Uint63.of_Z_spec.
    change (Uint63.to_Z 64) with 64.
    rewrite (Z.mod_small c) by lia.
    rewrite (Z.mod_small (Uint63.to_Z k + c)) by lia.
    apply Z.mod_small. lia. }
  assert (H64k : Uint63.to_Z (64 * k)%uint63 = 64 * Uint63.to_Z k).
  { rewrite Uint63.mul_spec. change (Uint63.to_Z 64) with 64.
    apply Z.mod_small. lia. }
  apply (day_ok_facts
           (PrimFloat.of_uint63 (64 * (k + 1))%uint63)
           (PrimFloat.of_uint63 (64 * (k + 3))%uint63)
           (if (k <? 527)%uint63 then block_max (64 * k + 63)%uint63
            else 92.5%float)
           (Uint63.to_Z k) d).
  - apply of_uint63_is_int; [exact (Hmul 1 ltac:(lia))|].
    change (2 ^ 53) with 9007199254740992. lia.
  - apply of_uint63_is_int; [exact (Hmul 3 ltac:(lia))|].
    change (2 ^ 53) with 9007199254740992. lia.
  - intros p Hp Hle. destruct (k <? 527)%uint63.
    + apply block_max_upper; [exact Hp|]. apply Uint63.leb_spec.
      rewrite Uint63.add_spec, H64k. change (Uint63.to_Z 63) with 63.
      rewrite Z.mod_small by lia. exact Hle.
    + apply adjusted_days_entry, Hp.
  - exact Hd.
  - apply (forall_days_sound 64 _ _ H); rewrite H64k;
      change (Z.of_nat 64) with 64; lia.
Qed.

Lemma day_facts_hold (d : Z) : 0 <= d <= 3652058 -> day_facts d.
Proof.
  intros Hd.
  pose proof (Z.div_mod d 64 ltac:(lia)) as Hdm.
  pose proof (Z.mod_pos_bound d 64 ltac:(lia)) as Hr.
  assert (Hq : 0 <= d / 64 < 57065).
  { split; [apply Z.div_pos; lia|]. apply Z.div_lt_upper_bound; lia. }
  pose proof wB_value as HwB.
  assert (Hk : Uint63.to_Z (Uint63.of_Z (d / 64)) = d / 64).
  { rewrite Uint63.of_Z_spec. apply Z.mod_small. lia. }
  apply (block_ok_facts (Uint63.of_Z (d / 64))); rewrite ?Hk; try lia.
  apply (forall_blocks_sound 16 block_ok 0%uint63 all_blocks_checked);
    change (Uint63.to_Z 0) with 0; change (2 ^ Z.of_nat 16) with 65536; lia.
Qed.

(** ** [hundredths] is monotone on positive floats *)

Lemma hundredths_mono (x y : float) (hx hy : Z) :
  (0 <? x)%float = true -> (x <=? y)%float = true ->
  hundredths x = Some hx -> hundredths y = Some hy -> hx <= hy.
Proof.
  intros Hpos Hle Hx Hy. unfold hundredths in Hx, Hy.
  pose proof (Prim2SF_valid x) as Vx. pose proof (Prim2SF_valid y) as Vy.
  apply leb_key in Hle as (_ & Hny & Hle). unfold fkey, fnan in *.
  destruct (ltb_zero_Prim2SF x Hpos) as [(mx & ex & Ex)|Ex];
    rewrite Ex in *; [|discriminate Hx].
  destruct (Prim2SF y) as [s|s| |s my ey]; try discriminate.
  - exfalso. destruct Hle as [Hle|Hle]; [cbn in Hle; lia | discriminate Hle].
  - destruct s; cbn [sf_key] in Hle.
    + exfalso. destruct Hle as [Hle|Hle];
        [cbn in Hle; lia | discriminate Hle].
    + assert (Hord : ex < ey \/ (ex = ey /\ Z.pos mx <= Z.pos my)).
      { destruct Hle as [Hle|Hle]; [cbn in Hle; lia | injection Hle; lia]. }
      pose proof (valid_lex_le_num _ _ _ _ Vx Vy Hord) as Hnum.
      apply valid_finite_bounds in Vx as (Bx & _).
      apply valid_finite_bounds in Vy as (By & _).
      rewrite SF_round_scaled_num in Hx, Hy by lia.
      injection Hx as <-. injection Hy as <-.
      apply rne_div_mono; [apply Z.pow_pos_nonneg; lia | lia].
Qed.

(** ** The lifespan composer on every valid input *)

Lemma days_between_range (today d0 : date) :
  valid_date today -> valid_date d0 -> date_le d0 today ->
  0 <= days_between d0 today <= 3652058.
Proof.
  unfold valid_date, date_le, days_between, _MAXORDINAL. lia.
Qed.

Lemma current_age_days (today d0 : date) :
  date_le d0 today ->
  current_age today d0 = age_of_days (Uint63.of_Z (days_between d0 today)).
Proof.
  intros Hle. unfold current_age, years_between, age_of_days.
  rewrite float_of_int_nonneg; [reflexivity|].
  unfold date_le, days_between in *. lia.
Qed.

Lemma get_base_life_expectancy_total (country sex : str) :
  In sex sex_literals ->
  exists base, get_base_life_expectancy country sex = Ok base.
Proof.
  intros Hsex.
  assert (Hrow : forall m f : float, exists b, subscript (by_sex m f) sex = Ok b).
  { intros m f. destruct (by_sex_lookup m f) as [Hm Hf].
    destruct Hsex as [<-|[<-|[]]]; eexists; apply subscript_Ok; eassumption. }
  destruct (LIFE_TABLE !! normalize country) as [row|] eqn:E.
  - rewrite (get_base_life_expectancy_known _ _ _ E).
    apply list_to_map_lookup_In in E. cbn in E.
    repeat (destruct E as [E|E]; [injection E as _ <-; apply Hrow|]).
    destruct E.
  - rewrite (get_base_life_expectancy_unknown _ _ E). apply Hrow.
Qed.

Lemma date_add_days_Ok (d : date) (n : Z) :
  0 <= n <= 999999999 -> 0 < toordinal d + n <= _MAXORDINAL ->
  date_add_days d n = Ok (mkdate (toordinal d + n)).
Proof.
  intros Hn Ho. unfold date_add_days.
  destruct (Z.ltb_spec 999999999 (Z.abs n)); [lia|].
  destruct (Z.ltb_spec 0 (toordinal d + n)); [|lia].
  destruct (Z.leb_spec (toordinal d + n) _MAXORDINAL); [reflexivity | lia].
Qed.

Lemma date_add_days_inv (d e : date) (n : Z) :
  date_add_days d n = Ok e -> toordinal e = toordinal d + n.
Proof.
  unfold date_add_days. intros H.
  destruct (999999999 <? Z.abs n); [discriminate H|].
  destruct ((0 <? toordinal d + n) && (toordinal d + n <=? _MAXORDINAL));
    [|discriminate H].
  injection H as <-. reflexivity.
Qed.

Lemma date_add_days_Err (d : date) (n : Z) (e : exn) :
  date_add_days d n = Err e -> e = OverflowError.
Proof.
  unfold date_add_days. intros H.
  destruct (999999999 <? Z.abs n); [congruence|].
  destruct ((0 <? toordinal d + n) && (toordinal d + n <=? _MAXORDINAL));
    congruence.
Qed.

Record lifespan_facts (today : date) (req : PredictionRequest)
    (base : float) : Prop := {
  lf_days :
    exists n,
      round_int (lifespan_years today req base * 365.2425)%float = Ok n
      /\ days_between (dob req) today < n
      /\ n <= Z.max (days_between (dob req) today + 192) 34000;
  lf_buffer :
    (current_age today (dob req) + minimal_future
     <=? lifespan_years today req base)%float = true;
  lf_hundredths :
    exists ha hl,
      hundredths (current_age today (dob req)) = Some ha
      /\ hundredths (lifespan_years today req base) = Some hl
      /\ 0 <= ha /\ ha + 25 <= hl /\ hl < 2 ^ 53;
  lf_signs :
    PrimFloat.get_sign (current_age today (dob req)) = false
    /\ PrimFloat.get_sign (lifespan_years today req base) = false;
  lf_age_rounded :
    (0 <=? round2 (current_age today (dob req)))%float = true
}.

Lemma lifespan_facts_hold (today : date) (req : PredictionRequest)
    (base : float) :
  valid_date today -> valid_date (dob req) -> date_le (dob req) today ->
  In base resolver_values ->
  lifespan_facts today req base.
Proof.
  intros Vt Vd Hle Hbase.
  pose proof (days_between_range _ _ Vt Vd Hle) as Hd.
  destruct (day_facts_hold _ Hd)
    as [(n & Hn & Hnb) Habove Hpos [Hsa Hsx]
        (ha & hx & Hha & Hhx & Ha0 & Hax & Hx53) Hround].
  destruct (adjusted_sum_listed base (bmi req) (smoking_status req)
              (alcohol_use req) (exercise_level req) Hbase) as [na Hin].
  destruct (adjusted_days_entry _ Hin) as [(n' & Hn' & Hn'v & Hn'b) Hle92].
  destruct (adjusted_days_rounding _ Hin) as [Hsadj (h & Hh & Hhb)].
  cbn [fst snd] in *.
  pose proof (current_age_days _ _ Hle) as Hage.
  set (adj := adjusted_sum base (bmi req) (smoking_status req)
                (alcohol_use req) (exercise_level req)) in *.
  set (a := age_of_days (Uint63.of_Z (days_between (dob req) today))) in *.
  assert (HL : lifespan_years today req base
               = if (adj <? a + minimal_future)%float
                 then (a + minimal_future)%float else adj).
  { unfold lifespan_years, py_max. rewrite Hage. reflexivity. }
  change (2 ^ 53) with 9007199254740992 in *.
  destruct (adj <? a + minimal_future)%float eqn:Hlt.
  - split; rewrite ?HL, ?Hage.
    + exists n. split; [exact Hn | lia].
    + apply leb_refl. apply (fnan_of_ltb_r _ _ Hpos).
    + exists ha, hx. auto 10.
    + split; assumption.
    + exact Hround.
  - assert (Hxadj : (a + minimal_future <=? adj)%float = true).
    { apply leb_key.
      assert (Hna : fnan adj = false) by apply (fnan_of_leb_l _ _ Hle92).
      assert (Hnx : fnan (a + minimal_future)%float = false)
        by apply (fnan_of_ltb_r _ _ Hpos).
      split; [exact Hnx|]. split; [exact Hna|].
      apply ltb_false_key; assumption. }
    split; rewrite ?HL, ?Hage.
    + exists n'. split; [exact Hn'|].
      destruct (Z_le_gt_dec n' (days_between (dob req) today)) as [Hc|Hc];
        [|lia].
      exfalso. rewrite Hn'v in Hc.
      pose proof (Habove _ Hin Hc) as Hcontra. cbn [fst] in Hcontra.
      rewrite Hcontra in Hlt. discriminate Hlt.
    + exact Hxadj.
    + exists ha, h. split; [exact Hha|]. split; [exact Hh|].
      pose proof (hundredths_mono _ _ _ _ Hpos Hxadj Hhx Hh). lia.
    + split; assumption.
    + exact Hround.
Qed.

Lemma date_gtb_false (d0 today : date) :
  date_gtb d0 today = false <-> date_le d0 today.
Proof. unfold date_gtb, date_le. rewrite Z.ltb_ge. reflexivity. Qed.

Lemma date_gtb_true (d0 today : date) :
  date_gtb d0 today = true <-> date_lt today d0.
Proof. unfold date_gtb, date_lt. apply Z.ltb_lt. Qed.

(** On a date of birth not after today, [predict] gets as far as the date
    addition, which alone can fail. *)
Lemma predict_from_facts (today : date) (req : PredictionRequest) :
  valid_date today -> valid_request req -> date_le (dob req) today ->
  exists base days,
    get_base_life_expectancy (country req) (sex req) = Ok base
    /\ lifespan_facts today req base
    /\ round_int (lifespan_years today req base * 365.2425)%float = Ok days
    /\ days_between (dob req) today < days
    /\ days <= Z.max (days_between (dob req) today + 192) 34000
    /\ predict today req
       = (estimated_date ← date_add_days (dob req) days;
          Ok (response today req base estimated_date)).
Proof.
  intros Vt [Vd Vsex _ _ _] Hle.
  destruct (get_base_life_expectancy_total (country req) (sex req) Vsex)
    as [base Hbase].
  pose proof (get_base_life_expectancy_values _ _ _ Hbase) as Hin.
  pose proof (lifespan_facts_hold today req base Vt Vd Hle Hin) as Hf.
  destruct (lf_days _ _ _ Hf) as (days & Hdays & Hlo & Hhi).
  exists base, days. repeat (split; [assumption|]).
  rewrite predict_eq. apply date_gtb_false in Hle. rewrite Hle, Hbase.
  cbn [mbind result_bind]. rewrite Hdays. reflexivity.
Qed.

Lemma predict_returns (today : date) (req : PredictionRequest) :
  valid_date today -> valid_request req -> date_le (dob req) today ->
  toordinal today + 34000 <= _MAXORDINAL ->
  exists r, predict today req = Ok r.
Proof.
  intros Vt Vr Hle Hclock.
  destruct (predict_from_facts today req Vt Vr Hle)
    as (base & days & _ & _ & _ & Hlo & Hhi & ->).
  pose proof (days_between_range _ _ Vt (valid_dob _ Vr) Hle) as Hd.
  unfold days_between, valid_date, date_le in *.
  pose proof (valid_dob _ Vr) as Vd. unfold valid_date in Vd.
  rewrite date_add_days_Ok by lia. eexists. reflexivity.
Qed.

(** ** C3: age and estimated date of a response *)

(** C3. For every valid request whose date of birth is not after today,
    every response [predict] returns has a current age that is at least 0,
    an estimated death date on or after the date of birth, and an
    estimated death date strictly after today. A response is returned
    whenever today is at least 34000 days before the last date of the
    calendar. *)
Theorem C3_age_and_date_of_response (today : date) (req : PredictionRequest) :
  valid_date today -> valid_request req -> date_le (dob req) today ->
  (forall r : PredictionResponse,
      predict today req = Ok r ->
      (0 <=? current_age_years r)%float = true
      /\ date_le (dob req) (estimated_death_date r)
      /\ date_lt today (estimated_death_date r))
  /\ (toordinal today + 34000 <= _MAXORDINAL ->
      exists r, predict today req = Ok r).
Proof.
  intros Vt Vr Hle. split; [|apply predict_returns; assumption].
  intros r Hr.
  destruct (predict_from_facts today req Vt Vr Hle)
    as (base & days & _ & Hf & _ & Hlo & _ & Heq).
  rewrite Heq in Hr. apply bind_Ok_inv in Hr as (dte & Hdte & Hr).
  injection Hr as <-. cbn [current_age_years estimated_death_date response].
  apply date_add_days_inv in Hdte.
  pose proof (days_between_range _ _ Vt (valid_dob _ Vr) Hle) as Hd.
  unfold date_le, date_lt, days_between in *.
  split; [exact (lf_age_rounded _ _ _ Hf)|]. lia.
Qed.

Definition sample_today : date := date_of_ymd 2024 6 1.

Lemma sample_today_valid : valid_date sample_today.
Proof. unfold valid_date. vm_compute. split; discriminate. Qed.

Lemma sample_request_valid : valid_request sample_request.
Proof.
  split; cbn; auto 10. unfold valid_date. vm_compute. split; discriminate.
Qed.

Lemma sample_request_born : date_le (dob sample_request) sample_today.
Proof. unfold date_le. vm_compute. discriminate. Qed.

Lemma C3_witness :
  exists r, predict sample_today sample_request = Ok r
            /\ (0 <=? current_age_years r)%float = true
            /\ date_le (dob sample_request) (estimated_death_date r)
            /\ date_lt sample_today (estimated_death_date r).
Proof.
  destruct (C3_age_and_date_of_response sample_today sample_request
              sample_today_valid sample_request_valid sample_request_born)
    as [Hprops Hret].
  destruct Hret as [r Hr]; [vm_compute; discriminate|].
  exists r. split; [exact Hr | exact (Hprops r Hr)].
Defined.

(** ** C6: the rejection of a date of birth in the future *)

Definition future_dob_error : exn :=
  HTTPException 400 "Date of birth cannot be in the future".

(** The day count [predict] adds to the date of birth:
    [int(round(lifespan_years * 365.2425))]. *)
Definition estimated_days (today : date) (req : PredictionRequest)
  : result Z :=
  base ← get_base_life_expectancy (country req) (sex req);
  round_int (lifespan_years today req base * 365.2425)%float.

(** C6 (amended). On a valid request [predict] raises the HTTP 400 error
    "Date of birth cannot be in the future" if and only if the date of
    birth is strictly after today, and then returns no response. When the
    date of birth is not after today, the day count [estimated_days] is
    computed without error and is greater than the days lived, and
    [predict] returns a full response, dated date of birth +
    [estimated_days], if and only if that date is not after the last date
    of the calendar (9999-12-31); otherwise the date addition raises
    OverflowError. In particular a response is returned whenever today is
    at least 34000 days before the last date of the calendar. *)
Theorem C6_future_dob_rejected (today : date) (req : PredictionRequest) :
  valid_date today -> valid_request req ->
  (predict today req = Err future_dob_error <-> date_lt today (dob req))
  /\ (date_lt today (dob req) -> forall r, predict today req <> Ok r)
  /\ (date_le (dob req) today ->
      exists days,
        estimated_days today req = Ok days
        /\ days_between (dob req) today < days
        /\ ((exists r, predict today req = Ok r)
            <-> toordinal (dob req) + days <= _MAXORDINAL)
        /\ (forall r, predict today req = Ok r ->
            toordinal (estimated_death_date r) = toordinal (dob req) + days)
        /\ (_MAXORDINAL < toordinal (dob req) + days ->
            predict today req = Err OverflowError))
  /\ (date_le (dob req) today -> toordinal today + 34000 <= _MAXORDINAL ->
      exists r, predict today req = Ok r).
Proof.
  intros Vt Vr.
  assert (Hfuture : date_lt today (dob req) ->
                    predict today req = Err future_dob_error).
  { intros H. apply date_gtb_true in H. rewrite predict_eq, H. reflexivity. }
  assert (Hpast : date_le (dob req) today ->
      exists days,
        estimated_days today req = Ok days
        /\ days_between (dob req) today < days
        /\ ((exists r, predict today req = Ok r)
            <-> toordinal (dob req) + days <= _MAXORDINAL)
        /\ (forall r, predict today req = Ok r ->
            toordinal (estimated_death_date r) = toordinal (dob req) + days)
        /\ (_MAXORDINAL < toordinal (dob req) + days ->
            predict today req = Err OverflowError)).
  { intros Hle.
    destruct (predict_from_facts today req Vt Vr Hle)
      as (base & days & Hbase & _ & Hdays & Hlo & Hhi & ->).
    pose proof (days_between_range _ _ Vt (valid_dob _ Vr) Hle) as Hd.
    pose proof (valid_dob _ Vr) as Vd.
    unfold days_between, valid_date, date_le in *.
    exists days. split.
    { unfold estimated_days. rewrite Hbase. exact Hdays. }
    split; [exact Hlo|].
    assert (Hinv : forall r,
               (estimated_date ← date_add_days (dob req) days;
                Ok (response today req base estimated_date)) = Ok r ->
               toordinal (estimated_death_date r) = toordinal (dob req) + days).
    { intros r Hr. apply bind_Ok_inv in Hr as (dte & Hdte & Hr).
      injection Hr as <-. cbn [estimated_death_date response].
      apply date_add_days_inv, Hdte. }
    assert (Hover : _MAXORDINAL < toordinal (dob req) + days ->
               (estimated_date ← date_add_days (dob req) days;
                Ok (response today req base estimated_date))
               = Err OverflowError).
    { intros Hmax.
      destruct (date_add_days (dob req) days) as [dte|e] eqn:E.
      - exfalso. unfold date_add_days in E.
        destruct (999999999 <? Z.abs days); [discriminate E|].
        destruct (Z.leb_spec (toordinal (dob req) + days) _MAXORDINAL)
          as [H1|H1]; [lia|].
        rewrite andb_false_r in E. discriminate E.
      - apply date_add_days_Err in E. subst e. reflexivity. }
    split; [|split; [exact Hinv | exact Hover]].
    split.
    - intros [r Hr].
      destruct (Z_le_gt_dec (toordinal (dob req) + days) _MAXORDINAL)
        as [Hok|Hbad]; [exact Hok|].
      rewrite Hover in Hr by lia. discriminate Hr.
    - intros Hok. rewrite date_add_days_Ok by lia. eexists. reflexivity. }
  split; [split|split; [|split]].
  - intros Herr. unfold date_lt.
    destruct (Z_lt_ge_dec (toordinal today) (toordinal (dob req)))
      as [Hlt|Hge]; [exact Hlt|exfalso].
    destruct Hpast as (days & _ & _ & [_ Hok] & _ & Hover);
      [unfold date_le; lia|].
    destruct (Z_le_gt_dec (toordinal (dob req) + days) _MAXORDINAL)
      as [H1|H1].
    + destruct (Hok H1) as [r Hr]. rewrite Herr in Hr. discriminate Hr.
    + rewrite Hover in Herr by lia. discriminate Herr.
  - exact Hfuture.
  - intros H r Hr. rewrite (Hfuture H) in Hr. discriminate Hr.
  - exact Hpast.
  - intros Hle Hclock. apply predict_returns; assumption.
Qed.

Definition unborn_request : PredictionRequest :=
  {| dob := date_of_ymd 2030 1 1; sex := "female"; country := "japan";
     bmi := 21%float; smoking_status := "none"; alcohol_use := "moderate";
     exercise_level := "high" |}.

Definition last_day : date := date_of_ymd 9999 12 31.

Definition last_day_request : PredictionRequest :=
  {| dob := date_of_ymd 9950 1 1; sex := "male"; country := "usa";
     bmi := 22%float; smoking_status := "none"; alcohol_use := "none";
     exercise_level := "moderate" |}.

(** On the last day of the calendar, a valid request with an earlier date
    of birth gets no response: the estimated date would be after
    9999-12-31 and the date addition raises OverflowError. *)
Lemma C6_counterexample_last_day :
  valid_date last_day /\ valid_request last_day_request
  /\ date_le (dob last_day_request) last_day
  /\ predict last_day last_day_request = Err OverflowError.
Proof.
  split; [unfold valid_date; vm_compute; split; discriminate|].
  split; [split; cbn; auto 10;
          unfold valid_date; vm_compute; split; discriminate|].
  split; [unfold date_le; vm_compute; discriminate|].
  vm_compute. reflexivity.
Qed.

(** The theorem on three requests: a date of birth in the future; the
    sample request, answered with the date of birth + 28489 days; and the
    request of the last day, whose date would be 9950-01-01 + 28489 days. *)
Lemma C6_witness :
  predict sample_today unborn_request = Err future_dob_error
  /\ (exists r,
         predict sample_today sample_request = Ok r
         /\ toordinal (estimated_death_date r)
            = toordinal (dob sample_request) + 28489)
  /\ predict last_day last_day_request = Err OverflowError.
Proof.
  split; [|split].
  - refine (proj2 (proj1 (C6_future_dob_rejected sample_today unborn_request
                            sample_today_valid _)) _).
    + split; cbn; auto 10. unfold valid_date. vm_compute. split; discriminate.
    + unfold date_lt. vm_compute. reflexivity.
  - destruct (proj1 (proj2 (proj2 (C6_future_dob_rejected sample_today
                                     sample_request sample_today_valid
                                     sample_request_valid)))
                sample_request_born)
      as (days & Hd & _ & [_ Hok] & Hinv & _).
    vm_compute in Hd. injection Hd as <-.
    destruct Hok as [r Hr]; [vm_compute; discriminate|].
    exists r. split; [exact Hr | exact (Hinv r Hr)].
  - assert (Vt : valid_date last_day)
      by (unfold valid_date; vm_compute; split; discriminate).
    assert (Vr : valid_request last_day_request)
      by (split; cbn; auto 10;
          unfold valid_date; vm_compute; split; discriminate).
    assert (Hle : date_le (dob last_day_request) last_day)
      by (unfold date_le; vm_compute; discriminate).
    destruct (proj1 (proj2 (proj2 (C6_future_dob_rejected last_day
                                     last_day_request Vt Vr))) Hle)
      as (days & Hd & _ & _ & _ & Hover).
    vm_compute in Hd. injection Hd as <-.
    apply Hover. vm_compute. reflexivity.
Defined.

(** ** C2: the quarter-year buffer *)

(** C2 (amended). For every valid request whose date of birth is not after
    today and every response [predict] returns: before rounding, the
    lifespan is at least the current age plus 0.25 in binary64 arithmetic;
    and the two returned fields are the floats nearest to [hl/100] and
    [ha/100] for integers with [ha + 25 <= hl], that is, the inequality
    holds between the two-decimal values the fields are rounded to. *)
Theorem C2_buffer_invariant (today : date) (req : PredictionRequest)
    (r : PredictionResponse) :
  valid_date today -> valid_request req -> date_le (dob req) today ->
  predict today req = Ok r ->
  exists (base : float) (ha hl : Z),
    get_base_life_expectancy (country req) (sex req) = Ok base
    /\ (current_age today (dob req) + minimal_future
        <=? lifespan_years today req base)%float = true
    /\ hundredths (current_age today (dob req)) = Some ha
    /\ hundredths (lifespan_years today req base) = Some hl
    /\ current_age_years r = (float_of_int ha / 100)%float
    /\ adjusted_life_expectancy_years r = (float_of_int hl / 100)%float
    /\ 0 <= ha /\ ha + 25 <= hl.
Proof.
  intros Vt Vr Hle Hr.
  destruct (predict_from_facts today req Vt Vr Hle)
    as (base & days & Hbase & Hf & _ & _ & _ & Heq).
  rewrite Heq in Hr. apply bind_Ok_inv in Hr as (dte & _ & Hr).
  injection Hr as <-.
  cbn [current_age_years adjusted_life_expectancy_years response].
  destruct (lf_hundredths _ _ _ Hf) as (ha & hl & Hha & Hhl & Ha0 & Hal & Hl53).
  destruct (lf_signs _ _ _ Hf) as [Hsa Hsl].
  exists base, ha, hl.
  split; [exact Hbase|]. split; [exact (lf_buffer _ _ _ Hf)|].
  split; [exact Hha|]. split; [exact Hhl|].
  split; [apply round2_eq; try assumption; lia|].
  split; [apply round2_eq; try assumption; lia|].
  lia.
Qed.

Lemma C2_witness :
  exists (r : PredictionResponse) (ha hl : Z),
    predict sample_today sample_request = Ok r
    /\ current_age_years r = (float_of_int ha / 100)%float
    /\ adjusted_life_expectancy_years r = (float_of_int hl / 100)%float
    /\ 0 <= ha /\ ha + 25 <= hl.
Proof.
  destruct (predict sample_today sample_request) as [r|e] eqn:E.
  - destruct (C2_buffer_invariant sample_today sample_request r
                sample_today_valid sample_request_valid sample_request_born E)
      as (base & ha & hl & _ & _ & _ & _ & Ha & Hl & H0 & H25).
    exists r, ha, hl. auto.
  - vm_compute in E. discriminate E.
Defined.

Definition elder_request : PredictionRequest :=
  {| dob := date_of_ymd 1960 8 26; sex := "male"; country := "india";
     bmi := 40%float; smoking_status := "heavy"; alcohol_use := "heavy";
     exercise_level := "sedentary" |}.

(** A valid request, 23290 days after the date of birth: the response
    carries the age 63.77 and the adjusted expectancy 64.02, and in
    binary64 arithmetic 63.77 + 0.25 is greater than 64.02 and
    64.02 - 63.77 is less than 0.25. *)
Lemma C2_counterexample :
  valid_request elder_request
  /\ date_le (dob elder_request) sample_today
  /\ exists r, predict sample_today elder_request = Ok r
               /\ current_age_years r = 63.77%float
               /\ adjusted_life_expectancy_years r = 64.02%float
               /\ (current_age_years r + 0.25
                   <=? adjusted_life_expectancy_years r)%float = false
               /\ (adjusted_life_expectancy_years r - current_age_years r
                   <? 0.25)%float = true.
Proof.
  split; [split; cbn; auto 10;
          unfold valid_date; vm_compute; split; discriminate|].
  split; [unfold date_le; vm_compute; discriminate|].
  destruct (predict sample_today elder_request) as [r|e] eqn:E.
  - exists r. split; [reflexivity|].
    vm_compute in E. injection E as <-. vm_compute. auto.
  - vm_compute in E. discriminate E.
Qed.

(** ** C1: the worked example *)

(** C1 (amended). For dob 1990-01-01, male, "usa", bmi 22, no smoking, no
    alcohol, moderate exercise, on any today not before the date of birth
    with current age + 0.25 <= 78.0, [predict] returns base 74.5, the
    modifiers bmi +0.5, smoking +1.5, alcohol +0.5, exercise +1.0, adjusted
    78.0, and the estimated death date 1990-01-01 + 28489 days, which is
    2068-01-01. *)
Theorem C1_worked_example (today : date) :
  date_le (dob sample_request) today ->
  (current_age today (dob sample_request) + minimal_future <=? 78.0)%float
  = true ->
  exists r,
    predict today sample_request = Ok r
    /\ base_life_expectancy_years r = 74.5%float
    /\ modifiers_applied r !! "bmi" = Some 0.5%float
    /\ modifiers_applied r !! "smoking" = Some 1.5%float
    /\ modifiers_applied r !! "alcohol" = Some 0.5%float
    /\ modifiers_applied r !! "exercise" = Some 1.0%float
    /\ (0.5 + 1.5 + 0.5 + 1.0)%float = 3.5%float
    /\ adjusted_life_expectancy_years r = 78.0%float
    /\ round_int (78.0 * 365.2425)%float = Ok 28489
    /\ toordinal (estimated_death_date r)
       = toordinal (dob sample_request) + 28489
    /\ estimated_death_date r = date_of_ymd 2068 1 1
    /\ ymd_of_date (estimated_death_date r) = (2068, 1, 1).
Proof.
  intros Hle Hage.
  assert (Hbase : get_base_life_expectancy (country sample_request)
                    (sex sample_request) = Ok 74.5%float)
    by (vm_compute; reflexivity).
  assert (Hlife : lifespan_years today sample_request 74.5 = 78.0%float).
  { unfold lifespan_years, py_max.
    change (adjusted_sum 74.5 (bmi sample_request)
              (smoking_status sample_request) (alcohol_use sample_request)
              (exercise_level sample_request)) with 78.0%float.
    rewrite ltb_negb_leb, Hage; [reflexivity|reflexivity|].
    apply (fnan_of_leb_l _ _ Hage). }
  assert (Hdays : round_int (lifespan_years today sample_request 74.5
                             * 365.2425)%float = Ok 28489)
    by (rewrite Hlife; vm_compute; reflexivity).
  assert (Hdate : date_add_days (dob sample_request) 28489
                  = Ok (date_of_ymd 2068 1 1))
    by (vm_compute; reflexivity).
  apply date_gtb_false in Hle.
  exists (response today sample_request 74.5 (date_of_ymd 2068 1 1)).
  split; [exact (predict_Ok_intro _ _ _ _ _ Hle Hbase Hdays Hdate)|].
  cbn [base_life_expectancy_years modifiers_applied
         adjusted_life_expectancy_years estimated_death_date response].
  rewrite Hlife.
  repeat split; vm_compute; reflexivity.
Qed.

Lemma C1_witness :
  exists r,
    predict sample_today sample_request = Ok r
    /\ base_life_expectancy_years r = 74.5%float
    /\ adjusted_life_expectancy_years r = 78.0%float
    /\ ymd_of_date (estimated_death_date r) = (2068, 1, 1).
Proof.
  destruct (C1_worked_example sample_today)
    as (r & Hr & Hb & _ & _ & _ & _ & _ & Ha & _ & _ & _ & Hymd).
  - exact sample_request_born.
  - vm_compute. reflexivity.
  - exists r. auto.
Defined.

(** The date the specification gives for the example, 2067-12-02, is 30
    days before the date [predict] returns, 2068-01-01: more than the one
    day the specification allows for rounding. *)
Lemma C1_counterexample :
  exists r,
    predict sample_today sample_request = Ok r
    /\ ymd_of_date (estimated_death_date r) = (2068, 1, 1)
    /\ toordinal (estimated_death_date r)
       - toordinal (date_of_ymd 2067 12 2) = 30.
Proof.
  destruct (predict sample_today sample_request) as [r|e] eqn:E.
  - exists r. split; [reflexivity|].
    vm_compute in E. injection E as <-. vm_compute. auto.
  - vm_compute in E. discriminate E.
Qed.

(** * Further properties of the prediction core *)

(** ** From hundredths to whole numbers *)

Lemma rne_div_of_hundredths (n P h k : Z) :
  0 < P -> rne_div (100 * n) P = h -> 100 * k - 49 <= h <= 100 * k + 49 ->
  rne_div n P = k.
Proof.
  intros HP Hh Hk.
  pose proof (rne_div_bounds (100 * n) P HP) as B1. rewrite Hh in B1.
  pose proof (rne_div_bounds n P HP) as B2.
  set (k' := rne_div n P) in *.
  destruct (Z.lt_total k' k) as [Hlt|[Heq|Hgt]]; [exfalso| exact Heq |exfalso].
  - assert (k' + 1 <= k) by lia.
    assert (2 * k' * P + P <= (2 * k - 1) * P) by nia.
    assert ((200 * k - 99) * P <= 2 * h * P - P) by nia.
    nia.
  - assert (k + 1 <= k') by lia.
    assert ((2 * k + 1) * P <= 2 * k' * P - P) by nia.
    assert (2 * h * P + P <= (200 * k + 99) * P) by nia.
    nia.
Qed.

Lemma SF_round_scaled_signed (k : Z) (s : bool) (m : positive) (e : Z) :
  -1074 <= e ->
  SF_round_scaled k (S754_finite s m e)
  = Some (cond_Zopp s
            (rne_div (k * (Z.pos m * 2 ^ (e + 1074))) (2 ^ 1074))).
Proof.
  intros He. pose proof (SF_round_scaled_num k m e He) as H.
  cbn [SF_round_scaled cond_Zopp] in *. injection H as H.
  destruct s; cbn [cond_Zopp]; rewrite H; reflexivity.
Qed.

Lemma round_int_of_hundredths (f : float) (h k : Z) :
  hundredths f = Some h -> 100 * k - 49 <= h <= 100 * k + 49 ->
  round_int f = Ok k.
Proof.
  unfold hundredths, round_int. intros Hh Hk.
  pose proof (Prim2SF_valid f) as Hv.
  destruct (Prim2SF f) as [s|s| |s m e]; try discriminate Hh.
  - cbn in Hh |- *. injection Hh as <-. f_equal. lia.
  - apply valid_finite_bounds in Hv as (He & _).
    rewrite SF_round_scaled_signed in Hh |- * by lia.
    injection Hh as Hh. f_equal.
    assert (HP : 0 < 2 ^ 1074) by (apply Z.pow_pos_nonneg; lia).
    set (n := Z.pos m * 2 ^ (e + 1074)) in *.
    rewrite Z.mul_1_l.
    destruct s; cbn [cond_Zopp] in *.
    + rewrite (rne_div_of_hundredths n _ (- h) (- k) HP); lia.
    + apply (rne_div_of_hundredths n _ h k HP); lia.
Qed.

(** ** A second pass over the day counts of the calendar *)

Definition day_ok2 (i : int) : bool :=
  let y := (PrimFloat.of_uint63 i / 365.2425)%float in
  let a := age_of_days i in
  let x := (a + minimal_future)%float in
  let p := (x * 365.2425)%float in
  PrimFloat.Leibniz.eqb a y && (0 <=? y)%float
  && match fast_hundredths p with
     | Some h =>
         (100 * (i + 91) <=? h)%uint63 && (h <=? 100 * (i + 91) + 49)%uint63
     | None => false
     end
  && ((if (i <? 33728)%uint63 then block_max (i + 90)%uint63
       else 92.5%float) <? x)%float.

Definition block_ok2 (k : int) : bool :=
  if (57065 <=? k)%uint63 then true
  else forall_days 64 day_ok2 (64 * k)%uint63.

Lemma all_blocks_checked2 : forall_blocks 16 block_ok2 0%uint63 = true.
Proof. vm_compute. reflexivity. Qed.

Record day_facts2 (d : Z) : Prop := {
  df2_clamp :
    age_of_days (Uint63.of_Z d)
    = (PrimFloat.of_uint63 (Uint63.of_Z d) / 365.2425)%float;
  df2_nonneg :
    (0 <=? PrimFloat.of_uint63 (Uint63.of_Z d) / 365.2425)%float = true;
  df2_days :
    round_int ((age_of_days (Uint63.of_Z d) + minimal_future)
               * 365.2425)%float = Ok (d + 91);
  df2_above :
    forall p, In p adjusted_days -> Uint63.to_Z (snd p) <= d + 90 ->
      (fst p <? age_of_days (Uint63.of_Z d) + minimal_future)%float = true
}.

Lemma day_ok2_facts (d : Z) :
  0 <= d <= 3652159 -> day_ok2 (Uint63.of_Z d) = true -> day_facts2 d.
Proof.
  intros Hd H. unfold day_ok2 in H. cbv zeta in H.
  pose proof wB_value as HwB.
  assert (Hi : Uint63.to_Z (Uint63.of_Z d) = d).
  { rewrite Uint63.of_Z_spec. apply Z.mod_small. lia. }
  apply andb_true_iff in H as [H Hb]. apply andb_true_iff in H as [H Hh].
  apply andb_true_iff in H as [Hc Hy].
  apply FloatAxioms.Leibniz.eqb_spec in Hc.
  split; [exact Hc | exact Hy | |].
  - destruct (fast_hundredths
                ((age_of_days (Uint63.of_Z d) + minimal_future)
                 * 365.2425)%float) as [h|] eqn:Eh; [|discriminate Hh].
    apply fast_hundredths_sound in Eh as [Eh _].
    apply andb_true_iff in Hh as [H1 H2].
    apply Uint63.leb_spec in H1, H2.
    assert (H91 : Uint63.to_Z (100 * (Uint63.of_Z d + 91))%uint63
                  = 100 * (d + 91)).
    { rewrite Uint63.mul_spec, Uint63.add_spec, Hi.
      change (Uint63.to_Z 100) with 100. change (Uint63.to_Z 91) with 91.
      rewrite (Z.mod_small (d + 91)) by lia. apply Z.mod_small. lia. }
    rewrite Uint63.add_spec, H91 in H2. rewrite H91 in H1.
    change (Uint63.to_Z 49) with 49 in H2.
    rewrite Z.mod_small in H2 by lia.
    apply (round_int_of_hundredths _ _ _ Eh). lia.
  - intros p Hp Hle. apply leb_ltb_trans with (2 := Hb).
    destruct (Uint63.of_Z d <? 33728)%uint63.
    + apply block_max_upper; [exact Hp|]. apply Uint63.leb_spec.
      rewrite Uint63.add_spec, Hi. change (Uint63.to_Z 90) with 90.
      rewrite Z.mod_small by lia. exact Hle.
    + apply adjusted_days_entry, Hp.
Qed.

Lemma day_facts2_hold (d : Z) : 0 <= d <= 3652058 -> day_facts2 d.
Proof.
  intros Hd.
  pose proof (Z.div_mod d 64 ltac:(lia)) as Hdm.
  pose proof (Z.mod_pos_bound d 64 ltac:(lia)) as Hr.
  assert (Hq : 0 <= d / 64 < 57065).
  { split; [apply Z.div_pos; lia|]. apply Z.div_lt_upper_bound; lia. }
  pose proof wB_value as HwB.
  set (k := Uint63.of_Z (d / 64)).
  assert (Hk : Uint63.to_Z k = d / 64).
  { unfold k. rewrite Uint63.of_Z_spec. apply Z.mod_small. lia. }
  assert (Hblock : block_ok2 k = true).
  { apply (forall_blocks_sound 16 block_ok2 0%uint63 all_blocks_checked2);
      change (Uint63.to_Z 0) with 0; change (2 ^ Z.of_nat 16) with 65536; lia. }
  unfold block_ok2 in Hblock.
  destruct (57065 <=? k)%uint63 eqn:Eg.
  { apply Uint63.leb_spec in Eg.
    change (Uint63.to_Z 57065) with 57065 in Eg. lia. }
  assert (H64k : Uint63.to_Z (64 * k)%uint63 = 64 * (d / 64)).
  { rewrite Uint63.mul_spec, Hk. change (Uint63.to_Z 64) with 64.
    apply Z.mod_small. lia. }
  apply day_ok2_facts; [lia|].
  apply (forall_days_sound 64 _ _ Hblock); rewrite H64k;
    change (Z.of_nat 64) with 64; lia.
Qed.

(** ** The clamp of the current age *)

(** X1. For a date of birth not after today, [years_between] is at least
    0 and the clamp [max(0.0, ...)] of [predict] leaves it unchanged: the
    current age is [years_between dob today] itself. *)
Theorem current_age_is_years_between (today d0 : date) :
  valid_date today -> valid_date d0 -> date_le d0 today ->
  current_age today d0 = years_between d0 today
  /\ (0 <=? years_between d0 today)%float = true.
Proof.
  intros Vt Vd Hle.
  pose proof (days_between_range _ _ Vt Vd Hle) as Hd.
  destruct (day_facts2_hold _ Hd) as [Hclamp Hnonneg _ _].
  rewrite (current_age_days _ _ Hle). unfold years_between.
  rewrite float_of_int_nonneg by lia. split; assumption.
Qed.

Lemma current_age_is_years_between_witness :
  current_age sample_today (dob sample_request)
  = years_between (dob sample_request) sample_today
  /\ (0 <=? years_between (dob sample_request) sample_today)%float = true.
Proof.
  apply current_age_is_years_between.
  - exact sample_today_valid.
  - exact (valid_dob _ sample_request_valid).
  - exact sample_request_born.
Defined.

(** ** The estimated date, to the day *)

Lemma lifespan_days_exact (today : date) (req : PredictionRequest)
    (base : float) :
  valid_date today -> valid_date (dob req) -> date_le (dob req) today ->
  In base resolver_values ->
  exists n,
    round_int (lifespan_years today req base * 365.2425)%float = Ok n
    /\ ((adjusted_sum base (bmi req) (smoking_status req) (alcohol_use req)
           (exercise_level req)
         <? current_age today (dob req) + minimal_future)%float = true ->
        n = days_between (dob req) today + 91)
    /\ ((adjusted_sum base (bmi req) (smoking_status req) (alcohol_use req)
           (exercise_level req)
         <? current_age today (dob req) + minimal_future)%float = false ->
        days_between (dob req) today + 91 <= n < 34000).
Proof.
  intros Vt Vd Hle Hbase.
  pose proof (days_between_range _ _ Vt Vd Hle) as Hd.
  destruct (day_facts2_hold _ Hd) as [_ _ Hdays Habove].
  destruct (adjusted_sum_listed base (bmi req) (smoking_status req)
              (alcohol_use req) (exercise_level req) Hbase) as [na Hin].
  destruct (adjusted_days_entry _ Hin) as [(n' & Hn' & Hn'v & Hn'b) _].
  cbn [fst snd] in *.
  unfold lifespan_years, py_max.
  rewrite (current_age_days _ _ Hle) in *.
  destruct (adjusted_sum base (bmi req) (smoking_status req)
              (alcohol_use req) (exercise_level req)
            <? age_of_days (Uint63.of_Z (days_between (dob req) today))
               + minimal_future)%float eqn:Hlt.
  - exists (days_between (dob req) today + 91).
    split; [exact Hdays|]. split; [reflexivity | discriminate].
  - exists n'. split; [exact Hn'|]. split; [discriminate|]. intros _.
    split; [|lia].
    destruct (Z_le_gt_dec n' (days_between (dob req) today + 90)) as [Hc|Hc];
      [|lia].
    exfalso. rewrite Hn'v in Hc.
    pose proof (Habove _ Hin Hc) as Hcontra. cbn [fst] in Hcontra.
    rewrite Hcontra in Hlt. discriminate Hlt.
Qed.

(** X2. When the adjusted expectancy is below the current age plus 0.25,
    so that the buffer decides the lifespan, the estimated death date of a
    response is exactly 91 days after today, and the adjusted field is the
    current age plus 0.25, rounded. *)
Theorem buffer_gives_today_plus_91 (today : date) (req : PredictionRequest)
    (r : PredictionResponse) (base adjusted : float)
    (modifiers : gmap str float) :
  valid_date today -> valid_request req -> date_le (dob req) today ->
  get_base_life_expectancy (country req) (sex req) = Ok base ->
  apply_lifestyle_modifiers base (bmi req) (smoking_status req)
    (alcohol_use req) (exercise_level req) = Ok (adjusted, modifiers) ->
  (adjusted <? current_age today (dob req) + minimal_future)%float = true ->
  predict today req = Ok r ->
  toordinal (estimated_death_date r) = toordinal today + 91
  /\ adjusted_life_expectancy_years r
     = round2 (current_age today (dob req) + minimal_future)%float.
Proof.
  intros Vt Vr Hle Hbase Happly Hlt Hr.
  rewrite apply_lifestyle_modifiers_eq in Happly. injection Happly as <- <-.
  apply predict_Ok_inv in Hr
    as (_ & base' & days & dte & Hbase' & Hdays & Hdte & ->).
  rewrite Hbase in Hbase'. injection Hbase' as <-.
  pose proof (get_base_life_expectancy_values _ _ _ Hbase) as Hin.
  destruct (lifespan_days_exact today req base Vt (valid_dob _ Vr) Hle Hin)
    as (n & Hn & Hbind & _).
  rewrite Hn in Hdays. injection Hdays as <-.
  specialize (Hbind Hlt). apply date_add_days_inv in Hdte.
  cbn [estimated_death_date adjusted_life_expectancy_years response].
  split.
  - unfold days_between in Hbind. lia.
  - unfold lifespan_years, py_max. rewrite Hlt. reflexivity.
Qed.

Lemma elder_request_valid : valid_request elder_request.
Proof.
  split; cbn; auto 10. unfold valid_date. vm_compute. split; discriminate.
Qed.

Lemma elder_request_born : date_le (dob elder_request) sample_today.
Proof. unfold date_le. vm_compute. discriminate. Qed.

Lemma buffer_gives_today_plus_91_witness :
  exists r, predict sample_today elder_request = Ok r
            /\ toordinal (estimated_death_date r)
               = toordinal sample_today + 91
            /\ ymd_of_date (estimated_death_date r) = (2024, 8, 31).
Proof.
  destruct (predict sample_today elder_request) as [r|e] eqn:E.
  - exists r. split; [reflexivity|].
    destruct (buffer_gives_today_plus_91 sample_today elder_request r
                67.2 51.2 (breakdown 40 "heavy" "heavy" "sedentary"))
      as [Hdate _]; try exact E.
    + exact sample_today_valid.
    + exact elder_request_valid.
    + exact elder_request_born.
    + vm_compute. reflexivity.
    + vm_compute. reflexivity.
    + vm_compute. reflexivity.
    + split; [exact Hdate|].
      unfold ymd_of_date. rewrite Hdate. vm_compute. reflexivity.
  - vm_compute in E. discriminate E.
Defined.

(** X3. The estimated death date of every response is at least 91 days
    after today, and at most 33999 days after the date of birth unless the
    buffer puts it 91 days after today. *)
Theorem estimated_date_window (today : date) (req : PredictionRequest)
    (r : PredictionResponse) :
  valid_date today -> valid_request req -> date_le (dob req) today ->
  predict today req = Ok r ->
  toordinal today + 91 <= toordinal (estimated_death_date r)
  /\ toordinal (estimated_death_date r)
     <= Z.max (toordinal today + 91) (toordinal (dob req) + 33999).
Proof.
  intros Vt Vr Hle Hr.
  apply predict_Ok_inv in Hr
    as (_ & base & days & dte & Hbase & Hdays & Hdte & ->).
  pose proof (get_base_life_expectancy_values _ _ _ Hbase) as Hin.
  destruct (lifespan_days_exact today req base Vt (valid_dob _ Vr) Hle Hin)
    as (n & Hn & Hbind & Hfree).
  rewrite Hn in Hdays. injection Hdays as <-.
  apply date_add_days_inv in Hdte.
  cbn [estimated_death_date response]. unfold days_between in *.
  destruct (adjusted_sum base (bmi req) (smoking_status req)
              (alcohol_use req) (exercise_level req)
            <? current_age today (dob req) + minimal_future)%float.
  - specialize (Hbind eq_refl). lia.
  - specialize (Hfree eq_refl). lia.
Qed.

Lemma estimated_date_window_witness :
  exists r, predict sample_today sample_request = Ok r
            /\ toordinal sample_today + 91
               <= toordinal (estimated_death_date r)
               <= Z.max (toordinal sample_today + 91)
                    (toordinal (dob sample_request) + 33999).
Proof.
  destruct (predict sample_today sample_request) as [r|e] eqn:E.
  - exists r. split; [reflexivity|].
    exact (estimated_date_window sample_today sample_request r
             sample_today_valid sample_request_valid sample_request_born E).
  - vm_compute in E. discriminate E.
Defined.

(** ** Independence of today *)

(** X4. While the current age plus 0.25 does not exceed the adjusted
    expectancy, the response does not depend on today except for the
    current age: two predictions of one request have the same estimated
    death date, base, adjusted expectancy and modifiers. *)
Theorem response_independent_of_today (today1 today2 : date)
    (req : PredictionRequest) (r1 r2 : PredictionResponse)
    (base adjusted : float) (modifiers : gmap str float) :
  get_base_life_expectancy (country req) (sex req) = Ok base ->
  apply_lifestyle_modifiers base (bmi req) (smoking_status req)
    (alcohol_use req) (exercise_level req) = Ok (adjusted, modifiers) ->
  (current_age today1 (dob req) + minimal_future <=? adjusted)%float = true ->
  (current_age today2 (dob req) + minimal_future <=? adjusted)%float = true ->
  predict today1 req = Ok r1 -> predict today2 req = Ok r2 ->
  estimated_death_date r1 = estimated_death_date r2
  /\ base_life_expectancy_years r1 = base_life_expectancy_years r2
  /\ adjusted_life_expectancy_years r1 = round2 adjusted
  /\ adjusted_life_expectancy_years r2 = round2 adjusted
  /\ modifiers_applied r1 = modifiers_applied r2.
Proof.
  intros Hbase Happly H1 H2 Hr1 Hr2.
  rewrite apply_lifestyle_modifiers_eq in Happly. injection Happly as <- <-.
  assert (Hlife : forall today,
             (current_age today (dob req) + minimal_future
              <=? adjusted_sum base (bmi req) (smoking_status req)
                    (alcohol_use req) (exercise_level req))%float = true ->
             lifespan_years today req base
             = adjusted_sum base (bmi req) (smoking_status req)
                 (alcohol_use req) (exercise_level req)).
  { intros today H. unfold lifespan_years, py_max.
    pose proof H as (Hx & Ha & _)%leb_key.
    rewrite ltb_negb_leb, H by assumption. reflexivity. }
  apply predict_Ok_inv in Hr1
    as (_ & b1 & days1 & dte1 & Hb1 & Hdays1 & Hdte1 & ->).
  apply predict_Ok_inv in Hr2
    as (_ & b2 & days2 & dte2 & Hb2 & Hdays2 & Hdte2 & ->).
  rewrite Hbase in Hb1, Hb2. injection Hb1 as <-. injection Hb2 as <-.
  rewrite (Hlife _ H1) in Hdays1. rewrite (Hlife _ H2) in Hdays2.
  rewrite Hdays1 in Hdays2. injection Hdays2 as <-.
  rewrite Hdte1 in Hdte2. injection Hdte2 as <-.
  cbn [estimated_death_date base_life_expectancy_years
         adjusted_life_expectancy_years modifiers_applied response].
  rewrite (Hlife _ H1), (Hlife _ H2). auto.
Qed.

Lemma response_independent_of_today_witness :
  exists r1 r2,
    predict sample_today sample_request = Ok r1
    /\ predict (date_of_ymd 2031 3 9) sample_request = Ok r2
    /\ estimated_death_date r1 = estimated_death_date r2.
Proof.
  destruct (predict sample_today sample_request) as [r1|e] eqn:E1;
    [|vm_compute in E1; discriminate E1].
  destruct (predict (date_of_ymd 2031 3 9) sample_request) as [r2|e] eqn:E2;
    [|vm_compute in E2; discriminate E2].
  exists r1, r2. split; [reflexivity|]. split; [reflexivity|].
  refine (proj1 (response_independent_of_today sample_today
                   (date_of_ymd 2031 3 9) sample_request r1 r2 74.5 78.0
                   (breakdown 22 "none" "none" "moderate")
                   _ _ _ _ E1 E2)); vm_compute; reflexivity.
Defined.

(** ** The resolver outside and inside its two sexes *)

Lemma by_sex_lookup_None (m f : float) (sex : str) :
  ~ In sex sex_literals -> by_sex m f !! sex = None.
Proof.
  intros H. unfold by_sex.
  rewrite !lookup_insert_ne, lookup_empty; [reflexivity| |];
    intros <-; apply H; cbn; auto.
Qed.

Lemma LIFE_TABLE_rows (key : str) (row : gmap str float) :
  LIFE_TABLE !! key = Some row ->
  exists m f, row = by_sex m f
              /\ (67.2 <=? m)%float = true /\ (m <? f)%float = true
              /\ (f <=? 87.5)%float = true.
Proof.
  intros E. apply list_to_map_lookup_In in E. cbn in E.
  repeat (destruct E as [E|E];
          [injection E as _ <-; eexists _, _;
           split; [reflexivity | repeat split; vm_compute; reflexivity]|]).
  destruct E.
Qed.

(** X5. A sex outside "male" and "female" (a caller that bypasses the
    validation of the request) makes the resolver raise KeyError on that
    sex, for every country, and [predict] propagates it when the date of
    birth is not after today. *)
Theorem resolver_KeyError_on_unknown_sex (c sx : str) :
  ~ In sx sex_literals ->
  get_base_life_expectancy c sx = Err (KeyError sx)
  /\ forall (today : date) (req : PredictionRequest),
      country req = c -> sex req = sx -> date_le (dob req) today ->
      predict today req = Err (KeyError sx).
Proof.
  intros Hsex.
  assert (H : get_base_life_expectancy c sx = Err (KeyError sx)).
  { destruct (LIFE_TABLE !! normalize c) as [row|] eqn:E.
    - rewrite (get_base_life_expectancy_known _ _ _ E).
      destruct (LIFE_TABLE_rows _ _ E) as (m & f & -> & _).
      unfold subscript. rewrite (by_sex_lookup_None _ _ _ Hsex). reflexivity.
    - rewrite (get_base_life_expectancy_unknown _ _ E).
      unfold subscript. rewrite (by_sex_lookup_None _ _ _ Hsex). reflexivity. }
  split; [exact H|].
  intros today req <- <- Hle. apply date_gtb_false in Hle.
  rewrite predict_eq, Hle, H. reflexivity.
Qed.

Lemma resolver_KeyError_on_unknown_sex_witness :
  get_base_life_expectancy "Canada" "other" = Err (KeyError "other")
  /\ predict sample_today
       {| dob := date_of_ymd 1990 1 1; sex := "other"; country := "Canada";
          bmi := 22%float; smoking_status := "none"; alcohol_use := "none";
          exercise_level := "moderate" |}
     = Err (KeyError "other").
Proof.
  destruct (resolver_KeyError_on_unknown_sex "Canada" "other") as [H1 H2].
  - apply not_In_literals. reflexivity.
  - split; [exact H1|]. apply H2; try reflexivity.
    unfold date_le. vm_compute. discriminate.
Defined.

(** X6. For every country and either sex the resolver returns a base
    between 67.2 and 87.5 years. *)
Theorem base_expectancy_range (c sx : str) :
  In sx sex_literals ->
  exists base,
    get_base_life_expectancy c sx = Ok base
    /\ (67.2 <=? base)%float = true /\ (base <=? 87.5)%float = true.
Proof.
  intros Hsex.
  destruct (get_base_life_expectancy_total c sx Hsex) as [base Hbase].
  exists base. split; [exact Hbase|].
  apply get_base_life_expectancy_values in Hbase. apply andb_true_iff.
  revert base Hbase. apply forallb_forall. vm_compute. reflexivity.
Qed.

Lemma base_expectancy_range_witness :
  exists base,
    get_base_life_expectancy " India " "male" = Ok base
    /\ (67.2 <=? base)%float = true /\ (base <=? 87.5)%float = true.
Proof. apply base_expectancy_range. cbn. auto. Defined.

(** X7. The base figure of a response is the resolver's value itself:
    rounding to two decimals never changes it. *)
Theorem response_base_is_resolver_value (today : date)
    (req : PredictionRequest) (r : PredictionResponse) :
  predict today req = Ok r ->
  get_base_life_expectancy (country req) (sex req)
  = Ok (base_life_expectancy_years r).
Proof.
  intros Hr.
  apply predict_Ok_inv in Hr as (_ & base & days & dte & Hbase & _ & _ & ->).
  cbn [base_life_expectancy_years response]. rewrite Hbase. f_equal.
  apply eq_sym, FloatAxioms.Leibniz.eqb_spec.
  apply get_base_life_expectancy_values in Hbase.
  revert base Hbase. apply forallb_forall. vm_compute. reflexivity.
Qed.

Lemma response_base_is_resolver_value_witness :
  exists r, predict sample_today atlantis_request = Ok r
            /\ get_base_life_expectancy "Atlantis" "female"
               = Ok (base_life_expectancy_years r).
Proof.
  destruct (predict sample_today atlantis_request) as [r|e] eqn:E.
  - exists r. split; [reflexivity|].
    exact (response_base_is_resolver_value _ _ _ E).
  - vm_compute in E. discriminate E.
Defined.

(** X8. For every country the female base expectancy is strictly above
    the male one. *)
Theorem female_base_exceeds_male (c : str) :
  exists m f,
    get_base_life_expectancy c "male" = Ok m
    /\ get_base_life_expectancy c "female" = Ok f
    /\ (m <? f)%float = true.
Proof.
  destruct (LIFE_TABLE !! normalize c) as [row|] eqn:E.
  - destruct (LIFE_TABLE_rows _ _ E) as (m & f & -> & _ & Hlt & _).
    destruct (by_sex_lookup m f) as [Hm Hf].
    exists m, f. rewrite !(get_base_life_expectancy_known _ _ _ E).
    split; [apply subscript_Ok, Hm|]. split; [apply subscript_Ok, Hf|].
    exact Hlt.
  - destruct (by_sex_lookup 70.0 75.0) as [Hm Hf].
    exists 70.0%float, 75.0%float.
    rewrite !(get_base_life_expectancy_unknown _ _ E).
    split; [apply subscript_Ok, Hm|]. split; [apply subscript_Ok, Hf|].
    reflexivity.
Qed.

(** X9. From a base of the resolver, the engine's adjusted expectancy lies
    between 51.2 and 92.0 years, whatever the bmi and the categories. *)
Theorem adjusted_expectancy_range (c sx : str) (base bmi : float)
    (s a e : str) :
  get_base_life_expectancy c sx = Ok base ->
  exists adjusted adjustments,
    apply_lifestyle_modifiers base bmi s a e = Ok (adjusted, adjustments)
    /\ (51.2 <=? adjusted)%float = true /\ (adjusted <=? 92.0)%float = true.
Proof.
  intros Hbase. apply get_base_life_expectancy_values in Hbase.
  eexists _, _. split; [apply apply_lifestyle_modifiers_eq|].
  apply andb_true_iff. unfold adjusted_sum.
  apply (all_combinations_elim
           (fun b vb vs va ve =>
              (51.2 <=? b + vb + vs + va + ve)%float
              && (b + vb + vs + va + ve <=? 92.0)%float));
    [vm_compute; reflexivity | exact Hbase | apply bmi_modifier_values
     | apply smoking_modifier_values | apply alcohol_modifier_values
     | apply exercise_modifier_values].
Qed.

Lemma adjusted_expectancy_range_witness :
  exists adjusted adjustments,
    apply_lifestyle_modifiers 87.5 22 "none" "none" "high"
    = Ok (adjusted, adjustments)
    /\ (51.2 <=? adjusted)%float = true /\ (adjusted <=? 92.0)%float = true.
Proof.
  apply (adjusted_expectancy_range "japan" "female").
  vm_compute. reflexivity.
Defined.

(** ** [years_between] in the other direction *)

Lemma binary_round_aux_opp (s : bool) (m e : Z) (l : location) :
  binary_round_aux prec emax (negb s) m e l
  = SFopp (binary_round_aux prec emax s m e l).
Proof.
  unfold binary_round_aux.
  destruct (shr_fexp prec emax m e l) as [mrs' e'].
  destruct (shr_fexp prec emax
              (round_nearest_even (shr_m mrs') (loc_of_shr_record mrs'))
              e' loc_Exact) as [mrs'' e''].
  destruct (shr_m mrs''); [reflexivity| |reflexivity].
  destruct (e'' <=? emax - prec); reflexivity.
Qed.

Lemma SFdiv_opp_l (x y : spec_float) :
  SF64div (SFopp x) y = SFopp (SF64div x y).
Proof.
  unfold SF64div.
  destruct x as [sx|sx| |sx mx ex], y as [sy|sy| |sy my ey];
    cbn [SFdiv SFopp]; rewrite ?negb_xorb_l; try reflexivity.
  destruct (SFdiv_core_binary prec emax (Z.pos mx) ex (Z.pos my) ey)
    as [[mz ez] lz].
  rewrite <- negb_xorb_l. apply binary_round_aux_opp.
Qed.

Lemma float_div_opp_l (x y : float) :
  (PrimFloat.opp x / y)%float = PrimFloat.opp (x / y)%float.
Proof.
  apply Prim2SF_inj.
  rewrite FloatAxioms.div_spec, !FloatAxioms.opp_spec, FloatAxioms.div_spec.
  apply SFdiv_opp_l.
Qed.

Lemma float_opp_involutive (x : float) :
  PrimFloat.opp (PrimFloat.opp x) = x.
Proof.
  apply Prim2SF_inj. rewrite !FloatAxioms.opp_spec.
  destruct (Prim2SF x) as [s|s| |s m e]; cbn; rewrite ?negb_involutive;
    reflexivity.
Qed.

Lemma float_of_int_opp (z : Z) :
  z <> 0 -> float_of_int (- z) = PrimFloat.opp (float_of_int z).
Proof.
  intros Hz. unfold float_of_int.
  destruct (Z.ltb_spec (- z) 0), (Z.ltb_spec z 0); try lia.
  - rewrite Z.opp_involutive. reflexivity.
  - rewrite float_opp_involutive. reflexivity.
Qed.

(** X10. Swapping the two dates of [years_between] negates the result
    when the dates differ; on equal dates the result is 0.0. *)
Theorem years_between_swap (d1 d2 : date) :
  (toordinal d1 <> toordinal d2 ->
   years_between d2 d1 = PrimFloat.opp (years_between d1 d2))
  /\ years_between d1 d1 = 0.0%float.
Proof.
  split.
  - intros Hne. unfold years_between, days_between.
    replace (toordinal d1 - toordinal d2)
      with (- (toordinal d2 - toordinal d1)) by lia.
    rewrite float_of_int_opp by lia. apply float_div_opp_l.
  - unfold years_between, days_between. rewrite Z.sub_diag. reflexivity.
Qed.

Lemma years_between_swap_witness :
  years_between sample_today (dob sample_request)
  = PrimFloat.opp (years_between (dob sample_request) sample_today).
Proof.
  apply (proj1 (years_between_swap (dob sample_request) sample_today)).
  vm_compute. discriminate.
Defined.

(** ** Whitespace around the country *)

(** A string of whitespace code points only. *)
Definition all_space (w : str) : bool :=
  forallb _PyUnicode_IsWhitespace (code_points w).

(** [s + t]. *)
Definition str_concat (s t : str) : str :=
  Str (code_points s ++ code_points t).

Lemma skip_whitespace_app_space (w l : list N) :
  forallb _PyUnicode_IsWhitespace w = true ->
  skip_whitespace (w ++ l) = skip_whitespace l.
Proof.
  induction w as [|c w IH]; [reflexivity|]. cbn.
  intros [Hc Hw]%andb_true_iff. rewrite Hc. exact (IH Hw).
Qed.

Lemma skip_whitespace_app (l m : list N) :
  skip_whitespace l <> [] -> skip_whitespace (l ++ m) = skip_whitespace l ++ m.
Proof.
  induction l as [|c l IH]; [intros H; contradiction H; reflexivity|].
  cbn. destruct (_PyUnicode_IsWhitespace c); [exact IH | reflexivity].
Qed.

Lemma skip_whitespace_all_space (w : list N) :
  forallb _PyUnicode_IsWhitespace w = true -> skip_whitespace w = [].
Proof.
  intros H. rewrite <- (app_nil_r w), (skip_whitespace_app_space w [] H).
  reflexivity.
Qed.

Lemma skip_whitespace_nil (l : list N) :
  skip_whitespace l = [] -> forallb _PyUnicode_IsWhitespace l = true.
Proof.
  induction l as [|c l IH]; [reflexivity|]. cbn.
  destruct (_PyUnicode_IsWhitespace c); [exact IH | discriminate].
Qed.

Lemma strip_concat_space_l (w s : str) :
  all_space w = true -> strip (str_concat w s) = strip s.
Proof.
  intros H. unfold strip, lstrip, str_concat. cbn [code_points].
  rewrite (skip_whitespace_app_space _ _ H). reflexivity.
Qed.

Lemma strip_concat_space_r (s w : str) :
  all_space w = true -> strip (str_concat s w) = strip s.
Proof.
  intros H. unfold strip, rstrip, lstrip, str_concat. cbn [code_points].
  f_equal.
  destruct (skip_whitespace (code_points s)) as [|c m] eqn:E.
  - apply skip_whitespace_nil in E.
    rewrite (skip_whitespace_all_space (code_points s ++ code_points w));
      [reflexivity|].
    rewrite forallb_app, E. exact H.
  - rewrite skip_whitespace_app by (rewrite E; discriminate). rewrite E.
    rewrite rev_app_distr, skip_whitespace_app_space; [reflexivity|].
    unfold all_space in H. rewrite forallb_forall in H.
    apply forallb_forall. intros x Hx. apply H, in_rev, Hx.
Qed.

(** X11. Whitespace before and after the country does not change what
    the resolver returns. *)
Theorem resolver_ignores_surrounding_whitespace (w1 w2 c sx : str) :
  all_space w1 = true -> all_space w2 = true ->
  get_base_life_expectancy (str_concat w1 (str_concat c w2)) sx
  = get_base_life_expectancy c sx.
Proof.
  intros H1 H2. unfold get_base_life_expectancy.
  rewrite (strip_concat_space_l _ _ H1), (strip_concat_space_r _ _ H2).
  reflexivity.
Qed.

(** Two spaces before "Japan" and one after; an ideographic space and a
    tabulation before, a line separator and a no-break space after. *)
Lemma resolver_ignores_surrounding_whitespace_witness :
  get_base_life_expectancy (str_concat "  " (str_concat "Japan" " "))
    "female"
  = get_base_life_expectancy "Japan" "female"
  /\ get_base_life_expectancy
       (str_concat (Str [0x3000; 0x9]%N)
          (str_concat "Japan" (Str [0x2028; 0xA0]%N))) "female"
     = get_base_life_expectancy "Japan" "female".
Proof.
  split; apply resolver_ignores_surrounding_whitespace; reflexivity.
Defined.
